(** * Session lifecycle of the Kyocera Solar command line client

    A shallow embedding of [kyocera_cli.py]: the error classes, the
    login-form parser, the cookie cache, the HTTP transport with its
    retry loop, and the session manager ([login], [fetch_realtime],
    [get_status]), followed by the properties proved about them.

    Conventions of the embedding.
    - Python text is a [string]; a character is one code point below 256,
      so whitespace and case mapping are Python's restricted to that range.
    - A value that comes out of [json.load] is a [Json]; numbers are
      integers ([Z]), which also stand for the clock's epoch seconds.
    - A method of [KyoceraClient] is a function from the state of the
      world (the client's fields and what surrounds it) to an outcome and
      the state it leaves behind: an exception keeps every mutation made
      before it was raised, as in Python.
    - What the program takes from Python's library and from the outside
      (URL joining, the HTML tokenizer, the JSON decoder, the server at the
      other end of the opener) is a parameter, gathered in [Env]. *)

From Stdlib Require Import String Ascii List ZArith Lia Bool Arith.
From Stdlib Require Import Floats.PrimFloat.
Import ListNotations.

Set Warnings "-register-all".
Local Open Scope string_scope.
Local Open Scope list_scope.

(* ================================================================== *)
(** * Python text *)
(* ================================================================== *)

Module PyStr.

(** The double quote, which a literal cannot hold. *)
Definition dquote : ascii := "034"%char.

(** [str.isspace] on one character, also the class [\s] of [re]:
    U+0009..U+000D, U+001C..U+0020, U+0085 and U+00A0. *)
Definition is_space (c : ascii) : bool :=
  let n := nat_of_ascii c in
  (((9 <=? n) && (n <=? 13)) || ((28 <=? n) && (n <=? 32))
   || (n =? 133) || (n =? 160))%nat.

(** [str.lstrip()] *)
Fixpoint lstrip (s : string) : string :=
  match s with
  | String c t => if is_space c then lstrip t else s
  | EmptyString => s
  end.

(** [s.startswith(p)] *)
Definition startswith (s p : string) : bool := String.prefix p s.

(** [str.lower()] on one character: A..Z and the upper-case letters
    of U+00C0..U+00DE (all but the multiplication sign U+00D7). *)
Definition lower_char (c : ascii) : ascii :=
  let n := nat_of_ascii c in
  if (((65 <=? n) && (n <=? 90))
      || ((192 <=? n) && (n <=? 222) && negb (n =? 215)))%nat
  then ascii_of_nat (n + 32) else c.

(** [str.lower()] *)
Fixpoint lower (s : string) : string :=
  match s with
  | String c t => String (lower_char c) (lower t)
  | EmptyString => EmptyString
  end.

(** [needle in hay] *)
Fixpoint contains (needle hay : string) : bool :=
  String.prefix needle hay ||
  match hay with
  | String _ t => contains needle t
  | EmptyString => false
  end.

(** Truth value of a [str]: non-empty. *)
Definition nonempty (s : string) : bool :=
  match s with EmptyString => false | _ => true end.

(** ** The pattern of [_update_csrf_from_html]

    [<meta\s+name=Qcsrf-tokenQ\s+content=Q([^Q]+)Q], where Q stands for
    the double quote, under [re.IGNORECASE].  Every greedy repetition of
    the pattern is followed by a character outside its class, so a match
    at a position is found without backtracking. *)

(** A literal of the pattern, letters compared without case; the rest
    of the subject after it. *)
Fixpoint match_literal (lit s : string) : option string :=
  match lit, s with
  | EmptyString, _ => Some s
  | String a lit', String b s' =>
      if Ascii.eqb (lower_char a) (lower_char b)
      then match_literal lit' s' else None
  | String _ _, EmptyString => None
  end.

(** [\s+] *)
Definition match_spaces (s : string) : option string :=
  match s with
  | String c t => if is_space c then Some (lstrip t) else None
  | EmptyString => None
  end.

(** The greedy run of characters other than the double quote: the
    characters taken and the rest. *)
Fixpoint span_unquoted (s : string) : string * string :=
  match s with
  | String c t =>
      if Ascii.eqb c dquote then (EmptyString, s)
      else let (taken, rest) := span_unquoted t in (String c taken, rest)
  | EmptyString => (EmptyString, EmptyString)
  end.

Definition name_attr : string :=
  "name=" ++ String dquote "csrf-token" ++ String dquote "".
Definition content_attr : string := "content=" ++ String dquote "".

(** The pattern anchored at the start of [s]; group 1 of the match. *)
Definition match_csrf_meta (s : string) : option string :=
  match match_literal "<meta" s with
  | None => None
  | Some s1 =>
  match match_spaces s1 with
  | None => None
  | Some s2 =>
  match match_literal name_attr s2 with
  | None => None
  | Some s3 =>
  match match_spaces s3 with
  | None => None
  | Some s4 =>
  match match_literal content_attr s4 with
  | None => None
  | Some s5 =>
      let (token, rest) := span_unquoted s5 in
      match token, rest with
      | String _ _, String _ _ => Some token
      | _, _ => None
      end
  end end end end end.

(** [re.search(pattern, s)]: the leftmost match. *)
Fixpoint search_csrf_meta (s : string) : option string :=
  match match_csrf_meta s with
  | Some token => Some token
  | None =>
      match s with
      | String _ t => search_csrf_meta t
      | EmptyString => None
      end
  end.

End PyStr.

(* ================================================================== *)
(** * Python values *)
(* ================================================================== *)

(** A [dict] keeps its keys in insertion order and assigning to a key
    that is present keeps the key where (and as) it is. *)
Module PyDict.
Section Dict.
Context {K V : Type} (eqb : K -> K -> bool).

(** [d.get(k)] *)
Fixpoint get (k : K) (d : list (K * V)) : option V :=
  match d with
  | [] => None
  | (k', v) :: d' => if eqb k' k then Some v else get k d'
  end.

(** [d[k] = v] *)
Fixpoint set (k : K) (v : V) (d : list (K * V)) : list (K * V) :=
  match d with
  | [] => [(k, v)]
  | (k', v') :: d' =>
      if eqb k' k then (k', v) :: d' else (k', v') :: set k v d'
  end.

(** [k in d] *)
Definition mem (k : K) (d : list (K * V)) : bool :=
  match get k d with Some _ => true | None => false end.

(** [d.get(k, default)] *)
Definition get_default (k : K) (default : V) (d : list (K * V)) : V :=
  match get k d with Some v => v | None => default end.

(** [d.setdefault(k, v)] *)
Definition setdefault (k : K) (v : V) (d : list (K * V)) : list (K * V) :=
  if mem k d then d else set k v d.

(** [d.update(other)] *)
Definition update (other d : list (K * V)) : list (K * V) :=
  fold_left (fun acc kv => set (fst kv) (snd kv) acc) other d.

(** [list(d)]: the keys. *)
Definition keys (d : list (K * V)) : list K := map fst d.
End Dict.
End PyDict.

(** A dictionary with [str] keys. *)
Definition StrDict (V : Type) : Type := list (string * V).

(** What [json.load] returns (and [json.dump] accepts). *)
Inductive Json : Type :=
| JNull
| JBool (b : bool)
| JNum (n : Z)
| JStr (s : string)
| JArr (items : list Json)
| JObj (members : StrDict Json).

(** Truth value of an object, as [if x:] and [bool(x)] take it. *)
Definition truthy (v : Json) : bool :=
  match v with
  | JNull => false
  | JBool b => b
  | JNum n => negb (n =? 0)%Z
  | JStr s => PyStr.nonempty s
  | JArr items => match items with [] => false | _ => true end
  | JObj members => match members with [] => false | _ => true end
  end.

(** Truth value of what [d.get(k)] returned. *)
Definition truthy_opt (v : option Json) : bool :=
  match v with Some x => truthy x | None => false end.

(** ** Errors *)

(** An f-string, as its parts. *)
Inductive Fragment : Type :=
| Lit (s : string)
| Num (n : Z)
| Repr (v : Json).

Definition Message : Type := list Fragment.

(** The exceptions the program raises or meets.  The first four are the
    program's own classes; the others belong to Python and its library.
    [cause] is the exception named by [raise ... from]. *)
Inductive Exc : Type :=
| KyoceraError (msg : Message) (cause : option Exc)
| KyoceraLoginError (msg : Message)
| KyoceraAuthRequired (msg : Message) (cause : option Exc)
| KyoceraHTTPError (status_code : Z) (body : string) (cause : option Exc)
| HTTPError (code : Z)
| URLError (reason : string)
| JSONDecodeError (detail : string)
| KeyError (key : string)
| AttributeError (detail : string)
| TypeError (detail : string)
| ValueError (detail : string)
| OSError (detail : string).

(** [isinstance(e, KyoceraError)]: the base class and its three
    subclasses. *)
Definition is_KyoceraError (e : Exc) : bool :=
  match e with
  | KyoceraError _ _ | KyoceraLoginError _
  | KyoceraAuthRequired _ _ | KyoceraHTTPError _ _ _ => true
  | _ => false
  end.

(** [isinstance(e, KyoceraAuthRequired)] *)
Definition is_KyoceraAuthRequired (e : Exc) : bool :=
  match e with KyoceraAuthRequired _ _ => true | _ => false end.

(** [isinstance(e, KyoceraHTTPError)] *)
Definition is_KyoceraHTTPError (e : Exc) : bool :=
  match e with KyoceraHTTPError _ _ _ => true | _ => false end.

(** [isinstance(e, Exception)]: every class above. *)
Definition is_Exception (e : Exc) : bool := true.

(** ** Computations *)

Inductive Outcome (A : Type) : Type :=
| Return (a : A)
| Raise (e : Exc).
Arguments Return {A} a.
Arguments Raise {A} e.

(** A computation over a state [S]: the outcome and the state left. *)
Definition M (S A : Type) : Type := S -> Outcome A * S.

Definition ret {S A} (a : A) : M S A := fun s => (Return a, s).

Definition raise {S A} (e : Exc) : M S A := fun s => (Raise e, s).

Definition bind {S A B} (m : M S A) (k : A -> M S B) : M S B :=
  fun s =>
    match m s with
    | (Return a, s') => k a s'
    | (Raise e, s') => (Raise e, s')
    end.

(** [try: m  except C as e: handler(e)], [handles] deciding [C]. *)
Definition try_except {S A} (m : M S A) (handles : Exc -> bool)
    (handler : Exc -> M S A) : M S A :=
  fun s =>
    match m s with
    | (Return a, s') => (Return a, s')
    | (Raise e, s') => if handles e then handler e s' else (Raise e, s')
    end.

Definition gets {S A} (f : S -> A) : M S A := fun s => (Return (f s), s).

Definition modify {S} (f : S -> S) : M S unit := fun s => (Return tt, f s).

Declare Scope py_scope.
Delimit Scope py_scope with py.
Notation "x <- m ;; k" := (bind m (fun x => k))
  (at level 61, m at next level, right associativity) : py_scope.
Notation "m ;; k" := (bind m (fun _ => k))
  (at level 61, right associativity) : py_scope.
Local Open Scope py_scope.

(** [for x in xs: body(x)] *)
Fixpoint for_each {S X} (xs : list X) (body : X -> M S unit) : M S unit :=
  match xs with
  | [] => ret tt
  | x :: xs' => body x ;; for_each xs' body
  end.

(** A computation on a part of the state, run on the whole. *)
Definition zoom {S T A} (proj : S -> T) (inj : T -> S -> S) (m : M T A)
    : M S A :=
  fun s => let (r, t) := m (proj s) in (r, inj t s).

(* ================================================================== *)
(** * Cookies and the cookie jar *)
(* ================================================================== *)

(** [http.cookiejar.Cookie].  Python does not type the attributes, and
    [_cookie_from_dict] stores what the cache file holds as it finds it:
    the attributes it reads from the file without looking at them are
    [Json] values here. *)
Record Cookie : Type := {
  cookie_version : option Z;
  cookie_name : Json;
  cookie_value : Json;
  cookie_port : option string;
  cookie_port_specified : bool;
  cookie_domain : string;
  cookie_domain_specified : bool;
  cookie_domain_initial_dot : bool;
  cookie_path : Json;
  cookie_path_specified : bool;
  cookie_secure : Json;
  cookie_expires : option Z;
  cookie_discard : Json;
  cookie_comment : option string;
  cookie_comment_url : option string;
  cookie_rest : StrDict string;
  cookie_rfc2109 : bool
}.

(** Whether an object can be a dictionary key. *)
Definition hashable (v : Json) : bool :=
  match v with JArr _ | JObj _ => false | _ => true end.

(** Equality of two dictionary keys: Python's [==], under which [True]
    is [1] and [False] is [0]. *)
Definition key_eqb (a b : Json) : bool :=
  match a, b with
  | JNull, JNull => true
  | JStr x, JStr y => String.eqb x y
  | JBool x, JBool y => Bool.eqb x y
  | JNum x, JNum y => (x =? y)%Z
  | JBool x, JNum y | JNum y, JBool x => ((if x then 1 else 0) =? y)%Z
  | _, _ => false
  end.

(** [CookieJar._cookies]: domain, then path, then name. *)
Definition CookieJar : Type :=
  list (string * list (Json * list (Json * Cookie))).

(** [iter(jar)]: every cookie, the dictionaries walked in order. *)
Definition jar_cookies (jar : CookieJar) : list Cookie :=
  flat_map (fun by_domain =>
    flat_map (fun by_path => map snd (snd by_path)) (snd by_domain)) jar.

(** [CookieJar.set_cookie]; testing a key that cannot be hashed raises
    [TypeError], after the dictionaries above it were created. *)
Definition set_cookie (cookie : Cookie) : M CookieJar unit :=
  fun c =>
    let c :=
      if PyDict.mem String.eqb (cookie_domain cookie) c then c
      else PyDict.set String.eqb (cookie_domain cookie) [] c in
    let c2 := PyDict.get_default String.eqb (cookie_domain cookie) [] c in
    if negb (hashable (cookie_path cookie))
    then (Raise (TypeError "unhashable type"), c)
    else
      let c2 :=
        if PyDict.mem key_eqb (cookie_path cookie) c2 then c2
        else PyDict.set key_eqb (cookie_path cookie) [] c2 in
      let c3 := PyDict.get_default key_eqb (cookie_path cookie) [] c2 in
      if negb (hashable (cookie_name cookie))
      then (Raise (TypeError "unhashable type"),
            PyDict.set String.eqb (cookie_domain cookie) c2 c)
      else
        let c3 := PyDict.set key_eqb (cookie_name cookie) cookie c3 in
        let c2 := PyDict.set key_eqb (cookie_path cookie) c3 c2 in
        (Return tt, PyDict.set String.eqb (cookie_domain cookie) c2 c).

(** ** The cache's form of a cookie *)

(** [data.get(key)] and [data.get(key, default)] on what the file holds:
    only a dictionary has the method. *)
Definition json_get {S} (data : Json) (key : string)
    : M S (option Json) :=
  match data with
  | JObj members => ret (PyDict.get String.eqb key members)
  | _ => raise (AttributeError "object has no attribute 'get'")
  end.

Definition json_get_default {S} (data : Json) (key : string) (default : Json)
    : M S Json :=
  v <- json_get data key ;;
  ret (match v with Some x => x | None => default end).

(** [KyoceraClient._cookie_to_dict] *)
Definition _cookie_to_dict (cookie : Cookie) : Json :=
  JObj [
    ("name", cookie_name cookie);
    ("value", cookie_value cookie);
    ("domain", JStr (cookie_domain cookie));
    ("path", cookie_path cookie);
    ("secure", cookie_secure cookie);
    ("expires",
      match cookie_expires cookie with Some t => JNum t | None => JNull end);
    ("discard", cookie_discard cookie)
  ].

(** The conversion [Cookie.__init__] applies to [expires]:
    [int(float(expires))] unless it is [None].  On a number of the model
    it is the identity (epoch seconds are far below 2^53, where the
    passage through a float is exact); [float_of_str] is Python's reading
    of a [str], [None] where it raises [ValueError]. *)
Definition Cookie_expires {S} (float_of_str : string -> option Z)
    (expires : option Json) : M S (option Z) :=
  match expires with
  | None | Some JNull => ret None
  | Some (JNum n) => ret (Some n)
  | Some (JBool b) => ret (Some (if b then 1 else 0)%Z)
  | Some (JStr s) =>
      match float_of_str s with
      | Some n => ret (Some n)
      | None => raise (ValueError "could not convert string to float")
      end
  | Some (JArr _) | Some (JObj _) =>
      raise (TypeError "float() argument must be a string or a real number")
  end.

(** [KyoceraClient._cookie_from_dict] *)
Definition _cookie_from_dict {S} (float_of_str : string -> option Z)
    (data : Json) : M S (option Cookie) :=
  name <- json_get data "name" ;;
  if negb (truthy_opt name) then ret None
  else
    value <- json_get_default data "value" (JStr "") ;;
    domain <- json_get_default data "domain" (JStr "") ;;
    path <- json_get_default data "path" (JStr "/") ;;
    match domain with
    | JStr domain_str =>
        secure <- json_get_default data "secure" (JBool false) ;;
        expires <- json_get data "expires" ;;
        discard <- json_get_default data "discard" (JBool false) ;;
        expires <- Cookie_expires float_of_str expires ;;
        ret (Some {|
          cookie_version := Some 0%Z;
          cookie_name := match name with Some n => n | None => JNull end;
          cookie_value := value;
          cookie_port := None;
          cookie_port_specified := false;
          cookie_domain := domain_str;
          cookie_domain_specified := truthy domain;
          cookie_domain_initial_dot := PyStr.startswith domain_str ".";
          cookie_path := path;
          cookie_path_specified := true;
          cookie_secure := secure;
          cookie_expires := expires;
          cookie_discard := discard;
          cookie_comment := None;
          cookie_comment_url := None;
          cookie_rest := [];
          cookie_rfc2109 := false
        |})
    | _ => raise (AttributeError "object has no attribute 'startswith'")
    end.

(* ================================================================== *)
(** * The login-form parser *)
(* ================================================================== *)

(** What [HTMLParser.feed] hands to the handlers of a subclass: tag and
    attribute names in lower case, a start-and-end tag as a start tag
    followed by an end tag.  The other callbacks are not overridden. *)
Inductive HtmlEvent : Type :=
| StartTag (tag : string) (attrs : list (string * option string))
| EndTag (tag : string).

(** The dictionary [handle_starttag] creates for a form element. *)
Record Form : Type := {
  form_method : string;
  form_action : option string;
  form_fields : StrDict string
}.

Definition with_field (name value : string) (form : Form) : Form :=
  {| form_method := form_method form;
     form_action := form_action form;
     form_fields := PyDict.set String.eqb name value (form_fields form) |}.

Module LoginFormParser.

(** [_current_form] is the form dictionary appended last to [forms],
    the same object: here, its position in [forms]. *)
Record t : Type := {
  forms : list Form;
  _current_form : option nat;
  csrf_token : option string
}.

(** [__init__] *)
Definition init : t :=
  {| forms := []; _current_form := None; csrf_token := None |}.

(** [{k: (v or Empty) for k, v in attrs}] *)
Definition attr_dict_of (attrs : list (string * option string))
    : StrDict string :=
  fold_left
    (fun d kv =>
       PyDict.set String.eqb (fst kv)
         (match snd kv with Some v => v | None => "" end) d)
    attrs [].

(** An assignment through [_current_form]. *)
Fixpoint update_at (i : nat) (f : Form -> Form) (fs : list Form)
    : list Form :=
  match fs, i with
  | [], _ => []
  | x :: fs', O => f x :: fs'
  | x :: fs', S i' => x :: update_at i' f fs'
  end.

Definition handle_starttag (self : t) (tag : string)
    (attrs : list (string * option string)) : t :=
  let attr_dict := attr_dict_of attrs in
  if String.eqb tag "meta" &&
     match PyDict.get String.eqb "name" attr_dict with
     | Some n => String.eqb n "csrf-token"
     | None => false
     end
  then
    {| forms := forms self;
       _current_form := _current_form self;
       csrf_token := PyDict.get String.eqb "content" attr_dict |}
  else if String.eqb tag "form" then
    let method :=
      PyStr.lower (PyDict.get_default String.eqb "method" "get" attr_dict) in
    let form :=
      {| form_method := method;
         form_action := PyDict.get String.eqb "action" attr_dict;
         form_fields := [] |} in
    {| forms := forms self ++ [form];
       _current_form := Some (length (forms self));
       csrf_token := csrf_token self |}
  else
    match String.eqb tag "input", _current_form self with
    | true, Some current =>
        match PyDict.get String.eqb "name" attr_dict with
        | None => self
        | Some name =>
            if negb (PyStr.nonempty name) then self
            else
              match PyDict.get String.eqb "type" attr_dict with
              | Some "submit" | Some "button" => self
              | _ =>
                  {| forms :=
                       update_at current
                         (with_field name
                            (PyDict.get_default String.eqb "value" ""
                               attr_dict))
                         (forms self);
                     _current_form := _current_form self;
                     csrf_token := csrf_token self |}
              end
        end
    | _, _ => self
    end.

Definition handle_endtag (self : t) (tag : string) : t :=
  match String.eqb tag "form", _current_form self with
  | true, Some _ =>
      {| forms := forms self;
         _current_form := None;
         csrf_token := csrf_token self |}
  | _, _ => self
  end.

Definition handle (self : t) (ev : HtmlEvent) : t :=
  match ev with
  | StartTag tag attrs => handle_starttag self tag attrs
  | EndTag tag => handle_endtag self tag
  end.

(** [parser.feed(text); parser.close()], on the events of the text. *)
Definition feed (self : t) (events : list HtmlEvent) : t :=
  fold_left handle events self.

End LoginFormParser.

(** What [_download_login_form] returns as the form. *)
Record LoginForm : Type := {
  action : string;
  fields : StrDict string
}.

(** [any(Qemail in key.lower() or Qlogin in key.lower() for key in fields)],
    the two literals quoted. *)
Definition has_login_field (fields : StrDict string) : bool :=
  existsb
    (fun key =>
       PyStr.contains "email" (PyStr.lower key)
       || PyStr.contains "login" (PyStr.lower key))
    (PyDict.keys fields).

(** [form.get(Qaction) or Q/users/sign_in] *)
Definition action_or_default (form : Form) : string :=
  match form_action form with
  | Some a => if PyStr.nonempty a then a else "/users/sign_in"
  | None => "/users/sign_in"
  end.

Definition as_login_form (form : Form) : LoginForm :=
  {| action := action_or_default form; fields := form_fields form |}.

(** How the loop over [parser.forms] ends: by its [return], or by
    running out of forms with [chosen_form] as it then is. *)
Inductive ScanEnd : Type :=
| Returned (form : LoginForm)
| Exhausted (chosen_form : option Form).

(** The loop of [_download_login_form]. *)
Fixpoint scan_forms (forms : list Form) (chosen_form : option Form)
    : ScanEnd :=
  match forms with
  | [] => Exhausted chosen_form
  | form :: rest =>
      if negb (String.eqb (PyStr.lower (form_method form)) "post")
      then scan_forms rest chosen_form
      else
        let chosen_form :=
          match chosen_form with
          | None => Some form
          | Some _ => chosen_form
          end in
        if has_login_field (form_fields form)
        then Returned (as_login_form form)
        else scan_forms rest chosen_form
  end.

(** The part of [_download_login_form] after the parser has run: the
    loop and what follows it. *)
Definition choose_login_form {S} (forms : list Form) : M S LoginForm :=
  match scan_forms forms None with
  | Returned form => ret form
  | Exhausted (Some chosen_form) => ret (as_login_form chosen_form)
  | Exhausted None =>
      raise (KyoceraLoginError
               [Lit "Could not locate login form on the Kyocera portal."])
  end.

(* ================================================================== *)
(** * The client and what surrounds it *)
(* ================================================================== *)

(** [KyoceraConfig], the fields the client reads. *)
Record KyoceraConfig : Type := {
  email : string;
  password : string;
  organization_id : string;
  site_id : string;
  base_url : string
}.

(** [urllib.request.Request] *)
Record Request : Type := {
  req_method : string;
  req_url : string;
  req_headers : StrDict string;
  req_data : option string
}.

(** What [opener.open] does with a request.  A response carries its
    bytes, the charset its headers declare, and the cookies the cookie
    processor of the opener stores from it.  An HTTP failure carries the
    same; its charset is [None] when reading it from the headers raises.
    A connection that breaks while the body is read, and a charset
    Python has no codec for, are outside the replies modelled. *)
Inductive Reply : Type :=
| Response (raw_body : string) (charset : option string)
    (set_cookies : list Cookie)
| HTTPFailure (code : Z) (charset : option (option string))
    (raw_body : string) (set_cookies : list Cookie)
| URLFailure (reason : string).

(** The functions of Python's library the client calls and the model
    leaves open.  [bytes_decode charset raw] is
    [raw.decode(charset, errors=replace)] for a charset Python has a codec
    for; [json_loads] answers [inl detail] where [json.loads] raises
    [JSONDecodeError]; [html_events] is the run of [HTMLParser] over a
    text; [float_of_str] is [int(float(s))], [None] where it raises. *)
Record PyLib : Type := {
  urljoin : string -> string -> string;
  urlencode : StrDict string -> string;
  bytes_decode : string -> string -> string;
  json_loads : string -> string + Json;
  html_events : string -> list HtmlEvent;
  float_of_str : string -> option Z
}.

(** The surroundings of a client: the library, the configuration, and
    the server behind the opener, which answers the [n]-th request sent
    ([n] counted from 0). *)
Record Env : Type := {
  lib : PyLib;
  config : KyoceraConfig;
  opener_open : nat -> Request -> Reply
}.

(** The cache file at [cache_path]: missing, there but not something
    [json.load] reads, or holding a value. *)
Inductive CacheFile : Type :=
| Missing
| Unreadable (detail : string)
| Stored (payload : Json).

(** What the client does to the outside, in the order it does it. *)
Inductive Event : Type :=
| Opened (req : Request)
| Slept (seconds : Z)
| Wrote (payload : Json)
| Printed (data : Json).

(** The attributes of a [KyoceraClient] that change, and the outside:
    the clock ([time.time()], epoch seconds), the cache file and whether
    it can be written, the number of requests sent, and the events so
    far. *)
Record World : Type := {
  cookie_jar : CookieJar;
  disable_cache : bool;
  csrf_token : option string;
  _signage_ready : bool;
  clock : Z;
  cache_file : CacheFile;
  cache_writable : bool;
  requests_sent : nat;
  trace : list Event
}.

Definition set_cookie_jar (jar : CookieJar) (w : World) : World :=
  {| cookie_jar := jar; disable_cache := disable_cache w;
     csrf_token := csrf_token w; _signage_ready := _signage_ready w;
     clock := clock w; cache_file := cache_file w;
     cache_writable := cache_writable w;
     requests_sent := requests_sent w; trace := trace w |}.

Definition set_csrf_token (token : option string) (w : World) : World :=
  {| cookie_jar := cookie_jar w; disable_cache := disable_cache w;
     csrf_token := token; _signage_ready := _signage_ready w;
     clock := clock w; cache_file := cache_file w;
     cache_writable := cache_writable w;
     requests_sent := requests_sent w; trace := trace w |}.

Definition set_signage_ready (ready : bool) (w : World) : World :=
  {| cookie_jar := cookie_jar w; disable_cache := disable_cache w;
     csrf_token := csrf_token w; _signage_ready := ready;
     clock := clock w; cache_file := cache_file w;
     cache_writable := cache_writable w;
     requests_sent := requests_sent w; trace := trace w |}.

Definition set_clock (now : Z) (w : World) : World :=
  {| cookie_jar := cookie_jar w; disable_cache := disable_cache w;
     csrf_token := csrf_token w; _signage_ready := _signage_ready w;
     clock := now; cache_file := cache_file w;
     cache_writable := cache_writable w;
     requests_sent := requests_sent w; trace := trace w |}.

Definition set_cache_file (file : CacheFile) (w : World) : World :=
  {| cookie_jar := cookie_jar w; disable_cache := disable_cache w;
     csrf_token := csrf_token w; _signage_ready := _signage_ready w;
     clock := clock w; cache_file := file;
     cache_writable := cache_writable w;
     requests_sent := requests_sent w; trace := trace w |}.

Definition set_requests_sent (n : nat) (w : World) : World :=
  {| cookie_jar := cookie_jar w; disable_cache := disable_cache w;
     csrf_token := csrf_token w; _signage_ready := _signage_ready w;
     clock := clock w; cache_file := cache_file w;
     cache_writable := cache_writable w;
     requests_sent := n; trace := trace w |}.

Definition set_trace (events : list Event) (w : World) : World :=
  {| cookie_jar := cookie_jar w; disable_cache := disable_cache w;
     csrf_token := csrf_token w; _signage_ready := _signage_ready w;
     clock := clock w; cache_file := cache_file w;
     cache_writable := cache_writable w;
     requests_sent := requests_sent w; trace := events |}.

(** An event happens. *)
Definition emit (ev : Event) : M World unit :=
  modify (fun w => set_trace (trace w ++ [ev]) w).

(** [time.sleep(seconds)] *)
Definition sleep (seconds : Z) : M World unit :=
  emit (Slept seconds) ;;
  modify (fun w => set_clock (clock w + seconds)%Z w).

(** The cookie processor storing the cookies of a reply. *)
Definition store_cookies (cookies : list Cookie) (jar : CookieJar)
    : CookieJar :=
  fold_left (fun j cookie => snd (set_cookie cookie j)) cookies jar.

(** [self.opener.open(req, timeout=30)] up to the body being read: the
    bytes and the declared charset of a response, or the exception
    [urllib] raises, [HTTPError] being a subclass of [URLError]. *)
Inductive OpenerError : Type :=
| Raised_HTTPError (code : Z) (charset : option (option string))
    (raw_body : string)
| Raised_URLError (reason : string).

Definition open_request (env : Env) (req : Request)
    : M World (OpenerError + string * option string) :=
  n <- gets requests_sent ;;
  emit (Opened req) ;;
  modify (fun w => set_requests_sent (S n) w) ;;
  match opener_open env n req with
  | Response raw_body charset cookies =>
      modify (fun w =>
                set_cookie_jar (store_cookies cookies (cookie_jar w)) w) ;;
      ret (inr (raw_body, charset))
  | HTTPFailure code charset raw_body cookies =>
      modify (fun w =>
                set_cookie_jar (store_cookies cookies (cookie_jar w)) w) ;;
      ret (inl (Raised_HTTPError code charset raw_body))
  | URLFailure reason =>
      ret (inl (Raised_URLError reason))
  end.

(* ================================================================== *)
(** * Transport: [_request] *)
(* ================================================================== *)

Definition USER_AGENT : string :=
  "KyoceraSolarCLI/0.1 (+https://github.com/CodexUser)".

(** [SESSION_MAX_AGE = 60 * 30], seconds. *)
Definition SESSION_MAX_AGE : Z := 60 * 30.

(** [self.default_headers] *)
Definition default_headers : StrDict string :=
  [ ("User-Agent", USER_AGENT);
    ("Accept-Language", "en-US,en;q=0.9");
    ("Accept", "application/json, text/javascript, */*; q=0.01");
    ("Connection", "keep-alive") ].

(** [method.upper()], on the letters a..z (the client passes GET and
    POST). *)
Definition upper_char (c : ascii) : ascii :=
  let n := nat_of_ascii c in
  if ((97 <=? n) && (n <=? 122))%nat then ascii_of_nat (n - 32) else c.

Fixpoint upper (s : string) : string :=
  match s with
  | String c t => String (upper_char c) (upper t)
  | EmptyString => EmptyString
  end.

(** [range(n)] *)
Definition range (n : Z) : list Z :=
  map Z.of_nat (seq 0 (Z.to_nat n)).

(** [charset or Qutf-8] *)
Definition charset_or_utf8 (charset : option string) : string :=
  match charset with
  | Some c => if PyStr.nonempty c then c else "utf-8"
  | None => "utf-8"
  end.

(** The request object [_request] builds before its loop. *)
Definition build_request (env : Env) (method url : string)
    (params data headers : option (StrDict string)) : Request :=
  let final_url :=
    match params with
    | Some ((_ :: _) as ps) =>
        let query := urlencode (lib env) ps in
        let delimiter := if PyStr.contains "?" url then "&" else "?" in
        (url ++ delimiter ++ query)%string
    | _ => url
    end in
  let request_headers :=
    match headers with
    | Some ((_ :: _) as hs) => PyDict.update String.eqb hs default_headers
    | _ => default_headers
    end in
  match data with
  | Some d =>
      {| req_method := upper method;
         req_url := final_url;
         req_headers :=
           PyDict.setdefault String.eqb "Content-Type"
             "application/x-www-form-urlencoded" request_headers;
         req_data := Some (urlencode (lib env) d) |}
  | None =>
      {| req_method := upper method;
         req_url := final_url;
         req_headers := request_headers;
         req_data := None |}
  end.

(** The loop [for attempt in range(retries)] of [_request], over the
    attempts still to make, and the [raise] after it. *)
Fixpoint request_attempts (env : Env) (req : Request) (retries : Z)
    (attempts : list Z) (last_error : option Exc) : M World string :=
  match attempts with
  | [] =>
      raise (KyoceraError
               [Lit "Request failed after "; Num retries; Lit " attempts"]
               last_error)
  | attempt :: rest =>
      r <- open_request env req ;;
      match r with
      | inr (raw_body, charset) =>
          ret (bytes_decode (lib env) (charset_or_utf8 charset) raw_body)
      | inl (Raised_HTTPError code charset raw_body) =>
          let charset :=
            match charset with
            | Some declared => charset_or_utf8 declared
            | None => "utf-8"
            end in
          let body := bytes_decode (lib env) charset raw_body in
          raise (KyoceraHTTPError code body (Some (HTTPError code)))
      | inl (Raised_URLError reason) =>
          let last_error := Some (URLError reason) in
          if (attempt <? retries - 1)%Z
          then
            let wait_time := (2 ^ attempt)%Z in
            sleep wait_time ;;
            request_attempts env req retries rest last_error
          else
            raise (KyoceraError
                     [Lit "Network error after "; Num retries;
                      Lit " attempts: "; Lit reason]
                     last_error)
      end
  end.

(** [KyoceraClient._request] *)
Definition _request (env : Env) (method url : string)
    (params data headers : option (StrDict string)) (retries : Z)
    : M World string :=
  request_attempts env (build_request env method url params data headers)
    retries (range retries) None.

(** The default of [retries]. *)
Definition default_retries : Z := 3.

(* ================================================================== *)
(** * Session store *)
(* ================================================================== *)

(** A computation on the jar, run on the client. *)
Definition on_jar {A} (m : M CookieJar A) : M World A :=
  zoom cookie_jar set_cookie_jar m.

(** The number a value is in [time.time() - value]; only [int], [float]
    and [bool] subtract from a float. *)
Definition as_number {S} (v : Json) : M S Z :=
  match v with
  | JNum n => ret n
  | JBool b => ret (if b then 1 else 0)%Z
  | _ => raise (TypeError "unsupported operand type(s) for -")
  end.

(** [iter(v)], as a [for] loop takes it: the items of a list, the keys
    of a dictionary, the characters of a string. *)
Fixpoint chars (s : string) : list Json :=
  match s with
  | String c t => JStr (String c EmptyString) :: chars t
  | EmptyString => []
  end.

Definition iterate {S} (v : Json) : M S (list Json) :=
  match v with
  | JArr items => ret items
  | JObj members => ret (map (fun kv => JStr (fst kv)) members)
  | JStr s => ret (chars s)
  | _ => raise (TypeError "object is not iterable")
  end.

(** The body of the loop of [_load_session_cache]. *)
Definition load_cookie (env : Env) (cookie_dict : Json) : M World unit :=
  cookie <- _cookie_from_dict (float_of_str (lib env)) cookie_dict ;;
  match cookie with
  | Some cookie => on_jar (set_cookie cookie)
  | None => ret tt
  end.

(** The block under [try:] in [_load_session_cache]. *)
Definition load_session_cache_body (env : Env) : M World unit :=
  file <- gets cache_file ;;
  match file with
  | Missing => raise (OSError "No such file or directory")
  | Unreadable detail => raise (JSONDecodeError detail)
  | Stored payload =>
      timestamp <- json_get_default payload "timestamp" (JNum 0) ;;
      now <- gets clock ;;
      timestamp <- as_number timestamp ;;
      if (now - timestamp >? SESSION_MAX_AGE)%Z then ret tt
      else
        cookies <- json_get_default payload "cookies" (JArr []) ;;
        items <- iterate cookies ;;
        for_each items (load_cookie env)
  end.

(** [KyoceraClient._load_session_cache] *)
Definition _load_session_cache (env : Env) : M World unit :=
  file <- gets cache_file ;;
  match file with
  | Missing => ret tt
  | _ =>
      try_except (load_session_cache_body env) is_Exception
        (fun _ => ret tt)
  end.

(** [KyoceraClient._persist_session].  Creating the directory or opening
    the file raises [OSError] when the cache cannot be written. *)
Definition _persist_session (env : Env) : M World unit :=
  disabled <- gets disable_cache ;;
  if disabled then ret tt
  else
    writable <- gets cache_writable ;;
    if negb writable then raise (OSError "Permission denied")
    else
      jar <- gets cookie_jar ;;
      let cookies := map _cookie_to_dict (jar_cookies jar) in
      now <- gets clock ;;
      let payload :=
        JObj [("timestamp", JNum now); ("cookies", JArr cookies)] in
      modify (set_cache_file (Stored payload)) ;;
      emit (Wrote payload).

(** [KyoceraClient.__init__]: a client with an empty jar, at a given
    time and before a given cache file, which it loads unless told not
    to. *)
Definition new_client (disable_cache : bool) (now : Z) (file : CacheFile)
    (writable : bool) : World :=
  {| cookie_jar := []; disable_cache := disable_cache;
     csrf_token := None; _signage_ready := false;
     clock := now; cache_file := file; cache_writable := writable;
     requests_sent := 0; trace := [] |}.

Definition KyoceraClient_init (env : Env) (disable_cache : bool) (now : Z)
    (file : CacheFile) (writable : bool) : Outcome unit * World :=
  (if disable_cache then ret tt else _load_session_cache env)
    (new_client disable_cache now file writable).

(* ================================================================== *)
(** * Session manager *)
(* ================================================================== *)

(** [self._signage_url] *)
Definition _signage_url (env : Env) : string :=
  urljoin (lib env) (base_url (config env))
    ("/organizations/" ++ organization_id (config env)
     ++ "/sites/" ++ site_id (config env) ++ "/signage")%string.

(** Truth value of an optional [str]. *)
Definition token_set (token : option string) : bool :=
  match token with Some t => PyStr.nonempty t | None => false end.

(** [KyoceraClient._download_login_form] *)
Definition _download_login_form (env : Env)
    : M World (LoginForm * option string) :=
  let login_url := urljoin (lib env) (base_url (config env)) "/login" in
  response_text <-
    _request env "GET" login_url None None (Some [("Accept", "text/html")])
      default_retries ;;
  let parser :=
    LoginFormParser.feed LoginFormParser.init
      (html_events (lib env) response_text) in
  (if token_set (LoginFormParser.csrf_token parser)
   then modify (set_csrf_token (LoginFormParser.csrf_token parser))
   else ret tt) ;;
  form <- choose_login_form (LoginFormParser.forms parser) ;;
  ret (form, LoginFormParser.csrf_token parser).

(** The inner function [_field] of [_build_login_payload]: the name
    found or added, and [payload] as it leaves it. *)
Definition _field (matches : list string) (fallback : string)
    (payload : StrDict string) : string * StrDict string :=
  match
    find (fun name =>
            existsb (fun m => PyStr.contains m (PyStr.lower name)) matches)
         (PyDict.keys payload)
  with
  | Some name => (name, payload)
  | None => (fallback, PyDict.set String.eqb fallback "" payload)
  end.

(** [KyoceraClient._build_login_payload] *)
Definition _build_login_payload (env : Env) (fields : StrDict string)
    : StrDict string :=
  let payload := fields in
  let (email_field, payload) :=
    _field ["email"; "login"] "user[email]" payload in
  let (password_field, payload) :=
    _field ["password"] "user[password]" payload in
  let payload :=
    PyDict.set String.eqb email_field (email (config env)) payload in
  let payload :=
    PyDict.set String.eqb password_field (password (config env)) payload in
  let remember_field :=
    find (fun k => PyStr.contains "remember" (PyStr.lower k))
      (PyDict.keys payload) in
  match remember_field with
  | Some k =>
      if PyStr.nonempty k
      then
        let current := PyDict.get_default String.eqb k "" payload in
        PyDict.set String.eqb k
          (if PyStr.nonempty current then current else "1") payload
      else payload
  | None => payload
  end.

(** [KyoceraClient._update_csrf_from_html] *)
Definition _update_csrf_from_html (html : string) : M World unit :=
  match PyStr.search_csrf_meta html with
  | Some token => modify (set_csrf_token (Some token))
  | None => ret tt
  end.

(** [KyoceraClient.login] *)
Definition login (env : Env) : M World unit :=
  r <- _download_login_form env ;;
  let (form, csrf_token) := r in
  let payload := _build_login_payload env (fields form) in
  let action_url := urljoin (lib env) (base_url (config env)) (action form) in
  let headers :=
    [("Referer", urljoin (lib env) (base_url (config env)) "/login")] in
  let headers :=
    match csrf_token with
    | Some t =>
        if PyStr.nonempty t
        then PyDict.set String.eqb "X-CSRF-Token" t headers else headers
    | None => headers
    end in
  response_text <-
    _request env "POST" action_url None (Some payload) (Some headers)
      default_retries ;;
  if PyStr.contains "Invalid" response_text
     || PyStr.contains "error_explanation" response_text
  then raise (KyoceraLoginError [Lit "Portal reported invalid credentials."])
  else
    _update_csrf_from_html response_text ;;
    modify (set_signage_ready false) ;;
    _persist_session env.

(** [exc.status_code in {401, 403}] *)
Definition unauthorized (e : Exc) : bool :=
  match e with
  | KyoceraHTTPError status_code _ _ =>
      ((status_code =? 401) || (status_code =? 403))%Z
  | _ => false
  end.

(** The handler [except KyoceraHTTPError as exc] of the two fetches. *)
Definition auth_required_on_401_403 {A} (exc : Exc) : M World A :=
  if unauthorized exc
  then raise (KyoceraAuthRequired [Lit "Session expired or unauthorized."]
                (Some exc))
  else raise exc.

(** [KyoceraClient._ensure_signage_ready] *)
Definition _ensure_signage_ready (env : Env) : M World unit :=
  ready <- gets _signage_ready ;;
  if ready then ret tt
  else
    html <-
      try_except
        (_request env "GET" (_signage_url env) None None
           (Some [("Accept", "text/html")]) default_retries)
        is_KyoceraHTTPError auth_required_on_401_403 ;;
    _update_csrf_from_html html ;;
    modify (set_signage_ready true).

(** [data.get(Qresult) != Qok] *)
Definition result_not_ok (result : option Json) : bool :=
  match result with
  | Some (JStr s) => negb (String.eqb s "ok")
  | _ => true
  end.

(** [data[key]] on a dictionary. *)
Definition json_getitem {S} (data : Json) (key : string) : M S Json :=
  match data with
  | JObj members =>
      match PyDict.get String.eqb key members with
      | Some v => ret v
      | None => raise (KeyError key)
      end
  | _ => raise (TypeError "object is not subscriptable")
  end.

(** [KyoceraClient.fetch_realtime] *)
Definition fetch_realtime (env : Env) : M World Json :=
  _ensure_signage_ready env ;;
  let url :=
    urljoin (lib env) (base_url (config env))
      ("/organizations/" ++ organization_id (config env)
       ++ "/sites/" ++ site_id (config env) ++ "/realtime")%string in
  let params := [("realtime", "true"); ("signage", "true")] in
  let headers :=
    [("Referer", _signage_url env); ("X-Requested-With", "XMLHttpRequest")] in
  csrf_token <- gets csrf_token ;;
  let headers :=
    match csrf_token with
    | Some t =>
        if PyStr.nonempty t
        then PyDict.set String.eqb "X-CSRF-Token" t headers else headers
    | None => headers
    end in
  response_text <-
    try_except
      (_request env "GET" url (Some params) None (Some headers)
         default_retries)
      is_KyoceraHTTPError auth_required_on_401_403 ;;
  let response_trimmed := PyStr.lstrip response_text in
  if PyStr.startswith response_trimmed "<"
  then raise (KyoceraAuthRequired
                [Lit "Received HTML instead of JSON; probably logged out."]
                None)
  else
    match json_loads (lib env) response_text with
    | inl detail =>
        raise (KyoceraError
                 [Lit "Failed to parse realtime payload: "; Lit detail]
                 (Some (JSONDecodeError detail)))
    | inr data =>
        result <- json_get data "result" ;;
        if result_not_ok result
        then raise (KyoceraError [Lit "Unexpected API result: "; Repr data]
                      None)
        else json_getitem data "data"
    end.

(** [KyoceraClient.get_status], the three methods it calls on [self]
    taken as arguments, so that test doubles can stand for them. *)
Definition get_status_with {S} (fetch_realtime : M S Json) (login : M S unit)
    (_persist_session : M S unit) : M S Json :=
  try_except fetch_realtime is_KyoceraAuthRequired
    (fun _ =>
       login ;;
       status <- fetch_realtime ;;
       _persist_session ;;
       ret status).

(** [KyoceraClient.get_status] *)
Definition get_status (env : Env) : M World Json :=
  get_status_with (fetch_realtime env) (login env) (_persist_session env).

(** The branch of [main] that fetches once, after the client was built:
    the exit status, or the exception that leaves [main].  Rendering the
    status is left to the event [Printed]. *)
Definition main_single_fetch (env : Env) : M World Z :=
  r <- try_except
         (data <- get_status env ;; ret (Some data))
         is_KyoceraError
         (fun _ => ret None) ;;
  match r with
  | None => ret 1%Z
  | Some data => emit (Printed data) ;; ret 0%Z
  end.

(* ================================================================== *)
(** * Notions the properties are stated with *)
(* ================================================================== *)

(** ** Calls made by [get_status] *)

Inductive Call : Type :=
| CallFetch
| CallLogin
| CallPersist.

(** A method under observation: it runs as it would, and the call is
    written to a log kept beside the state, where the method cannot
    reach it. *)
Definition spy {S A} (call : Call) (m : M S A) : M (S * list Call) A :=
  fun sl =>
    let (r, s') := m (fst sl) in (r, (s', snd sl ++ [call])).

Definition is_fetch (c : Call) : bool :=
  match c with CallFetch => true | _ => false end.

Definition is_login (c : Call) : bool :=
  match c with CallLogin => true | _ => false end.

(** The number of fetches, and of logins, in a log. *)
Definition fetches (log : list Call) : nat := length (filter is_fetch log).
Definition logins (log : list Call) : nat := length (filter is_login log).

(** [get_status] with its three methods observed. *)
Definition observed_get_status {S} (fetch : M S Json) (login : M S unit)
    (persist : M S unit) : M (S * list Call) Json :=
  get_status_with (spy CallFetch fetch) (spy CallLogin login)
    (spy CallPersist persist).

(** ** The selection policy of the login-form locator, in words

    A POST-method form; a form one of whose field names contains email
    or login, whatever the case of its letters. *)
Definition is_post_form (form : Form) : bool :=
  String.eqb (PyStr.lower (form_method form)) "post".

Definition names_email_or_login (form : Form) : bool :=
  existsb
    (fun name =>
       PyStr.contains "email" (PyStr.lower name)
       || PyStr.contains "login" (PyStr.lower name))
    (map fst (form_fields form)).

(** The first POST form with such a field; failing that, the first POST
    form; failing that, none. *)
Definition preferred_form (forms : list Form) : option Form :=
  match find (fun f => is_post_form f && names_email_or_login f) forms with
  | Some f => Some f
  | None => find is_post_form forms
  end.

(** The action of a selected form: a missing or empty one is replaced. *)
Definition resolved_action (form : Form) : string :=
  match form_action form with
  | None | Some EmptyString => "/users/sign_in"
  | Some a => a
  end.

(** ** What a trace shows *)


Fixpoint opens (events : list Event) : list Request :=
  match events with
  | [] => []
  | Opened req :: rest => req :: opens rest
  | _ :: rest => opens rest
  end.

Fixpoint writes (events : list Event) : list Json :=
  match events with
  | [] => []
  | Wrote payload :: rest => payload :: writes rest
  | _ :: rest => writes rest
  end.


(** The world once a request was sent, and once a delay has passed. *)
Definition opened (req : Request) (w : World) : World :=
  set_requests_sent (S (requests_sent w))
    (set_trace (trace w ++ [Opened req]) w).

Definition slept (seconds : Z) (w : World) : World :=
  set_clock (clock w + seconds)%Z (set_trace (trace w ++ [Slept seconds]) w).

(** The message and the error of a request given up after [retries]
    network failures, the last for [reason]. *)
Definition network_error (retries : Z) (reason : string) : Exc :=
  KyoceraError
    [Lit "Network error after "; Num retries; Lit " attempts: "; Lit reason]
    (Some (URLError reason)).

(** The charset [_request] decodes the body of an HTTP failure with. *)
Definition failure_charset (charset : option (option string)) : string :=
  match charset with
  | Some declared => charset_or_utf8 declared
  | None => "utf-8"
  end.

(** ** The requests of the session manager *)

(** The request [_ensure_signage_ready] sends. *)
Definition signage_request (env : Env) : Request :=
  build_request env "GET" (_signage_url env) None None
    (Some [("Accept", "text/html")]).

(** The request [fetch_realtime] sends for the status when the client
    holds [token]. *)
Definition realtime_request (env : Env) (token : option string) : Request :=
  build_request env "GET"
    (urljoin (lib env) (base_url (config env))
       ("/organizations/" ++ organization_id (config env)
        ++ "/sites/" ++ site_id (config env) ++ "/realtime")%string)
    (Some [("realtime", "true"); ("signage", "true")]) None
    (Some (match token with
           | Some t =>
               if PyStr.nonempty t
               then [("Referer", _signage_url env);
                     ("X-Requested-With", "XMLHttpRequest");
                     ("X-CSRF-Token", t)]
               else [("Referer", _signage_url env);
                     ("X-Requested-With", "XMLHttpRequest")]
           | None => [("Referer", _signage_url env);
                      ("X-Requested-With", "XMLHttpRequest")]
           end)).

(** The world once a request was sent and the cookies of its reply were
    stored. *)
Definition received (req : Request) (cookies : list Cookie) (w : World)
    : World :=
  set_cookie_jar (store_cookies cookies (cookie_jar w)) (opened req w).

(** The two errors [fetch_realtime] raises for a payload it rejects. *)
Definition parse_failure (detail : string) : Exc :=
  KyoceraError [Lit "Failed to parse realtime payload: "; Lit detail]
    (Some (JSONDecodeError detail)).

Definition unexpected_result (envelope : Json) : Exc :=
  KyoceraError [Lit "Unexpected API result: "; Repr envelope] None.

Definition html_instead_of_json : Exc :=
  KyoceraAuthRequired
    [Lit "Received HTML instead of JSON; probably logged out."] None.


(** The first character of a text that is not whitespace. *)
Fixpoint first_nonspace (s : string) : option ascii :=
  match s with
  | String c t => if PyStr.is_space c then first_nonspace t else Some c
  | EmptyString => None
  end.

(** ** The operations of a client *)

(** The methods a caller, or another method, runs on a client. *)
Inductive Operation : Type :=
| Op_login
| Op_download_login_form
| Op_ensure_signage_ready
| Op_fetch_realtime
| Op_get_status
| Op_persist_session
| Op_load_session_cache
| Op_main.

(** The client after an operation, whether it returned or raised. *)
Definition after (env : Env) (op : Operation) (w : World) : World :=
  match op with
  | Op_login => snd (login env w)
  | Op_download_login_form => snd (_download_login_form env w)
  | Op_ensure_signage_ready => snd (_ensure_signage_ready env w)
  | Op_fetch_realtime => snd (fetch_realtime env w)
  | Op_get_status => snd (get_status env w)
  | Op_persist_session => snd (_persist_session env w)
  | Op_load_session_cache => snd (_load_session_cache env w)
  | Op_main => snd (main_single_fetch env w)
  end.

(** The client after a run of operations. *)
Definition after_all (env : Env) (ops : list Operation) (w : World) : World :=
  fold_left (fun w op => after env op w) ops w.

(** The token after is the token before, or a new, non-empty one. *)
Definition token_kept (w w' : World) : Prop :=
  csrf_token w' = csrf_token w
  \/ exists token, csrf_token w' = Some token /\ token <> "".

(** The cache is as it was: the file, the writes so far, and the two
    switches that govern writing. *)
Definition cache_untouched (w w' : World) : Prop :=
  cache_file w' = cache_file w
  /\ writes (trace w') = writes (trace w)
  /\ disable_cache w' = disable_cache w
  /\ cache_writable w' = cache_writable w.

(** A computation every run of which relates the world it starts in to
    the world it leaves, returning or raising. *)
Definition preserves (R : World -> World -> Prop) {A} (m : M World A)
    : Prop :=
  forall w, R w (snd (m w)).

(** A relation between a world and a later one that holds across the
    steps that neither write the cache nor clear the token: sending a
    request, sleeping, printing, storing cookies, marking the session
    primed or not, and taking a new non-empty token. *)
Record Frame (R : World -> World -> Prop) : Prop := {
  frame_refl : forall w, R w w;
  frame_trans : forall w1 w2 w3, R w1 w2 -> R w2 w3 -> R w1 w3;
  frame_opened : forall w req, R w (set_trace (trace w ++ [Opened req]) w);
  frame_slept : forall w secs, R w (set_trace (trace w ++ [Slept secs]) w);
  frame_printed : forall w data, R w (set_trace (trace w ++ [Printed data]) w);
  frame_sent : forall w n, R w (set_requests_sent n w);
  frame_jar : forall w jar, R w (set_cookie_jar jar w);
  frame_clock : forall w now, R w (set_clock now w);
  frame_signage : forall w ready, R w (set_signage_ready ready w);
  frame_token :
    forall w token, token <> "" -> R w (set_csrf_token (Some token) w)
}.

(** What [_persist_session] writes for a client: the time and the
    cookies of its jar. *)
Definition session_snapshot (w : World) : Json :=
  JObj [("timestamp", JNum (clock w));
        ("cookies", JArr (map _cookie_to_dict (jar_cookies (cookie_jar w))))].

(** ** Reading a cache payload *)

(** The timestamp a payload is dated with: the number under its
    timestamp key, 0 when the key is absent; none when the payload is
    not a dictionary or the value is not a number. *)
Definition timestamp_of (payload : Json) : option Z :=
  match payload with
  | JObj members =>
      match PyDict.get String.eqb "timestamp" members with
      | None => Some 0%Z
      | Some (JNum n) => Some n
      | Some (JBool b) => Some (if b then 1 else 0)%Z
      | Some _ => None
      end
  | _ => None
  end.

(** The entries the loop of the loader goes through: what iterating the
    value under the cookies key yields, nothing when the key is absent;
    none when the value cannot be iterated. *)
Definition cookie_entries (members : StrDict Json) : option (list Json) :=
  match PyDict.get String.eqb "cookies" members with
  | None => Some []
  | Some (JArr items) => Some items
  | Some (JObj inner) => Some (map (fun kv => JStr (fst kv)) inner)
  | Some (JStr s) => Some (chars s)
  | Some _ => None
  end.

(** What [_cookie_from_dict] makes of an entry; it reads no state. *)
Definition decode_entry (float_of_str : string -> option Z) (entry : Json)
    : Outcome (option Cookie) :=
  fst (_cookie_from_dict float_of_str entry tt).

(** The jar after the entries were gone through in order, up to the
    first that cannot be decoded or stored. *)
Fixpoint load_entries (float_of_str : string -> option Z)
    (entries : list Json) (jar : CookieJar) : CookieJar :=
  match entries with
  | [] => jar
  | entry :: rest =>
      match decode_entry float_of_str entry with
      | Return (Some cookie) =>
          match set_cookie cookie jar with
          | (Return _, jar') => load_entries float_of_str rest jar'
          | (Raise _, jar') => jar'
          end
      | Return None => load_entries float_of_str rest jar
      | Raise _ => jar
      end
  end.


(** ** A cookie through the cache *)






(** A dictionary entry for a non-empty value, no entry for an empty
    one: the dictionaries [set_cookie] creates are never left empty. *)
Definition entry {K V} (k : K) (v : list V) : list (K * list V) :=
  match v with [] => [] | _ => [(k, v)] end.




(** A key on which the equality of a dictionary is plain equality. *)
Definition exact_key {K} (eqb : K -> K -> bool) (k : K) : Prop :=
  eqb k k = true /\ forall k', eqb k' k = true -> k' = k.


(* ================================================================== *)
(** * Sample surroundings

    A small library and a few servers on which the properties below are
    run.  The library functions are given on the texts the samples use:
    URLs are joined by concatenation, bytes are read as they are, and
    the JSON decoder and the HTML tokenizer know the sample bodies. *)
(* ================================================================== *)

Definition q : string := String PyStr.dquote EmptyString.

(** The text of a JSON object with the given members, already encoded. *)
Definition json_text (members : list (string * string)) : string :=
  ("{" ++ String.concat ", "
            (map (fun kv => q ++ fst kv ++ q ++ ": " ++ snd kv) members)
   ++ "}")%string.

Definition body_ok : string :=
  json_text [("result", q ++ "ok" ++ q);
             ("data", json_text [("power", "5")])]%string.
Definition body_no_data : string :=
  json_text [("result", (q ++ "ok" ++ q)%string)].
Definition body_error : string :=
  json_text [("result", (q ++ "error" ++ q)%string)].
Definition body_garbage : string := "oops".
Definition body_html : string := "
  <html><body>Please sign in</body></html>".

Definition status_data : Json := JObj [("power", JNum 5)].

Definition login_page : string :=
  ("<form method=post><input name=user[email]>"
   ++ "<input name=user[password] type=password></form>")%string.
Definition page_without_form : string := "<p>maintenance</p>".

Definition sample_json_loads (text : string) : string + Json :=
  if String.eqb text body_ok
  then inr (JObj [("result", JStr "ok"); ("data", status_data)])
  else if String.eqb text body_no_data
  then inr (JObj [("result", JStr "ok")])
  else if String.eqb text body_error
  then inr (JObj [("result", JStr "error")])
  else inl "Expecting value: line 1 column 1 (char 0)".

Definition sample_html_events (text : string) : list HtmlEvent :=
  if String.eqb text login_page
  then [ StartTag "form" [("method", Some "post")];
         StartTag "input" [("name", Some "user[email]")];
         StartTag "input" [("name", Some "user[password]");
                           ("type", Some "password")];
         EndTag "form" ]
  else if String.eqb text page_without_form
  then [ StartTag "p" []; EndTag "p" ]
  else [].

Definition sample_lib : PyLib :=
  {| urljoin := fun base path => (base ++ path)%string;
     urlencode := fun d =>
       String.concat "&" (map (fun kv => (fst kv ++ "=" ++ snd kv)%string) d);
     bytes_decode := fun _ raw => raw;
     json_loads := sample_json_loads;
     html_events := sample_html_events;
     float_of_str := fun _ => None |}.

Definition sample_config : KyoceraConfig :=
  {| email := "user@example.org";
     password := "secret";
     organization_id := "12";
     site_id := "34";
     base_url := "https://sr.en.kyocera-solar.jp" |}.

(** A server that answers the requests, in the order they come, with
    the replies of a script, and is unreachable afterwards. *)
Definition scripted (replies : list Reply) : Env :=
  {| lib := sample_lib;
     config := sample_config;
     opener_open := fun n _ => nth n replies (URLFailure "timed out") |}.

(** A client just built, with the cache disabled or with no cache file,
    at one o'clock in the morning of 1 January 1970. *)
Definition fresh_client : World := new_client false 3600 Missing true.

(** A page with a CSRF token in a meta tag. *)
Definition signage_page : string :=
  ("<html><head><meta name=" ++ q ++ "csrf-token" ++ q
   ++ " content=" ++ q ++ "tok123" ++ q ++ "></head></html>")%string.

(** A session cookie as the portal sets it. *)
Definition session_cookie : Cookie :=
  {| cookie_version := Some 0%Z;
     cookie_name := JStr "_session_id";
     cookie_value := JStr "abc";
     cookie_port := None;
     cookie_port_specified := false;
     cookie_domain := "sr.en.kyocera-solar.jp";
     cookie_domain_specified := false;
     cookie_domain_initial_dot := false;
     cookie_path := JStr "/";
     cookie_path_specified := true;
     cookie_secure := JBool true;
     cookie_expires := None;
     cookie_discard := JBool true;
     cookie_comment := None;
     cookie_comment_url := None;
     cookie_rest := [("HttpOnly", "")];
     cookie_rfc2109 := false |}.

(** The session is still good: the signage page, then the status. *)
Definition live_session : Env :=
  scripted [ Response signage_page None [];
             Response body_ok None [] ].

(** The session has expired and logging in works: the signage page is
    refused, the login page has the form, the credentials are accepted,
    and then the signage page and the status are served. *)
Definition expired_session : Env :=
  scripted [ HTTPFailure 401 (Some None) "" [];
             Response login_page None [];
             Response "<html>Welcome</html>" None [session_cookie];
             Response signage_page None [];
             Response body_ok None [] ].

(** The session has expired and the login page has no form. *)
Definition locked_out : Env :=
  scripted [ HTTPFailure 401 (Some None) "" [];
             Response page_without_form None [] ].

(** The session is good and the portal answers with an envelope that
    has no data member. *)
Definition envelope_without_data : Env :=
  scripted [ Response signage_page None [];
             Response body_no_data None [] ].


(** A cache file written half an hour and a second ago. *)
Definition stale_cache : CacheFile :=
  Stored (JObj [("timestamp", JNum 1799);
                ("cookies", JArr [_cookie_to_dict session_cookie])]).

(** A cache file written a minute ago with one cookie. *)
Definition recent_cache : CacheFile :=
  Stored (JObj [("timestamp", JNum 3540);
                ("cookies", JArr [_cookie_to_dict session_cookie])]).

(** A second cookie of the portal, and a jar with two cookies. *)
Definition locale_cookie : Cookie :=
  {| cookie_version := Some 0%Z;
     cookie_name := JStr "locale";
     cookie_value := JStr "en";
     cookie_port := None;
     cookie_port_specified := false;
     cookie_domain := ".kyocera-solar.jp";
     cookie_domain_specified := true;
     cookie_domain_initial_dot := true;
     cookie_path := JStr "/";
     cookie_path_specified := true;
     cookie_secure := JBool false;
     cookie_expires := Some 86400%Z;
     cookie_discard := JBool false;
     cookie_comment := None;
     cookie_comment_url := None;
     cookie_rest := [];
     cookie_rfc2109 := false |}.

Definition sample_jar : CookieJar :=
  store_cookies [session_cookie; locale_cookie] [].

(** Three pages, as the tokenizer reports them: a search form and then
    the login form (whose action is empty); the same two forms, the
    login form first; and a page whose only form is submitted by GET. *)
Definition search_form : list HtmlEvent :=
  [ StartTag "form" [("method", Some "POST"); ("action", Some "/search")];
    StartTag "input" [("name", Some "q"); ("value", Some "")];
    StartTag "input" [("type", Some "submit"); ("name", Some "go")];
    EndTag "form" ].

Definition sign_in_form : list HtmlEvent :=
  [ StartTag "meta" [("name", Some "csrf-token"); ("content", Some "tok9")];
    StartTag "form" [("method", Some "post"); ("action", Some "")];
    StartTag "input" [("name", Some "user[Email]")];
    StartTag "input" [("name", Some "user[password]");
                      ("type", Some "password")];
    StartTag "input" [("name", Some "commit"); ("type", Some "submit")];
    EndTag "form" ].

Definition get_form : list HtmlEvent :=
  [ StartTag "form" [("action", Some "/search")];
    StartTag "input" [("name", Some "email")];
    EndTag "form" ].

(** The portal serves HTML, something that is not JSON, and an error
    envelope in answer to the status request. *)
Definition signed_out : Env :=
  scripted [ Response signage_page None []; Response body_html None [] ].

Definition garbled : Env :=
  scripted [ Response signage_page None []; Response body_garbage None [] ].

Definition refusing : Env :=
  scripted [ Response signage_page None []; Response body_error None [] ].

(* ================================================================== *)
(** * Notions the further properties are stated with *)
(* ================================================================== *)

(** ** The attempts of a request *)

(** The events of [k] attempts that met a network failure and were
    followed by their delay. *)
Definition retried_events (req : Request) (k : nat) : list Event :=
  flat_map (fun attempt => [Opened req; Slept (2 ^ attempt)%Z])
    (range (Z.of_nat k)).

(** What the attempt that ends a request makes of the reply it gets:
    the body of a response, the error of an HTTP failure, and the network
    error when the reply is a network failure, which ends a request only
    at its last attempt. *)
Definition final_outcome (env : Env) (retries : Z) (last_attempt : bool)
    (reply : Reply) (r : Outcome string) : Prop :=
  match reply with
  | Response raw charset _ =>
      r = Return (bytes_decode (lib env) (charset_or_utf8 charset) raw)
  | HTTPFailure code charset raw _ =>
      r = Raise (KyoceraHTTPError code
                   (bytes_decode (lib env) (failure_charset charset) raw)
                   (Some (HTTPError code)))
  | URLFailure reason =>
      last_attempt = true /\ r = Raise (network_error retries reason)
  end.

(** The cookies a reply sets. *)
Definition reply_cookies (reply : Reply) : list Cookie :=
  match reply with
  | Response _ _ cookies | HTTPFailure _ _ _ cookies => cookies
  | URLFailure _ => []
  end.

(** The client's own fields, the jar apart, and the cache are as they
    were. *)
Definition same_session (w w' : World) : Prop :=
  csrf_token w' = csrf_token w
  /\ _signage_ready w' = _signage_ready w
  /\ disable_cache w' = disable_cache w
  /\ cache_file w' = cache_file w
  /\ cache_writable w' = cache_writable w.

(** ** The forms and the token of the parser *)

(** A start tag of a form element. *)
Definition opens_form (ev : HtmlEvent) : bool :=
  match ev with
  | StartTag tag _ => String.eqb tag "form"
  | EndTag _ => false
  end.

(** The number of forms of a parser that are behind it: all of them
    when no form is open, those before the open one otherwise. *)
Definition settled (p : LoginFormParser.t) : nat :=
  match LoginFormParser._current_form p with
  | None => length (LoginFormParser.forms p)
  | Some current => current
  end.

(** The open form of a parser, if any, is the last of its forms. *)
Definition current_is_last (p : LoginFormParser.t) : Prop :=
  match LoginFormParser._current_form p with
  | None => True
  | Some current => S current = length (LoginFormParser.forms p)
  end.

(** A form as the parser records it: the method in lower case, no field
    with an empty name. *)
Definition form_recorded (form : Form) : Prop :=
  PyStr.lower (form_method form) = form_method form
  /\ Forall (fun name => name <> "") (PyDict.keys (form_fields form)).

(** What a meta element named csrf-token gives as its content, for an
    event that is the start tag of one. *)
Definition csrf_meta_content (ev : HtmlEvent) : option (option string) :=
  match ev with
  | StartTag tag attrs =>
      if String.eqb tag "meta"
      then
        match PyDict.get String.eqb "name" (LoginFormParser.attr_dict_of attrs)
        with
        | Some name =>
            if String.eqb name "csrf-token"
            then Some (PyDict.get String.eqb "content"
                         (LoginFormParser.attr_dict_of attrs))
            else None
        | None => None
        end
      else None
  | EndTag _ => None
  end.

(** ** The fields of the login payload *)

(** A field name that contains email or login, password, or remember,
    whatever the case of its letters. *)
Definition names_login (name : string) : bool :=
  PyStr.contains "email" (PyStr.lower name)
  || PyStr.contains "login" (PyStr.lower name).

Definition names_password (name : string) : bool :=
  PyStr.contains "password" (PyStr.lower name).

Definition names_remember (name : string) : bool :=
  PyStr.contains "remember" (PyStr.lower name).

(** The field the e-mail address goes to, and the one the password goes
    to: the first field of the form with such a name, and the name the
    portal uses when the form has none. *)
Definition email_field (fields : StrDict string) : string :=
  match find names_login (PyDict.keys fields) with
  | Some name => name
  | None => "user[email]"
  end.

Definition password_field (fields : StrDict string) : string :=
  match find names_password (PyDict.keys fields) with
  | Some name => name
  | None => "user[password]"
  end.

(** The payload once [_field] has settled the two fields: the fields of
    the form, and an empty entry for each of the two the form lacks. *)
Definition payload_base (fields : StrDict string) : StrDict string :=
  (fields ++ if has_login_field fields then [] else [("user[email]", "")])
  ++ if existsb names_password (PyDict.keys fields) then []
     else [("user[password]", "")].

(** The payload with the credentials written, before the remember-me
    field is looked at. *)
Definition payload_with_credentials (env : Env) (fields : StrDict string)
    : StrDict string :=
  PyDict.set String.eqb (password_field fields) (password (config env))
    (PyDict.set String.eqb (email_field fields) (email (config env))
       (payload_base fields)).

(** ** The exceptions of an operation *)

(** A computation that raises nothing but exceptions of a class. *)
Definition raises_only {S A} (class : Exc -> bool) (m : M S A) : Prop :=
  forall s e s', m s = (Raise e, s') -> class e = true.

(** The errors of the transport: [KyoceraHTTPError] and the plain
    [KyoceraError]. *)
Definition transport_error (e : Exc) : bool :=
  match e with
  | KyoceraError _ _ | KyoceraHTTPError _ _ _ => true
  | _ => false
  end.

(** What a login can end with: an error of the transport,
    [KyoceraLoginError], or the [OSError] of a cache that cannot be
    written. *)
Definition login_failure (e : Exc) : bool :=
  match e with
  | KyoceraError _ _ | KyoceraHTTPError _ _ _ | KyoceraLoginError _
  | OSError _ => true
  | _ => false
  end.




(** ** A trace that only grows *)

Definition trace_grows (w w' : World) : Prop :=
  exists events, trace w' = trace w ++ events.

(** A forced login leaves the cache alone. *)
Definition cache_untouched_if_disabled (w w' : World) : Prop :=
  disable_cache w = true -> cache_untouched w w'.

(** ** The request of a login *)


(** ** The meta element [_update_csrf_from_html] looks for *)

(** A text of whitespace only. *)
Fixpoint all_space (s : string) : bool :=
  match s with
  | String c t => PyStr.is_space c && all_space t
  | EmptyString => true
  end.

(** A text in which a character does not occur. *)
Fixpoint lacks (c : ascii) (s : string) : bool :=
  match s with
  | String c' t => negb (Ascii.eqb c' c) && lacks c t
  | EmptyString => true
  end.

(** A text that starts with a meta element as the pattern wants it: the
    tag, the name attribute and the start of the content attribute, each
    followed by whitespace where the pattern has it, then the token and
    the double quote that closes it, and the rest of the text. *)
Definition csrf_meta_text (tag ws1 name ws2 content token rest : string)
    : string :=
  tag ++ ws1 ++ name ++ ws2 ++ content ++ token ++ String PyStr.dquote rest.

(** The same element with the content before the name. *)
Definition csrf_meta_reversed (token : string) : string :=
  "<meta content=" ++ q ++ token ++ q ++ " name=" ++ q ++ "csrf-token" ++ q
  ++ ">".

(** ** Entries of the cache without a name *)

(** An entry of the cache that is a dictionary with no name, or with a
    name that is false (null, the empty string, zero). *)
Definition nameless (entry : Json) : bool :=
  match entry with
  | JObj members =>
      negb (truthy_opt (PyDict.get String.eqb "name" members))
  | _ => false
  end.

(** A cache payload with a time and a list of entries. *)
Definition cache_payload (timestamp : Z) (entries : list Json) : Json :=
  JObj [("timestamp", JNum timestamp); ("cookies", JArr entries)].

(** ** The cost of an operation *)

(** A computation that sends at most [requests] requests and sleeps at
    most [seconds] seconds, and never sets the clock back. *)
Definition costs (requests : nat) (seconds : Z) {A} (m : M World A) : Prop :=
  forall w,
    (requests_sent w <= requests_sent (snd (m w))
     <= requests_sent w + requests)%nat
    /\ (clock w <= clock (snd (m w)) <= clock w + seconds)%Z.

(* ================================================================== *)
(** * Configuration and [main] *)
(* ================================================================== *)

(** [str.rstrip()] *)
Fixpoint rstrip (s : string) : string :=
  match s with
  | String c t =>
      match rstrip t with
      | EmptyString =>
          if PyStr.is_space c then EmptyString else String c EmptyString
      | t' => String c t'
      end
  | EmptyString => EmptyString
  end.

(** [str.strip()] *)
Definition strip (s : string) : string := PyStr.lstrip (rstrip s).

(** [s or default] *)
Definition or_default (s default : string) : string :=
  if PyStr.nonempty s then s else default.

Definition BASE_URL : string := "https://sr.en.kyocera-solar.jp".

(** What [configparser.ConfigParser] holds after [cp.read(path)]:
    nothing when no file could be read ([read] answers the empty list),
    and otherwise the sections of the file, each with the options it
    answers (names in lower case, the defaults of the file and the
    interpolation of the values applied).  A file the parser rejects,
    and a value whose interpolation fails, raise errors of
    [configparser] that [load] does not handle; they are outside the
    files modelled. *)
Inductive ConfigFile : Type :=
| NotRead
| Parsed (sections : StrDict (StrDict string)).

(** [cp[section]] *)
Definition cp_section {S} (sections : StrDict (StrDict string))
    (section : string) : M S (StrDict string) :=
  match PyDict.get String.eqb section sections with
  | Some options => ret options
  | None => raise (KeyError section)
  end.

(** [cp[section][option]] *)
Definition cp_option {S} (sections : StrDict (StrDict string))
    (section option : string) : M S string :=
  options <- cp_section sections section ;;
  match PyDict.get String.eqb option options with
  | Some value => ret value
  | None => raise (KeyError option)
  end.

(** [isinstance(e, KeyError)] *)
Definition is_KeyError (e : Exc) : bool :=
  match e with KeyError _ => true | _ => false end.

(** [KyoceraConfig] with all its fields: those the client reads, and
    the three only the renderer reads. *)
Record LoadedConfig : Type := {
  client_config : KyoceraConfig;
  location : string;
  battery_capacity_kwh : float;
  battery_reserve_percent : Z
}.

(** [KyoceraConfig.load].  [float_of] and [int_of] are [float(s)] and
    [int(s)], [None] where they raise [ValueError]. *)
Definition KyoceraConfig_load {S} (float_of : string -> option float)
    (int_of : string -> option Z) (path : string) (file : ConfigFile)
    : M S LoadedConfig :=
  match file with
  | NotRead =>
      raise (KyoceraError
               [Lit "Could not read configuration file at "; Lit path] None)
  | Parsed cp =>
      auth <-
        try_except
          (email <- cp_option cp "auth" "email" ;;
           password <- cp_option cp "auth" "password" ;;
           ret (strip email, strip password))
          is_KeyError
          (fun exc =>
             raise (KyoceraError
                      [Lit "Missing [auth] section with email/password"]
                      (Some exc))) ;;
      site <-
        try_except
          (organization_id <- cp_option cp "site" "organization_id" ;;
           site_id <- cp_option cp "site" "site_id" ;;
           ret (strip organization_id, strip site_id))
          is_KeyError
          (fun exc =>
             raise (KyoceraError
                      [Lit "Missing [site] section with organization_id/site_id"]
                      (Some exc))) ;;
      site_options <- cp_section cp "site" ;;
      let base_url :=
        or_default
          (strip (PyDict.get_default String.eqb "base_url" BASE_URL
                    site_options))
          BASE_URL in
      site_options <- cp_section cp "site" ;;
      let location :=
        or_default
          (strip (PyDict.get_default String.eqb "location" "Japan"
                    site_options))
          "Japan" in
      let battery_capacity_kwh := 7%float in
      let battery_reserve_percent := 30%Z in
      battery <-
        (if PyDict.mem String.eqb "battery" cp
         then
           battery_options <- cp_section cp "battery" ;;
           let battery_capacity_kwh :=
             match
               float_of (PyDict.get_default String.eqb "capacity_kwh" "7.0"
                           battery_options)
             with
             | Some value => value
             | None => battery_capacity_kwh
             end in
           battery_options <- cp_section cp "battery" ;;
           let battery_reserve_percent :=
             match
               int_of (PyDict.get_default String.eqb "reserve_percent" "30"
                         battery_options)
             with
             | Some value => value
             | None => battery_reserve_percent
             end in
           ret (battery_capacity_kwh, battery_reserve_percent)
         else ret (battery_capacity_kwh, battery_reserve_percent)) ;;
      ret {| client_config :=
               {| email := fst auth;
                  password := snd auth;
                  organization_id := fst site;
                  site_id := snd site;
                  base_url := base_url |};
             location := location;
             battery_capacity_kwh := fst battery;
             battery_reserve_percent := snd battery |}
  end.




(** ** What a loaded configuration is like *)


(** The first and the last character of a text. *)
Definition first_char (s : string) : option ascii :=
  match s with String c _ => Some c | EmptyString => None end.

Fixpoint last_char (s : string) : option ascii :=
  match s with
  | String c t =>
      match last_char t with Some l => Some l | None => Some c end
  | EmptyString => None
  end.

(** A text with no whitespace at either end. *)
Definition trimmed (s : string) : Prop :=
  match first_char s with
  | Some c => PyStr.is_space c = false
  | None => True
  end
  /\ match last_char s with
     | Some c => PyStr.is_space c = false
     | None => True
     end.

(** A sample configuration file and sample arguments. *)
Definition sample_file : ConfigFile :=
  Parsed [ ("auth", [("email", " user@example.org "); ("password", "secret")]);
           ("site", [("organization_id", "12"); ("site_id", "34");
                     ("base_url", "  ")]);
           ("battery", [("capacity_kwh", "big")]) ].


(** The error [load] raises for a key the file lacks in a section. *)
Definition missing_auth (key : string) : Exc :=
  KyoceraError [Lit "Missing [auth] section with email/password"]
    (Some (KeyError key)).

Definition missing_site (key : string) : Exc :=
  KyoceraError [Lit "Missing [site] section with organization_id/site_id"]
    (Some (KeyError key)).

(** The battery settings [load] takes from a file. *)
Definition battery_settings (float_of : string -> option float)
    (int_of : string -> option Z) (cp : StrDict (StrDict string))
    : float * Z :=
  match PyDict.get String.eqb "battery" cp with
  | Some options =>
      (match float_of (PyDict.get_default String.eqb "capacity_kwh" "7.0"
                         options) with
       | Some value => value
       | None => 7%float
       end,
       match int_of (PyDict.get_default String.eqb "reserve_percent" "30"
                       options) with
       | Some value => value
       | None => 30%Z
       end)
  | None => (7%float, 30%Z)
  end.

(* ================================================================== *)
(** * Properties *)
(* ================================================================== *)

(** ** Running computations *)

Lemma bind_return {S A B} (m : M S A) (k : A -> M S B) s a s' :
  m s = (Return a, s') -> bind m k s = k a s'.
Proof. intros H; unfold bind; now rewrite H. Qed.

Lemma bind_raise {S A B} (m : M S A) (k : A -> M S B) s e s' :
  m s = (Raise e, s') -> bind m k s = (Raise e, s').
Proof. intros H; unfold bind; now rewrite H. Qed.

Lemma try_return {S A} (m : M S A) handles handler s a s' :
  m s = (Return a, s') -> try_except m handles handler s = (Return a, s').
Proof. intros H; unfold try_except; now rewrite H. Qed.

Lemma try_raise {S A} (m : M S A) handles handler s e s' :
  m s = (Raise e, s') ->
  try_except m handles handler s =
  if handles e then handler e s' else (Raise e, s').
Proof. intros H; unfold try_except; now rewrite H. Qed.

(** ** C3: the login-form locator *)

Lemma has_login_field_names form :
  has_login_field (form_fields form) = names_email_or_login form.
Proof. reflexivity. Qed.

Lemma resolved_action_default form :
  action_or_default form = resolved_action form.
Proof.
  unfold action_or_default, resolved_action.
  destruct (form_action form) as [[|c a]|]; reflexivity.
Qed.

(** The loop returns at the first POST form with a login field; when
    there is none it ends with the first POST form it met, or with what
    it was started with. *)
Lemma scan_forms_find forms : forall chosen,
  scan_forms forms chosen =
  match find (fun f => is_post_form f && names_email_or_login f) forms with
  | Some f => Returned (as_login_form f)
  | None =>
      Exhausted (match chosen with
                 | Some c => Some c
                 | None => find is_post_form forms
                 end)
  end.
Proof.
  induction forms as [|form rest IH]; intros chosen; simpl.
  - now destruct chosen.
  - rewrite has_login_field_names. unfold is_post_form at 1 3.
    destruct (String.eqb (PyStr.lower (form_method form)) "post") eqn:Hpost;
      simpl.
    + destruct (names_email_or_login form); [reflexivity|].
      rewrite IH. destruct chosen; reflexivity.
    + apply IH.
Qed.

Lemma choose_login_form_preferred {S} forms (s : S) :
  choose_login_form forms s =
  match preferred_form forms with
  | Some f =>
      (Return {| action := resolved_action f; fields := form_fields f |}, s)
  | None =>
      (Raise (KyoceraLoginError
                [Lit "Could not locate login form on the Kyocera portal."]), s)
  end.
Proof.
  unfold choose_login_form, preferred_form. rewrite scan_forms_find.
  destruct (find (fun f => is_post_form f && names_email_or_login f) forms)
    as [f|].
  - unfold as_login_form. now rewrite resolved_action_default.
  - destruct (find is_post_form forms) as [f|]; [|reflexivity].
    unfold as_login_form. now rewrite resolved_action_default.
Qed.

(** C3.  For every page the login request brings back, the locator
    returns the first POST form one of whose field names contains email
    or login (case ignored), wherever it stands among the POST forms;
    when no POST form has such a field, the first POST form; when the
    page has no POST form, it raises [KyoceraLoginError].  A missing or
    empty action of the form returned is replaced by /users/sign_in.
    The same holds of the selection on any list of forms. *)
Theorem login_form_locator env w :
  (forall forms,
     choose_login_form forms w =
     match preferred_form forms with
     | Some f =>
         (Return {| action := resolved_action f; fields := form_fields f |}, w)
     | None =>
         (Raise (KyoceraLoginError
                   [Lit "Could not locate login form on the Kyocera portal."]),
          w)
     end) /\
  _download_login_form env w =
  match
    _request env "GET" (urljoin (lib env) (base_url (config env)) "/login")
      None None (Some [("Accept", "text/html")]) default_retries w
  with
  | (Raise e, w1) => (Raise e, w1)
  | (Return page, w1) =>
      let parser :=
        LoginFormParser.feed LoginFormParser.init
          (html_events (lib env) page) in
      let token := LoginFormParser.csrf_token parser in
      let w2 := if token_set token then set_csrf_token token w1 else w1 in
      match preferred_form (LoginFormParser.forms parser) with
      | Some f =>
          (Return ({| action := resolved_action f; fields := form_fields f |},
                   token), w2)
      | None =>
          (Raise (KyoceraLoginError
                    [Lit "Could not locate login form on the Kyocera portal."]),
           w2)
      end
  end.
Proof.
  split; [intros forms; apply choose_login_form_preferred|].
  unfold _download_login_form.
  destruct (_request env "GET" _ None None _ default_retries w)
    as [[page|e] w1] eqn:Hreq.
  - rewrite (bind_return _ _ _ _ _ Hreq). cbv zeta.
    set (parser := LoginFormParser.feed _ _).
    unfold bind at 1.
    destruct (token_set (LoginFormParser.csrf_token parser)); cbn [modify ret];
      unfold bind; rewrite choose_login_form_preferred;
      destruct (preferred_form (LoginFormParser.forms parser));
      reflexivity.
  - now rewrite (bind_raise _ _ _ _ _ Hreq).
Qed.

(** ** C5 and C6: the transport *)



Lemma opens_app xs ys : opens (xs ++ ys) = opens xs ++ opens ys.
Proof.
  induction xs as [|[] xs IH]; simpl; rewrite ?IH; reflexivity.
Qed.

Lemma writes_app xs ys : writes (xs ++ ys) = writes xs ++ writes ys.
Proof.
  induction xs as [|[] xs IH]; simpl; rewrite ?IH; reflexivity.
Qed.


Lemma range_of_nat n : range (Z.of_nat n) = map Z.of_nat (seq 0 n).
Proof. unfold range. now rewrite Nat2Z.id. Qed.










(** ** C1: [get_status] logs in and retries once *)

Section RetryOnce.

Context {S : Type}.
Variables (fetch : M S Json) (login : M S unit) (persist : M S unit).

Lemma spy_run {A} (call : Call) (m : M S A) s log :
  spy call m (s, log) = (fst (m s), (snd (m s), log ++ [call])).
Proof. unfold spy. simpl. now destruct (m s). Qed.

(** Observing the calls changes neither the outcome nor the state. *)
Lemma observed_get_status_erase s log :
  fst (observed_get_status fetch login persist (s, log))
  = fst (get_status_with fetch login persist s)
  /\ fst (snd (observed_get_status fetch login persist (s, log)))
     = snd (get_status_with fetch login persist s).
Proof.
  unfold observed_get_status, get_status_with, try_except, bind, ret.
  rewrite spy_run.
  destruct (fetch s) as [[v|e] s1]; simpl; [auto|].
  destruct (is_KyoceraAuthRequired e); simpl; [|auto].
  rewrite spy_run.
  destruct (login s1) as [[[]|e2] s2]; simpl; [|auto].
  rewrite spy_run.
  destruct (fetch s2) as [[v|e3] s3]; simpl; [|auto].
  rewrite spy_run.
  destruct (persist s3) as [[[]|e4] s4]; simpl; auto.
Qed.

(** The calls [get_status] makes, and its outcome, case by case. *)
Lemma observed_get_status_cases s log :
  let out := observed_get_status fetch login persist (s, log) in
  match fetch s with
  | (Return v, s1) => out = (Return v, (s1, log ++ [CallFetch]))
  | (Raise e, s1) =>
      if is_KyoceraAuthRequired e then
        match login s1 with
        | (Raise e2, s2) =>
            out = (Raise e2, (s2, log ++ [CallFetch; CallLogin]))
        | (Return _, s2) =>
            match fetch s2 with
            | (Raise e3, s3) =>
                out = (Raise e3,
                       (s3, log ++ [CallFetch; CallLogin; CallFetch]))
            | (Return v, s3) =>
                out = (match fst (persist s3) with
                       | Return _ => Return v
                       | Raise e4 => Raise e4
                       end,
                       (snd (persist s3),
                        log ++ [CallFetch; CallLogin; CallFetch; CallPersist]))
            end
        end
      else out = (Raise e, (s1, log ++ [CallFetch]))
  end.
Proof.
  unfold observed_get_status, get_status_with, try_except, bind, ret.
  rewrite spy_run.
  destruct (fetch s) as [[v|e] s1]; simpl; [reflexivity|].
  destruct (is_KyoceraAuthRequired e); simpl; [|reflexivity].
  rewrite spy_run.
  destruct (login s1) as [[[]|e2] s2]; simpl;
    [|now rewrite <- app_assoc].
  rewrite spy_run.
  destruct (fetch s2) as [[v|e3] s3]; simpl;
    [|now rewrite <- !app_assoc].
  rewrite spy_run.
  destruct (persist s3) as [[[]|e4] s4]; simpl; now rewrite <- !app_assoc.
Qed.

End RetryOnce.

(** C1, amended.  Observing the calls of [get_status] changes nothing
    of what it does.  Whatever the fetch, the login and the persisting do,
    [get_status] makes at most two fetches and at most one login.  When
    the first fetch raises [KyoceraAuthRequired], it makes exactly one
    login; if the login raises, that exception goes to the caller and no
    further fetch is made; if the login returns, exactly one further
    fetch is made, an exception of that fetch (a second
    [KyoceraAuthRequired] among them) goes to the caller as it is, and
    otherwise the outcome is the status of that fetch or the exception
    of the persisting.  So the exception of the first fetch is never
    the one the caller gets. *)
Theorem get_status_retries_once {S} (fetch : M S Json)
    (login persist : M S unit) (s : S) (log : list Call) :
  let out := observed_get_status fetch login persist (s, log) in
  let calls := snd (snd out) in
  (fst out, fst (snd out)) = get_status_with fetch login persist s
  /\
  (exists made,
     calls = log ++ made /\ (fetches made <= 2)%nat /\ (logins made <= 1)%nat)
  /\
  (forall e s1,
     fetch s = (Raise e, s1) -> is_KyoceraAuthRequired e = true ->
     (exists made,
        calls = log ++ CallFetch :: CallLogin :: made /\ logins made = 0%nat)
     /\
     (forall e2 s2,
        login s1 = (Raise e2, s2) ->
        out = (Raise e2, (s2, log ++ [CallFetch; CallLogin])))
     /\
     (forall u s2,
        login s1 = (Return u, s2) ->
        (exists made,
           calls = log ++ CallFetch :: CallLogin :: CallFetch :: made
           /\ fetches made = 0%nat /\ logins made = 0%nat)
        /\
        (forall e3 s3,
           fetch s2 = (Raise e3, s3) ->
           out = (Raise e3, (s3, log ++ [CallFetch; CallLogin; CallFetch])))
        /\
        (forall v s3,
           fetch s2 = (Return v, s3) ->
           fst out = match fst (persist s3) with
                     | Return _ => Return v
                     | Raise e4 => Raise e4
                     end))).
Proof.
  intros out calls.
  pose proof (observed_get_status_cases fetch login persist s log) as Hcases.
  cbv zeta in Hcases. fold out in Hcases.
  split.
  { destruct (observed_get_status_erase fetch login persist s log) as [H1 H2].
    fold out in H1, H2. rewrite H1, H2.
    now destruct (get_status_with fetch login persist s). }
  split.
  - destruct (fetch s) as [[v|e] s1].
    + exists [CallFetch]. subst calls. rewrite Hcases. simpl. auto.
    + destruct (is_KyoceraAuthRequired e).
      * destruct (login s1) as [[u|e2] s2].
        -- destruct (fetch s2) as [[v|e3] s3].
           ++ exists [CallFetch; CallLogin; CallFetch; CallPersist].
              subst calls. rewrite Hcases. simpl. auto.
           ++ exists [CallFetch; CallLogin; CallFetch].
              subst calls. rewrite Hcases. simpl. auto.
        -- exists [CallFetch; CallLogin].
           subst calls. rewrite Hcases. simpl. auto.
      * exists [CallFetch]. subst calls. rewrite Hcases. simpl. auto.
  - intros e s1 Hfetch Hauth. rewrite Hfetch, Hauth in Hcases.
    split; [|split].
    + destruct (login s1) as [[u|e2] s2].
      * destruct (fetch s2) as [[v|e3] s3].
        -- exists [CallFetch; CallPersist]. subst calls.
           rewrite Hcases. simpl. auto.
        -- exists [CallFetch]. subst calls. rewrite Hcases. simpl. auto.
      * exists []. subst calls. rewrite Hcases. simpl. auto.
    + intros e2 s2 Hlogin. now rewrite Hlogin in Hcases.
    + intros u s2 Hlogin. rewrite Hlogin in Hcases.
      split; [|split].
      * destruct (fetch s2) as [[v|e3] s3].
        -- exists [CallPersist]. subst calls. rewrite Hcases. simpl. auto.
        -- exists []. subst calls. rewrite Hcases. simpl. auto.
      * intros e3 s3 Hfetch2. now rewrite Hfetch2 in Hcases.
      * intros v s3 Hfetch2. rewrite Hfetch2 in Hcases.
        now rewrite Hcases.
Qed.

(** The witness of C1: an expired session, a login that works. *)
Lemma get_status_retries_once_witness :
  let env := expired_session in
  let out :=
    observed_get_status (fetch_realtime env) (login env)
      (_persist_session env) (fresh_client, []) in
  (exists made,
     snd (snd out) = [] ++ CallFetch :: CallLogin :: CallFetch :: made
     /\ fetches made = 0%nat /\ logins made = 0%nat)
  /\ fst out = Return status_data.
Proof.
  intros env out. unfold out.
  destruct (get_status_retries_once (fetch_realtime env) (login env)
              (_persist_session env) fresh_client []) as (_ & _ & Hauth).
  edestruct Hauth as (_ & _ & Hlogin);
    [vm_compute; reflexivity | reflexivity |].
  edestruct Hlogin as (Hcalls & _ & Hstatus); [vm_compute; reflexivity|].
  split; [exact Hcalls|].
  erewrite Hstatus; [|vm_compute; reflexivity].
  vm_compute. reflexivity.
Defined.

(** C1 as stated fails: when the login itself fails, the first fetch
    has raised [KyoceraAuthRequired] and yet no further fetch is made.
    Here the signage page answers 401 and the login page has no form. *)
Lemma get_status_login_fails_counterexample :
  let env := locked_out in
  let out :=
    observed_get_status (fetch_realtime env) (login env)
      (_persist_session env) (fresh_client, []) in
  (exists e w1,
     fetch_realtime env fresh_client = (Raise e, w1)
     /\ is_KyoceraAuthRequired e = true)
  /\ snd (snd out) = [CallFetch; CallLogin]
  /\ fst out
     = Raise (KyoceraLoginError
                [Lit "Could not locate login form on the Kyocera portal."])
  /\ ~ (logins (snd (snd out)) = 1%nat /\ fetches (snd (snd out)) = 2%nat).
Proof.
  intros env out. split; [|split; [|split]].
  - eexists. eexists. split; [vm_compute; reflexivity|reflexivity].
  - vm_compute. reflexivity.
  - vm_compute. reflexivity.
  - vm_compute. intros [_ H]. discriminate H.
Qed.

(** ** C2 and C10: what [fetch_realtime] makes of the response *)

Lemma request_attempts_response env req retries attempt rest last w
    raw charset cookies :
  opener_open env (requests_sent w) req = Response raw charset cookies ->
  request_attempts env req retries (attempt :: rest) last w
  = (Return (bytes_decode (lib env) (charset_or_utf8 charset) raw),
     received req cookies w).
Proof.
  intros H. cbn [request_attempts].
  unfold open_request, bind, gets, emit, modify. simpl. now rewrite H.
Qed.


Lemma range_default : range default_retries = [0; 1; 2]%Z.
Proof. reflexivity. Qed.

(** [fetch_realtime] once the session is primed: the status request and
    what is made of its outcome. *)
Lemma fetch_realtime_primed env w w1 :
  _ensure_signage_ready env w = (Return tt, w1) ->
  fetch_realtime env w =
  match
    request_attempts env (realtime_request env (csrf_token w1))
      default_retries (range default_retries) None w1
  with
  | (Return text, w2) =>
      if PyStr.startswith (PyStr.lstrip text) "<"
      then (Raise html_instead_of_json, w2)
      else
        match json_loads (lib env) text with
        | inl detail => (Raise (parse_failure detail), w2)
        | inr data =>
            bind (json_get data "result")
              (fun result =>
                 if result_not_ok result
                 then raise (unexpected_result data)
                 else json_getitem data "data") w2
        end
  | (Raise e, w2) =>
      if is_KyoceraHTTPError e
      then auth_required_on_401_403 e w2
      else (Raise e, w2)
  end.
Proof.
  intros Hprime. unfold fetch_realtime.
  rewrite (bind_return _ _ _ _ _ Hprime).
  unfold bind at 1. unfold gets at 1. cbv zeta.
  unfold bind at 1, try_except, _request.
  replace (build_request env "GET" _ _ None _)
    with (realtime_request env (csrf_token w1)).
  2:{ unfold realtime_request. destruct (csrf_token w1) as [t|];
        [destruct (PyStr.nonempty t)|]; reflexivity. }
  destruct (request_attempts _ _ _ _ _ w1) as [[text|e] w2].
  - destruct (PyStr.startswith (PyStr.lstrip text) "<"); [reflexivity|].
    destruct (json_loads (lib env) text); reflexivity.
  - destruct (is_KyoceraHTTPError e); [|reflexivity].
    unfold auth_required_on_401_403.
    destruct (unauthorized e); reflexivity.
Qed.

Lemma startswith_lstrip s :
  PyStr.startswith (PyStr.lstrip s) "<"
  = match first_nonspace s with
    | Some c => Ascii.eqb c "<"
    | None => false
    end.
Proof.
  induction s as [|c t IH]; [reflexivity|].
  cbn [PyStr.lstrip first_nonspace].
  destruct (PyStr.is_space c); [exact IH|].
  unfold PyStr.startswith. cbn [prefix].
  destruct (ascii_dec "<" c) as [<-|Hne].
  - now destruct t.
  - symmetry. apply Ascii.eqb_neq. congruence.
Qed.


Lemma other_body s :
  first_nonspace s <> Some "<"%char ->
  PyStr.startswith (PyStr.lstrip s) "<" = false.
Proof.
  intros H. rewrite startswith_lstrip.
  destruct (first_nonspace s) as [c|]; [|reflexivity].
  destruct (Ascii.eqb_spec c "<"%char) as [->|]; [now elim H|reflexivity].
Qed.






(** C10.  An answer to the status request that is a JSON object with
    result ok and no data member makes [fetch_realtime] raise
    [KeyError], which is not a [KyoceraError]: [get_status] lets it
    through, and so does the handler of [main], which then ends with
    that exception instead of the exit status 1. *)
Theorem missing_data_escapes env w w1 raw charset cookies members :
  _ensure_signage_ready env w = (Return tt, w1) ->
  let req := realtime_request env (csrf_token w1) in
  let text := bytes_decode (lib env) (charset_or_utf8 charset) raw in
  let w2 := received req cookies w1 in
  opener_open env (requests_sent w1) req = Response raw charset cookies ->
  first_nonspace text <> Some "<"%char ->
  json_loads (lib env) text = inr (JObj members) ->
  PyDict.get String.eqb "result" members = Some (JStr "ok") ->
  PyDict.get String.eqb "data" members = None ->
  fetch_realtime env w = (Raise (KeyError "data"), w2)
  /\ is_KyoceraError (KeyError "data") = false
  /\ get_status env w = (Raise (KeyError "data"), w2)
  /\ main_single_fetch env w = (Raise (KeyError "data"), w2).
Proof.
  intros Hprime req text w2 Hsrv Hother Hjson Hresult Hdata.
  assert (Hfetch : fetch_realtime env w = (Raise (KeyError "data"), w2)).
  { rewrite (fetch_realtime_primed env w w1 Hprime). fold req.
    rewrite range_default,
      (request_attempts_response _ _ _ _ _ _ _ _ _ _ Hsrv).
    fold text w2. rewrite (other_body _ Hother), Hjson.
    unfold bind, json_get, ret. rewrite Hresult. cbn.
    unfold json_getitem. now rewrite Hdata. }
  assert (Hstatus : get_status env w = (Raise (KeyError "data"), w2)).
  { unfold get_status, get_status_with.
    now rewrite (try_raise _ _ _ _ _ _ Hfetch). }
  split; [exact Hfetch|]. split; [reflexivity|]. split; [exact Hstatus|].
  unfold main_single_fetch.
  assert (Hbody : bind (get_status env) (fun data => ret (Some data)) w
                  = (Raise (KeyError "data"), w2))
    by now rewrite (bind_raise _ _ _ _ _ Hstatus).
  rewrite (bind_raise _ _ w (KeyError "data") w2); [reflexivity|].
  now rewrite (try_raise _ _ _ _ _ _ Hbody).
Qed.

(** The witness of C10: the envelope is the text of an object whose
    only member is result, with the value ok. *)
Lemma missing_data_escapes_witness :
  exists w2,
    fetch_realtime envelope_without_data fresh_client
    = (Raise (KeyError "data"), w2)
    /\ is_KyoceraError (KeyError "data") = false
    /\ get_status envelope_without_data fresh_client
       = (Raise (KeyError "data"), w2)
    /\ main_single_fetch envelope_without_data fresh_client
       = (Raise (KeyError "data"), w2).
Proof.
  eexists.
  eapply (missing_data_escapes envelope_without_data fresh_client);
    try (vm_compute; reflexivity).
  vm_compute. discriminate.
Defined.

(** ** Steps that leave a relation between before and after *)

Create HintDb frame.

Section Frames.

Variable R : World -> World -> Prop.
Hypothesis F : Frame R.

Lemma preserves_ret {A} (a : A) : preserves R (ret a).
Proof. intros w. apply (frame_refl R F). Qed.

Lemma preserves_raise {A} e : preserves R (@raise World A e).
Proof. intros w. apply (frame_refl R F). Qed.

Lemma preserves_gets {A} (f : World -> A) : preserves R (gets f).
Proof. intros w. apply (frame_refl R F). Qed.

Lemma preserves_modify f : (forall w, R w (f w)) -> preserves R (modify f).
Proof. intros H w. apply H. Qed.

Lemma preserves_bind {A B} (m : M World A) (k : A -> M World B) :
  preserves R m -> (forall a, preserves R (k a)) -> preserves R (bind m k).
Proof.
  intros Hm Hk w. unfold bind. specialize (Hm w).
  destruct (m w) as [[a|e] w1]; simpl in *; [|exact Hm].
  eapply (frame_trans R F); [exact Hm|apply Hk].
Qed.

Lemma preserves_try {A} (m : M World A) handles handler :
  preserves R m -> (forall e, preserves R (handler e)) ->
  preserves R (try_except m handles handler).
Proof.
  intros Hm Hh w. unfold try_except. specialize (Hm w).
  destruct (m w) as [[a|e] w1]; simpl in *; [exact Hm|].
  destruct (handles e); simpl; [|exact Hm].
  eapply (frame_trans R F); [exact Hm|apply Hh].
Qed.

Lemma preserves_for_each {X} (xs : list X) (body : X -> M World unit) :
  (forall x, preserves R (body x)) -> preserves R (for_each xs body).
Proof.
  intros Hbody. induction xs as [|x xs IH]; cbn [for_each].
  - apply preserves_ret.
  - apply preserves_bind; [apply Hbody|intros _; exact IH].
Qed.

Lemma preserves_on_jar {A} (m : M CookieJar A) : preserves R (on_jar m).
Proof.
  intros w. unfold on_jar, zoom. destruct (m (cookie_jar w)).
  apply (frame_jar R F).
Qed.

Lemma preserves_opened req : preserves R (emit (Opened req)).
Proof. intros w. apply (frame_opened R F). Qed.

Lemma preserves_slept seconds : preserves R (emit (Slept seconds)).
Proof. intros w. apply (frame_slept R F). Qed.

Lemma preserves_printed data : preserves R (emit (Printed data)).
Proof. intros w. apply (frame_printed R F). Qed.

Hint Resolve preserves_ret preserves_raise preserves_gets preserves_on_jar
  preserves_opened preserves_slept preserves_printed : frame.

(** One step through a computation: a sequence, a handler, a state
    change the frame allows, a branch. *)
Ltac frame_step :=
  match goal with
  | |- preserves _ (bind _ _) => apply preserves_bind; [|intros ?]
  | |- preserves _ (try_except _ _ _) => apply preserves_try; [|intros ?]
  | |- preserves _ (for_each _ _) => apply preserves_for_each; intros ?
  | |- preserves _ (modify _) =>
      apply preserves_modify; intros ?;
      first [ apply (frame_sent R F) | apply (frame_jar R F)
            | apply (frame_clock R F) | apply (frame_signage R F) ]
  | |- preserves _ (if ?b then _ else _) => destruct b
  | |- preserves _ (match ?x with _ => _ end) => destruct x
  | |- preserves _ _ => solve [auto with frame]
  end.

Lemma preserves_sleep seconds : preserves R (sleep seconds).
Proof. unfold sleep. repeat frame_step. Qed.

Lemma preserves_open_request env req : preserves R (open_request env req).
Proof. unfold open_request. repeat frame_step. Qed.

Hint Resolve preserves_sleep preserves_open_request : frame.

Lemma preserves_request_attempts env req retries attempts :
  forall last_error,
    preserves R (request_attempts env req retries attempts last_error).
Proof.
  induction attempts as [|attempt rest IH]; intros last_error;
    cbn [request_attempts]; repeat frame_step.
Qed.

Lemma preserves_request env method url params data headers retries :
  preserves R (_request env method url params data headers retries).
Proof. apply preserves_request_attempts. Qed.

Lemma preserves_json_get data key : preserves R (json_get data key).
Proof. unfold json_get. repeat frame_step. Qed.

Lemma preserves_json_getitem data key : preserves R (json_getitem data key).
Proof. unfold json_getitem. repeat frame_step. Qed.

Hint Resolve preserves_request preserves_json_get preserves_json_getitem
  : frame.

Lemma preserves_json_get_default data key default :
  preserves R (json_get_default data key default).
Proof. unfold json_get_default. repeat frame_step. Qed.

Lemma preserves_as_number v : preserves R (as_number v).
Proof. unfold as_number. repeat frame_step. Qed.

Lemma preserves_iterate v : preserves R (iterate v).
Proof. unfold iterate. repeat frame_step. Qed.

Lemma preserves_Cookie_expires float_of_str expires :
  preserves R (Cookie_expires float_of_str expires).
Proof. unfold Cookie_expires. repeat frame_step. Qed.

Hint Resolve preserves_json_get_default preserves_as_number preserves_iterate
  preserves_Cookie_expires : frame.

Lemma preserves_cookie_from_dict float_of_str data :
  preserves R (_cookie_from_dict float_of_str data).
Proof. unfold _cookie_from_dict. repeat frame_step. Qed.

Hint Resolve preserves_cookie_from_dict : frame.

Lemma preserves_load_cookie env cookie_dict :
  preserves R (load_cookie env cookie_dict).
Proof. unfold load_cookie. repeat frame_step. Qed.

Hint Resolve preserves_load_cookie : frame.

Lemma preserves_load_session_cache env :
  preserves R (_load_session_cache env).
Proof.
  unfold _load_session_cache, load_session_cache_body. repeat frame_step.
Qed.

(** Group 1 of the pattern is never empty. *)
Lemma match_csrf_meta_nonempty s token :
  PyStr.match_csrf_meta s = Some token -> token <> "".
Proof.
  unfold PyStr.match_csrf_meta.
  destruct (PyStr.match_literal "<meta" s) as [s1|]; [|discriminate].
  destruct (PyStr.match_spaces s1) as [s2|]; [|discriminate].
  destruct (PyStr.match_literal PyStr.name_attr s2) as [s3|]; [|discriminate].
  destruct (PyStr.match_spaces s3) as [s4|]; [|discriminate].
  destruct (PyStr.match_literal PyStr.content_attr s4) as [s5|];
    [|discriminate].
  destruct (PyStr.span_unquoted s5) as [[|c taken] [|c' rest]];
    try discriminate.
  intros [= <-]. discriminate.
Qed.

Lemma search_csrf_meta_nonempty s token :
  PyStr.search_csrf_meta s = Some token -> token <> "".
Proof.
  induction s as [|c t IH]; cbn [PyStr.search_csrf_meta].
  - destruct (PyStr.match_csrf_meta "") as [tok|] eqn:Hm; [|discriminate].
    intros [= <-]. eapply match_csrf_meta_nonempty, Hm.
  - destruct (PyStr.match_csrf_meta (String c t)) as [tok|] eqn:Hm;
      [|exact IH].
    intros [= <-]. eapply match_csrf_meta_nonempty, Hm.
Qed.

Lemma preserves_update_csrf html : preserves R (_update_csrf_from_html html).
Proof.
  unfold _update_csrf_from_html.
  destruct (PyStr.search_csrf_meta html) as [token|] eqn:Hsearch;
    [|apply preserves_ret].
  intros w. apply (frame_token R F).
  eapply search_csrf_meta_nonempty, Hsearch.
Qed.

Lemma token_set_nonempty token :
  token_set token = true -> exists t, token = Some t /\ t <> "".
Proof.
  destruct token as [[|c t]|]; try discriminate.
  intros _. eexists. split; [reflexivity|discriminate].
Qed.

Lemma preserves_choose_login_form forms :
  preserves R (choose_login_form forms).
Proof. unfold choose_login_form. repeat frame_step. Qed.

Hint Resolve preserves_update_csrf preserves_choose_login_form : frame.

Lemma preserves_download_login_form env :
  preserves R (_download_login_form env).
Proof.
  unfold _download_login_form. cbv zeta.
  apply preserves_bind; [auto with frame|intros page].
  apply preserves_bind; [|intros ?; repeat frame_step].
  destruct (token_set _) eqn:Hset; [|apply preserves_ret].
  destruct (token_set_nonempty _ Hset) as (t & -> & Hne).
  intros w. now apply (frame_token R F).
Qed.

Lemma preserves_auth_required {A} e :
  preserves R (@auth_required_on_401_403 A e).
Proof. unfold auth_required_on_401_403. repeat frame_step. Qed.

Hint Resolve preserves_download_login_form preserves_auth_required : frame.

Lemma preserves_ensure_signage_ready env :
  preserves R (_ensure_signage_ready env).
Proof. unfold _ensure_signage_ready. repeat frame_step. Qed.

Hint Resolve preserves_ensure_signage_ready : frame.

Lemma preserves_fetch_realtime env : preserves R (fetch_realtime env).
Proof. unfold fetch_realtime. repeat frame_step. Qed.

Hint Resolve preserves_fetch_realtime : frame.

(** The three methods that persist the session respect the relation as
    soon as persisting does. *)
Section Persisting.

Variable env : Env.
Hypothesis Hpersist : preserves R (_persist_session env).

Lemma preserves_login : preserves R (login env).
Proof. unfold login. repeat frame_step. Qed.

Hint Resolve preserves_login : frame.

Lemma preserves_get_status : preserves R (get_status env).
Proof. unfold get_status, get_status_with. repeat frame_step. Qed.

Hint Resolve preserves_get_status : frame.

Lemma preserves_main : preserves R (main_single_fetch env).
Proof. unfold main_single_fetch. repeat frame_step. Qed.

End Persisting.

End Frames.

(** ** C8: the CSRF token is never cleared *)

Lemma token_kept_frame : Frame token_kept.
Proof.
  split; try (intros; left; reflexivity).
  - intros w1 w2 w3 [H12|H12] [H23|H23].
    + left. congruence.
    + now right.
    + right. now rewrite H23.
    + now right.
  - intros w token Hne. right. now exists token.
Qed.

Lemma token_kept_persist env : preserves token_kept (_persist_session env).
Proof.
  intros w. left. unfold _persist_session, bind, gets, modify, emit, raise.
  simpl. destruct (disable_cache w); [reflexivity|].
  destruct (cache_writable w); reflexivity.
Qed.

(** C8.  Every operation of the client leaves the CSRF token as it was
    or replaces it by a new, non-empty token; so a token that is held
    (not [None]) is still held after any run of operations. *)
Theorem csrf_token_never_cleared env w :
  (forall op, token_kept w (after env op w))
  /\ (csrf_token w <> None ->
      forall ops, csrf_token (after_all env ops w) <> None).
Proof.
  assert (Hop : forall op w0, token_kept w0 (after env op w0)).
  { pose proof token_kept_frame as F.
    pose proof (token_kept_persist env) as P.
    intros [] w0; cbn [after].
    - now apply preserves_login.
    - now apply preserves_download_login_form.
    - now apply preserves_ensure_signage_ready.
    - now apply preserves_fetch_realtime.
    - now apply preserves_get_status.
    - apply P.
    - now apply preserves_load_session_cache.
    - now apply preserves_main. }
  split; [intros op; apply Hop|].
  intros Hheld ops. revert w Hheld.
  induction ops as [|op ops IH]; intros w Hheld; [exact Hheld|].
  cbn [after_all fold_left]. apply IH.
  destruct (Hop op w) as [Hsame|(token & Hnew & _)]; congruence.
Qed.

(** The witness of C8: a client that holds a token goes through an
    expired session, a login and a second fetch. *)
Lemma csrf_token_never_cleared_witness :
  csrf_token
    (after_all expired_session [Op_get_status; Op_fetch_realtime; Op_login]
       (set_csrf_token (Some "old") fresh_client))
  <> None.
Proof.
  apply (csrf_token_never_cleared expired_session
           (set_csrf_token (Some "old") fresh_client)).
  simpl. discriminate.
Defined.

(** ** C7: when [get_status] persists the session *)

Lemma bind_returns {S A B} (m : M S A) (k : A -> M S B) s b s' :
  bind m k s = (Return b, s') ->
  exists a s1, m s = (Return a, s1) /\ k a s1 = (Return b, s').
Proof.
  unfold bind. destruct (m s) as [[a|e] s1]; [eauto|discriminate].
Qed.

Lemma writes_snoc events ev :
  writes (events ++ [ev])
  = writes events ++ match ev with Wrote payload => [payload] | _ => [] end.
Proof. rewrite writes_app. now destruct ev. Qed.

Lemma cache_untouched_frame : Frame cache_untouched.
Proof.
  split; try (intros; repeat split; simpl; rewrite ?writes_snoc, ?app_nil_r;
              reflexivity).
  intros w1 w2 w3 (Hf & Hw & Hd & Hc) (Hf' & Hw' & Hd' & Hc').
  repeat split; congruence.
Qed.

(** Persisting, when it returns with the cache enabled, has written the
    snapshot of the client and changed nothing else of it. *)
Lemma persist_session_returns env w w' :
  _persist_session env w = (Return tt, w') ->
  disable_cache w = false ->
  cache_file w' = Stored (session_snapshot w')
  /\ writes (trace w') = writes (trace w) ++ [session_snapshot w']
  /\ disable_cache w' = false.
Proof.
  unfold _persist_session, bind, gets, modify, emit, raise.
  intros Hrun Hdisabled. cbn in Hrun. rewrite Hdisabled in Hrun.
  destruct (cache_writable w); [|discriminate].
  injection Hrun as <-. cbn. rewrite writes_snoc.
  repeat split. exact Hdisabled.
Qed.

(** A login that returns has written the cache exactly once, as its
    last step. *)
Lemma login_returns env w w' :
  login env w = (Return tt, w') ->
  disable_cache w = false ->
  cache_file w' = Stored (session_snapshot w')
  /\ writes (trace w') = writes (trace w) ++ [session_snapshot w']
  /\ disable_cache w' = false.
Proof.
  pose proof cache_untouched_frame as F.
  intros Hrun Hdisabled. unfold login in Hrun.
  apply bind_returns in Hrun as ([form token] & w1 & Hform & Hrun).
  pose proof (preserves_download_login_form _ F env w) as H1.
  rewrite Hform in H1. cbn [snd] in H1. cbv zeta in Hrun.
  apply bind_returns in Hrun as (page & w2 & Hpost & Hrun).
  match type of Hpost with
  | ?m w1 = _ => assert (H2 : cache_untouched w1 (snd (m w1)))
      by apply (preserves_request _ F)
  end.
  rewrite Hpost in H2. cbn [snd] in H2.
  destruct (_ || _); [discriminate|].
  apply bind_returns in Hrun as ([] & w3 & Hcsrf & Hrun).
  pose proof (preserves_update_csrf _ F page w2) as H3.
  rewrite Hcsrf in H3. cbn [snd] in H3.
  apply bind_returns in Hrun as ([] & w4 & Hready & Hrun).
  injection Hready as <-.
  destruct H1 as (_ & Hw1 & Hd1 & _), H2 as (_ & Hw2 & Hd2 & _),
    H3 as (_ & Hw3 & Hd3 & _).
  destruct (persist_session_returns env _ _ Hrun) as (Hfile & Hwrites & Hd).
  { simpl. congruence. }
  repeat split; [exact Hfile| |exact Hd].
  rewrite Hwrites. simpl. congruence.
Qed.

(** C7, amended.  A call of [get_status] whose first fetch returns
    hands that status to the caller and leaves the cache untouched: no
    write at all.  A call whose first fetch raises and which still
    returns a status has, with the cache enabled, written the cache
    twice, at the end of the login and after the second fetch, and the
    file then holds the snapshot of the client as the call leaves it. *)
Theorem get_status_persists_after_relogin env w :
  (forall status w1,
     fetch_realtime env w = (Return status, w1) ->
     get_status env w = (Return status, w1)
     /\ cache_untouched w w1)
  /\
  (forall e w1 status w',
     fetch_realtime env w = (Raise e, w1) ->
     get_status env w = (Return status, w') ->
     disable_cache w = false ->
     is_KyoceraAuthRequired e = true
     /\ cache_file w' = Stored (session_snapshot w')
     /\ exists after_login,
          writes (trace w')
          = writes (trace w) ++ [after_login; session_snapshot w']).
Proof.
  pose proof cache_untouched_frame as F.
  split.
  - intros status w1 Hfetch. split.
    + unfold get_status, get_status_with.
      now rewrite (try_return _ _ _ _ _ _ Hfetch).
    + pose proof (preserves_fetch_realtime _ F env w) as H.
      now rewrite Hfetch in H.
  - intros e w1 status w' Hfetch Hstatus Hdisabled.
    pose proof (preserves_fetch_realtime _ F env w) as H1.
    rewrite Hfetch in H1. cbn [snd] in H1.
    destruct H1 as (_ & Hw1 & Hd1 & _).
    unfold get_status, get_status_with in Hstatus.
    rewrite (try_raise _ _ _ _ _ _ Hfetch) in Hstatus.
    destruct (is_KyoceraAuthRequired e); [|discriminate].
    split; [reflexivity|].
    apply bind_returns in Hstatus as ([] & w2 & Hlogin & Hstatus).
    apply bind_returns in Hstatus as (status' & w3 & Hfetch2 & Hstatus).
    apply bind_returns in Hstatus as ([] & w4 & Hpersist & Hret).
    injection Hret as -> ->.
    destruct (login_returns env _ _ Hlogin) as (_ & Hw2 & Hd2);
      [congruence|].
    pose proof (preserves_fetch_realtime _ F env w2) as H3.
    rewrite Hfetch2 in H3. cbn [snd] in H3.
    destruct H3 as (_ & Hw3 & Hd3 & _).
    destruct (persist_session_returns env _ _ Hpersist)
      as (Hfile & Hwrites & _); [congruence|].
    split; [exact Hfile|].
    exists (session_snapshot w2).
    rewrite Hwrites, Hw3, Hw2, Hw1, <- app_assoc. reflexivity.
Qed.

(** The witness of C7: the expired session, where the login works. *)
Lemma get_status_persists_after_relogin_witness :
  let w' := snd (get_status expired_session fresh_client) in
  cache_file w' = Stored (session_snapshot w')
  /\ exists after_login,
       writes (trace w')
       = writes (trace fresh_client) ++ [after_login; session_snapshot w'].
Proof.
  intros w'.
  destruct (get_status_persists_after_relogin expired_session fresh_client)
    as [_ H].
  edestruct H as (_ & Hfile & Hwrites);
    [vm_compute; reflexivity | vm_compute; reflexivity | reflexivity |].
  split; [exact Hfile|exact Hwrites].
Defined.

(** C7 as stated fails: with a live session and the cache enabled,
    [get_status] returns the status and the cache file is never
    written. *)
Lemma get_status_without_persist_counterexample :
  let out := get_status live_session fresh_client in
  fst out = Return status_data
  /\ disable_cache fresh_client = false
  /\ cache_file (snd out) = Missing
  /\ writes (trace (snd out)) = [].
Proof. vm_compute. repeat split. Qed.

(** ** C4: loading the cache *)

Lemma set_cookie_jar_same w : set_cookie_jar (cookie_jar w) w = w.
Proof. now destruct w. Qed.

(** [_cookie_from_dict] neither reads nor changes the state. *)
Lemma cookie_from_dict_pure {S} float_of_str entry (s : S) :
  _cookie_from_dict float_of_str entry s
  = (decode_entry float_of_str entry, s).
Proof.
  unfold decode_entry, _cookie_from_dict, json_get_default, json_get.
  destruct entry as [| | | | |members]; try reflexivity.
  unfold bind, ret, raise. cbn.
  destruct (truthy_opt (PyDict.get String.eqb "name" members));
    [|reflexivity]. cbn.
  destruct (PyDict.get String.eqb "value" members);
    destruct (PyDict.get String.eqb "domain" members) as [[]|];
    destruct (PyDict.get String.eqb "path" members);
    try reflexivity; cbn;
    destruct (PyDict.get String.eqb "secure" members);
    destruct (PyDict.get String.eqb "expires" members) as [[]|];
    destruct (PyDict.get String.eqb "discard" members);
    cbn; try reflexivity;
    destruct (float_of_str _); reflexivity.
Qed.

(** The loop of the loader changes the jar as [load_entries] says and
    nothing else. *)
Lemma load_loop env entries : forall w,
  snd (for_each entries (load_cookie env) w)
  = set_cookie_jar
      (load_entries (float_of_str (lib env)) entries (cookie_jar w)) w.
Proof.
  induction entries as [|entry rest IH]; intros w; cbn [for_each load_entries].
  - cbn. now rewrite set_cookie_jar_same.
  - unfold bind at 1. unfold load_cookie at 1. unfold bind at 1.
    rewrite cookie_from_dict_pure.
    destruct (decode_entry _ entry) as [[cookie|]|e].
    + unfold on_jar, zoom.
      destruct (set_cookie cookie (cookie_jar w)) as [[[]|e] jar'].
      * rewrite IH. reflexivity.
      * reflexivity.
    + cbn [ret]. apply IH.
    + cbn. now rewrite set_cookie_jar_same.
Qed.

Lemma load_session_cache_returns env w :
  fst (_load_session_cache env w) = Return tt.
Proof.
  unfold _load_session_cache, bind, gets, try_except.
  destruct (cache_file w); [reflexivity| |];
    destruct (load_session_cache_body env w) as [[[]|e] w1]; reflexivity.
Qed.

(** The state the loader leaves, by the content of the file. *)
Lemma load_session_cache_state env w :
  snd (_load_session_cache env w)
  = match cache_file w with
    | Missing | Unreadable _ => w
    | Stored payload =>
        match timestamp_of payload, payload with
        | Some t, JObj members =>
            if (clock w - t >? SESSION_MAX_AGE)%Z then w
            else
              match cookie_entries members with
              | Some entries =>
                  set_cookie_jar
                    (load_entries (float_of_str (lib env)) entries
                       (cookie_jar w)) w
              | None => w
              end
        | _, _ => w
        end
    end.
Proof.
  unfold _load_session_cache. unfold bind at 1, gets at 1.
  destruct (cache_file w) as [|detail|payload] eqn:Hfile; [reflexivity| |].
  - unfold try_except, load_session_cache_body, bind, gets.
    now rewrite Hfile.
  - assert (Hbody :
      snd (load_session_cache_body env w)
      = match timestamp_of payload, payload with
        | Some t, JObj members =>
            if (clock w - t >? SESSION_MAX_AGE)%Z then w
            else
              match cookie_entries members with
              | Some entries =>
                  set_cookie_jar
                    (load_entries (float_of_str (lib env)) entries
                       (cookie_jar w)) w
              | None => w
              end
        | _, _ => w
        end).
    { unfold load_session_cache_body. unfold bind at 1, gets at 1.
      rewrite Hfile.
      destruct payload as [| | | | |members]; try reflexivity.
      unfold timestamp_of, cookie_entries, json_get_default, json_get.
      unfold bind at 1. unfold bind at 1. cbn [ret].
      unfold bind at 1. cbn [gets]. unfold bind at 1.
      destruct (PyDict.get String.eqb "timestamp" members) as [[]|];
        cbn [as_number ret raise snd]; try reflexivity.
      all: match goal with
           | |- context [(?a >? ?b)%Z] => destruct (a >? b)%Z
           end; [reflexivity|].
      all: unfold bind at 1; unfold bind at 1; cbn [ret];
        unfold bind at 1;
        destruct (PyDict.get String.eqb "cookies" members) as [[]|];
        cbn [iterate ret raise snd]; try reflexivity;
        apply load_loop. }
    unfold try_except.
    destruct (load_session_cache_body env w) as [[[]|e] w1]; exact Hbody.
Qed.






(** ** C9: a cookie through the cache *)


(** *** Dictionaries that grow at the end *)

Section DictFacts.

Context {K V : Type} (eqb : K -> K -> bool).

Lemma get_app k (d1 d2 : list (K * V)) :
  PyDict.get eqb k (d1 ++ d2)
  = match PyDict.get eqb k d1 with
    | Some v => Some v
    | None => PyDict.get eqb k d2
    end.
Proof.
  induction d1 as [|[k' v'] d1 IH]; [reflexivity|].
  cbn [app PyDict.get]. now destruct (eqb k' k).
Qed.

Lemma get_absent k (d : list (K * V)) :
  (forall k', In k' (map fst d) -> eqb k' k = false) ->
  PyDict.get eqb k d = None.
Proof.
  induction d as [|[k' v'] d IH]; intros H; [reflexivity|].
  cbn [PyDict.get]. rewrite (H k') by now left.
  apply IH. intros k'' Hin. apply H. now right.
Qed.

Lemma set_absent k v (d : list (K * V)) :
  PyDict.get eqb k d = None -> PyDict.set eqb k v d = d ++ [(k, v)].
Proof.
  induction d as [|[k' v'] d IH]; [reflexivity|].
  cbn [PyDict.get PyDict.set app].
  destruct (eqb k' k); [discriminate|].
  intros H. now rewrite IH.
Qed.



End DictFacts.





(** *** Rebuilding a jar from its cookies *)















(** *** Jars the client builds are well formed *)

Section DictUpdates.

Context {K V : Type} (eqb : K -> K -> bool).


Lemma set_keys k v (d : list (K * V)) :
  map fst (PyDict.set eqb k v d)
  = if PyDict.mem eqb k d then map fst d else map fst d ++ [k].
Proof.
  unfold PyDict.mem.
  induction d as [|[k' v'] d IH]; [reflexivity|].
  cbn [PyDict.set PyDict.get]. destruct (eqb k' k); [reflexivity|].
  cbn [map fst]. rewrite IH.
  now destruct (PyDict.get eqb k d).
Qed.

Lemma in_mem k (d : list (K * V)) :
  exact_key eqb k -> In k (map fst d) -> PyDict.mem eqb k d = true.
Proof.
  intros [Hrefl _]. unfold PyDict.mem.
  induction d as [|[k' v'] d IH]; [intros []|].
  cbn [map fst PyDict.get]. intros [->|Hin].
  - now rewrite Hrefl.
  - destruct (eqb k' k); [reflexivity|auto].
Qed.




End DictUpdates.

Lemma exact_domain d : exact_key String.eqb d.
Proof.
  split; [apply String.eqb_refl|].
  intros k' H. now apply String.eqb_eq.
Qed.










(** ** The samples, run *)

(** The login form is chosen wherever it stands, its empty action
    replaced; the submit button is not a field. *)
Example locator_prefers_login_form :
  let chosen :=
    {| action := "/users/sign_in";
       fields := [("user[Email]", ""); ("user[password]", "")] |} in
  choose_login_form
    (LoginFormParser.forms
       (LoginFormParser.feed LoginFormParser.init
          (search_form ++ sign_in_form))) tt
  = (Return chosen, tt)
  /\ choose_login_form
       (LoginFormParser.forms
          (LoginFormParser.feed LoginFormParser.init
             (sign_in_form ++ search_form))) tt
     = (Return chosen, tt).
Proof. split; reflexivity. Qed.

(** Without a login form the first POST form is taken; without a POST
    form the locator fails. *)
Example locator_falls_back :
  choose_login_form
    (LoginFormParser.forms
       (LoginFormParser.feed LoginFormParser.init (get_form ++ search_form)))
    tt
  = (Return {| action := "/search"; fields := [("q", "")] |}, tt)
  /\ choose_login_form
       (LoginFormParser.forms
          (LoginFormParser.feed LoginFormParser.init get_form)) tt
     = (Raise (KyoceraLoginError
                 [Lit "Could not locate login form on the Kyocera portal."]),
        tt).
Proof. split; reflexivity. Qed.

(** The token of the page is the content of its meta tag. *)
Example parser_reads_token :
  LoginFormParser.csrf_token
    (LoginFormParser.feed LoginFormParser.init sign_in_form)
  = Some "tok9".
Proof. reflexivity. Qed.

(** HTML for a status, a body that is not JSON, an error envelope. *)
Example fetch_realtime_samples :
  fst (fetch_realtime signed_out fresh_client) = Raise html_instead_of_json
  /\ fst (fetch_realtime garbled fresh_client)
     = Raise (parse_failure "Expecting value: line 1 column 1 (char 0)")
  /\ fst (fetch_realtime refusing fresh_client)
     = Raise (unexpected_result (JObj [("result", JStr "error")])).
Proof. repeat split; vm_compute; reflexivity. Qed.

(** A cache of 1801 seconds is not loaded, one of 60 seconds is. *)
Example cache_expiry_samples :
  cookie_jar
    (snd (KyoceraClient_init (scripted []) false 3600 stale_cache true))
  = []
  /\ map cookie_name
       (jar_cookies
          (cookie_jar
             (snd (KyoceraClient_init (scripted []) false 3600 recent_cache
                     true))))
     = [JStr "_session_id"].
Proof. split; vm_compute; reflexivity. Qed.

(** Three network failures take three seconds of sleep. *)
Example backoff_clock :
  clock (snd (_request (scripted []) "GET" "https://host/x" None None None 3
                fresh_client))
  = (clock fresh_client + 3)%Z.
Proof. vm_compute. reflexivity. Qed.

(* ================================================================== *)
(** * Further properties *)
(* ================================================================== *)

(** ** The attempts of a request *)

Lemma retried_events_S req k :
  retried_events req (S k)
  = retried_events req k ++ [Opened req; Slept (2 ^ Z.of_nat k)%Z].
Proof.
  unfold retried_events. rewrite !range_of_nat, seq_S, map_app, flat_map_app.
  simpl. rewrite ?app_nil_r. reflexivity.
Qed.

Lemma flat_map_attempts req a k :
  flat_map (fun attempt => [Opened req; Slept (2 ^ attempt)%Z])
    (map Z.of_nat (seq a (S k)))
  = [Opened req; Slept (2 ^ Z.of_nat a)%Z]
    ++ flat_map (fun attempt => [Opened req; Slept (2 ^ attempt)%Z])
         (map Z.of_nat (seq (S a) k)).
Proof. reflexivity. Qed.

Lemma open_request_reply env req w :
  open_request env req w
  = (Return (match opener_open env (requests_sent w) req with
             | Response raw charset _ => inr (raw, charset)
             | HTTPFailure code charset raw _ =>
                 inl (Raised_HTTPError code charset raw)
             | URLFailure reason => inl (Raised_URLError reason)
             end),
     received req (reply_cookies (opener_open env (requests_sent w) req)) w).
Proof.
  unfold open_request, bind, gets, emit, modify. simpl.
  destruct (opener_open env (requests_sent w) req); reflexivity.
Qed.

Lemma same_session_refl w : same_session w w.
Proof. repeat split. Qed.

(** The loop of [_request] from attempt [a] on, [S n] attempts left:
    where it stops and what it leaves. *)
Lemma request_attempts_anatomy env req R :
  forall n a last w,
    (a + S n = R)%nat ->
    exists k r w',
      (k <= n)%nat
      /\ request_attempts env req (Z.of_nat R) (map Z.of_nat (seq a (S n)))
           last w = (r, w')
      /\ trace w' =
         trace w
         ++ flat_map (fun attempt => [Opened req; Slept (2 ^ attempt)%Z])
              (map Z.of_nat (seq a k))
         ++ [Opened req]
      /\ requests_sent w' = (requests_sent w + k + 1)%nat
      /\ clock w' = (clock w + 2 ^ Z.of_nat (a + k) - 2 ^ Z.of_nat a)%Z
      /\ final_outcome env (Z.of_nat R) (k =? n)%nat
           (opener_open env (requests_sent w + k) req) r
      /\ cookie_jar w'
         = store_cookies
             (reply_cookies (opener_open env (requests_sent w + k) req))
             (cookie_jar w)
      /\ same_session w w'
      /\ (forall i, (i < k)%nat ->
            exists reason,
              opener_open env (requests_sent w + i) req = URLFailure reason).
Proof.
  induction n as [|n IH]; intros a last w Ha.
  - exists 0%nat. cbn [seq map request_attempts].
    rewrite (bind_return _ _ _ _ _ (open_request_reply env req w)).
    rewrite Nat.add_0_r.
    destruct (opener_open env (requests_sent w) req)
      as [raw charset cookies|code charset raw cookies|reason] eqn:Hreply.
    + eexists. eexists. split; [lia|]. split; [reflexivity|].
      cbn. rewrite ?Nat.add_0_r. repeat split; lia.
    + eexists. eexists. split; [lia|]. split; [reflexivity|].
      cbn. rewrite ?Nat.add_0_r. repeat split; lia.
    + replace (Z.of_nat a <? Z.of_nat R - 1)%Z with false
        by (symmetry; apply Z.ltb_ge; lia).
      eexists. eexists. split; [lia|]. split; [reflexivity|].
      cbn. rewrite ?Nat.add_0_r. repeat split; lia.
  - change (seq a (S (S n))) with (a :: seq (S a) (S n)).
    cbn [map request_attempts].
    rewrite (bind_return _ _ _ _ _ (open_request_reply env req w)).
    destruct (opener_open env (requests_sent w) req)
      as [raw charset cookies|code charset raw cookies|reason] eqn:Hreply.
    + exists 0%nat. rewrite Nat.add_0_r, Hreply.
      eexists. eexists. split; [lia|]. split; [reflexivity|].
      cbn. rewrite ?Nat.add_0_r. repeat split; lia.
    + exists 0%nat. rewrite Nat.add_0_r, Hreply.
      eexists. eexists. split; [lia|]. split; [reflexivity|].
      cbn. rewrite ?Nat.add_0_r. repeat split; lia.
    + replace (Z.of_nat a <? Z.of_nat R - 1)%Z with true
        by (symmetry; apply Z.ltb_lt; lia).
      cbv zeta. cbn [reply_cookies].
      assert (Hsleep :
        sleep (2 ^ Z.of_nat a) (received req [] w)
        = (Return tt, slept (2 ^ Z.of_nat a) (received req [] w)))
        by reflexivity.
      rewrite (bind_return _ _ _ _ _ Hsleep).
      destruct (IH (S a) (Some (URLError reason))
                  (slept (2 ^ Z.of_nat a) (received req [] w)))
        as (k & r & w' & Hk & Hrun & Htrace & Hsent & Hclock & Hout & Hjar
            & Hsame & Hbefore); [lia|].
      exists (S k), r, w'. split; [lia|]. split; [exact Hrun|].
      cbn [slept received opened set_clock set_trace set_cookie_jar
           set_requests_sent trace requests_sent clock cookie_jar
           store_cookies fold_left] in *.
      replace (requests_sent w + S k)%nat with (S (requests_sent w) + k)%nat
        by lia.
      split.
      { rewrite Htrace, flat_map_attempts, <- !app_assoc. reflexivity. }
      split; [lia|]. split.
      { rewrite Hclock. replace (a + S k)%nat with (S a + k)%nat by lia.
        generalize (2 ^ Z.of_nat (S a + k))%Z; intros x.
        rewrite Nat2Z.inj_succ, Z.pow_succ_r by lia. lia. }
      split; [exact Hout|]. split; [exact Hjar|].
      split; [exact Hsame|].
      intros [|i] Hi.
      * exists reason. now rewrite Nat.add_0_r.
      * replace (requests_sent w + S i)%nat
          with (S (requests_sent w) + i)%nat by lia.
        apply Hbefore. lia.
Qed.


Lemma retried_events_seq req k :
  flat_map (fun attempt => [Opened req; Slept (2 ^ attempt)%Z])
    (map Z.of_nat (seq 0 k))
  = retried_events req k.
Proof. unfold retried_events. now rewrite range_of_nat. Qed.

(** The loop of [_request] from attempt 0, for any request. *)
Lemma request_loop_anatomy env req retries w :
  (1 <= retries)%Z ->
  exists k r w',
    request_attempts env req retries (range retries) None w = (r, w')
    /\ (Z.of_nat k < retries)%Z
    /\ trace w' = trace w ++ retried_events req k ++ [Opened req]
    /\ requests_sent w' = (requests_sent w + k + 1)%nat
    /\ clock w' = (clock w + 2 ^ Z.of_nat k - 1)%Z
    /\ final_outcome env retries (Z.of_nat k =? retries - 1)%Z
         (opener_open env (requests_sent w + k) req) r
    /\ cookie_jar w'
       = store_cookies
           (reply_cookies (opener_open env (requests_sent w + k) req))
           (cookie_jar w)
    /\ same_session w w'
    /\ (forall i, (i < k)%nat ->
          exists reason,
            opener_open env (requests_sent w + i) req = URLFailure reason).
Proof.
  intros Hpos.
  destruct (Z.to_nat retries) as [|n] eqn:HR; [lia|].
  assert (Hretries : retries = Z.of_nat (S n)) by lia.
  destruct (request_attempts_anatomy env req (S n) n 0%nat None w eq_refl)
    as (k & r & w' & Hk & Hrun & Htrace & Hsent & Hclock & Hout & Hjar
        & Hsame & Hbefore).
  exists k, r, w'.
  rewrite Hretries, range_of_nat. split; [exact Hrun|].
  split; [lia|]. rewrite <- retried_events_seq.
  split; [exact Htrace|]. split; [exact Hsent|].
  split; [rewrite Hclock; cbn; lia|].
  split; [|auto].
  replace (Z.of_nat k =? Z.of_nat (S n) - 1)%Z with (k =? n)%nat; [exact Hout|].
  destruct (Nat.eqb_spec k n) as [->|Hne]; symmetry;
    [apply Z.eqb_eq|apply Z.eqb_neq]; lia.
Qed.

(** [_request] is that loop on the request it builds. *)
Lemma request_anatomy env method url params data headers retries w :
  (1 <= retries)%Z ->
  let req := build_request env method url params data headers in
  exists k r w',
    _request env method url params data headers retries w = (r, w')
    /\ (Z.of_nat k < retries)%Z
    /\ trace w' = trace w ++ retried_events req k ++ [Opened req]
    /\ requests_sent w' = (requests_sent w + k + 1)%nat
    /\ clock w' = (clock w + 2 ^ Z.of_nat k - 1)%Z
    /\ final_outcome env retries (Z.of_nat k =? retries - 1)%Z
         (opener_open env (requests_sent w + k) req) r
    /\ cookie_jar w'
       = store_cookies
           (reply_cookies (opener_open env (requests_sent w + k) req))
           (cookie_jar w)
    /\ same_session w w'
    /\ (forall i, (i < k)%nat ->
          exists reason,
            opener_open env (requests_sent w + i) req = URLFailure reason).
Proof. intros Hpos req. now apply request_loop_anatomy. Qed.





(** ** The headers of a request *)

Lemma str_get_set {V} k0 (v : V) d k :
  PyDict.get String.eqb k (PyDict.set String.eqb k0 v d)
  = if String.eqb k0 k then Some v else PyDict.get String.eqb k d.
Proof.
  induction d as [|[k' v'] d IH]; cbn [PyDict.set PyDict.get].
  - reflexivity.
  - destruct (String.eqb_spec k' k0) as [->|Hne]; cbn [PyDict.get].
    + now destruct (String.eqb k0 k).
    + rewrite IH. destruct (String.eqb_spec k' k) as [->|Hne'].
      * destruct (String.eqb_spec k0 k) as [->|]; [now elim Hne|reflexivity].
      * reflexivity.
Qed.

Lemma str_get_none {V} k (d : StrDict V) :
  ~ In k (PyDict.keys d) -> PyDict.get String.eqb k d = None.
Proof.
  intros H. apply get_absent. intros k' Hin.
  apply String.eqb_neq. intros ->. now apply H.
Qed.

(** [d.update(other)], looked up: the entry of [other] when it has one,
    that of [d] otherwise. *)
Lemma str_get_update {V} (other d : StrDict V) k :
  NoDup (PyDict.keys other) ->
  PyDict.get String.eqb k (PyDict.update String.eqb other d)
  = match PyDict.get String.eqb k other with
    | Some v => Some v
    | None => PyDict.get String.eqb k d
    end.
Proof.
  unfold PyDict.update. revert d.
  induction other as [|[k0 v0] other IH]; intros d Hdistinct; [reflexivity|].
  cbn [fold_left fst snd PyDict.get].
  inversion Hdistinct as [|? ? Hnotin Hrest]; subst.
  rewrite (IH _ Hrest), str_get_set.
  destruct (String.eqb_spec k0 k) as [->|Hne]; [|reflexivity].
  now rewrite (str_get_none _ _ Hnotin).
Qed.

Lemma str_get_setdefault {V} k0 (v : V) d k :
  PyDict.get String.eqb k (PyDict.setdefault String.eqb k0 v d)
  = match PyDict.get String.eqb k d with
    | Some x => Some x
    | None => if String.eqb k0 k then Some v else None
    end.
Proof.
  unfold PyDict.setdefault, PyDict.mem.
  destruct (PyDict.get String.eqb k0 d) as [x|] eqn:E.
  - destruct (PyDict.get String.eqb k d) eqn:E'; [reflexivity|].
    destruct (String.eqb_spec k0 k) as [->|]; [congruence|reflexivity].
  - rewrite str_get_set.
    destruct (String.eqb_spec k0 k) as [->|]; [now rewrite E|].
    now destruct (PyDict.get String.eqb k d).
Qed.

(** X3.  The headers of the request [_request] builds, looked up by
    name: the caller's header when the caller gave one of that name;
    failing that the default header of the client; failing that, for
    [Content-Type] and a request with form data, the form encoding; and
    no header otherwise. *)
Theorem request_headers_precedence env method url params data headers name :
  let given := match headers with Some hs => hs | None => [] end in
  NoDup (PyDict.keys given) ->
  PyDict.get String.eqb name
    (req_headers (build_request env method url params data headers))
  = match PyDict.get String.eqb name given with
    | Some v => Some v
    | None =>
        match PyDict.get String.eqb name default_headers with
        | Some v => Some v
        | None =>
            match data with
            | Some _ =>
                if String.eqb "Content-Type" name
                then Some "application/x-www-form-urlencoded" else None
            | None => None
            end
        end
    end.
Proof.
  intros given Hdistinct. unfold build_request.
  destruct headers as [[|h hs]|], data as [d|]; cbn [req_headers];
    rewrite ?str_get_setdefault, ?str_get_update by exact Hdistinct;
    subst given;
    change (PyDict.get String.eqb name (@nil (string * string)))
      with (@None string);
    cbv beta iota;
    try reflexivity;
    try (destruct (PyDict.get String.eqb name (h :: hs)); [reflexivity|]);
    destruct (PyDict.get String.eqb name default_headers); reflexivity.
Qed.

(** The signage request asks for HTML and keeps the agent of the
    client. *)
Lemma request_headers_precedence_witness :
  PyDict.get String.eqb "Accept" (req_headers (signage_request live_session))
  = Some "text/html"
  /\ PyDict.get String.eqb "User-Agent"
       (req_headers (signage_request live_session))
     = Some USER_AGENT.
Proof.
  unfold signage_request. split.
  - rewrite request_headers_precedence; [reflexivity|].
    repeat constructor. intros [].
  - rewrite request_headers_precedence; [reflexivity|].
    repeat constructor. intros [].
Defined.

(** ** The login-form parser *)

Lemma lower_char_idem c :
  PyStr.lower_char (PyStr.lower_char c) = PyStr.lower_char c.
Proof. destruct c as [[] [] [] [] [] [] [] []]; reflexivity. Qed.

Lemma lower_idem s : PyStr.lower (PyStr.lower s) = PyStr.lower s.
Proof.
  induction s as [|c s IH]; [reflexivity|].
  cbn [PyStr.lower]. now rewrite lower_char_idem, IH.
Qed.

Lemma length_update_at i f fs :
  length (LoginFormParser.update_at i f fs) = length fs.
Proof.
  revert i. induction fs as [|x fs IH]; intros [|i]; cbn; auto.
Qed.

Lemma firstn_update_at n i f fs :
  (n <= i)%nat ->
  firstn n (LoginFormParser.update_at i f fs) = firstn n fs.
Proof.
  revert n i. induction fs as [|x fs IH]; intros [|n] [|i] H; cbn;
    try reflexivity; try lia.
  f_equal. apply IH. lia.
Qed.

Lemma Forall_update_at (Q : Form -> Prop) i f fs :
  (forall x, Q x -> Q (f x)) ->
  Forall Q fs -> Forall Q (LoginFormParser.update_at i f fs).
Proof.
  intros Hf. revert i. induction fs as [|x fs IH]; intros [|i] H; cbn;
    inversion H; subst; constructor; auto.
Qed.

Lemma input_type_cases {A} (type : option string) (a b : A) :
  match type with
  | Some "submit" | Some "button" => a
  | _ => b
  end = a
  \/ match type with
     | Some "submit" | Some "button" => a
     | _ => b
     end = b.
Proof.
  destruct type as [s|]; [|now right].
  repeat (try (now right); try (now left);
          destruct s as [|[[] [] [] [] [] [] [] []] s]).
Qed.

(** What a start tag does to the parser. *)
Lemma handle_starttag_cases self tag attrs :
  let p := LoginFormParser.handle_starttag self tag attrs in
  let attr_dict := LoginFormParser.attr_dict_of attrs in
  match csrf_meta_content (StartTag tag attrs) with
  | Some content =>
      p = {| LoginFormParser.forms := LoginFormParser.forms self;
             LoginFormParser._current_form :=
               LoginFormParser._current_form self;
             LoginFormParser.csrf_token := content |}
  | None =>
      if String.eqb tag "form"
      then
        p = {| LoginFormParser.forms :=
                 LoginFormParser.forms self
                 ++ [{| form_method :=
                          PyStr.lower
                            (PyDict.get_default String.eqb "method" "get"
                               attr_dict);
                        form_action :=
                          PyDict.get String.eqb "action" attr_dict;
                        form_fields := [] |}];
               LoginFormParser._current_form :=
                 Some (length (LoginFormParser.forms self));
               LoginFormParser.csrf_token := LoginFormParser.csrf_token self |}
      else
        p = self
        \/ exists current name value,
             LoginFormParser._current_form self = Some current
             /\ name <> ""
             /\ p = {| LoginFormParser.forms :=
                         LoginFormParser.update_at current
                           (with_field name value)
                           (LoginFormParser.forms self);
                       LoginFormParser._current_form :=
                         LoginFormParser._current_form self;
                       LoginFormParser.csrf_token :=
                         LoginFormParser.csrf_token self |}
  end.
Proof.
  cbv zeta. unfold LoginFormParser.handle_starttag, csrf_meta_content.
  destruct (String.eqb tag "meta") eqn:Hmeta; cbn [andb].
  - destruct (PyDict.get String.eqb "name" (LoginFormParser.attr_dict_of attrs))
      as [n|] eqn:Hname.
    + destruct (String.eqb n "csrf-token"); [reflexivity|].
      apply String.eqb_eq in Hmeta as ->. cbn [String.eqb Ascii.eqb Bool.eqb].
      cbv iota. now left.
    + apply String.eqb_eq in Hmeta as ->. now left.
  - destruct (String.eqb tag "form"); [reflexivity|].
    destruct (String.eqb tag "input"); [|now left].
    destruct (LoginFormParser._current_form self) as [current|]; [|now left].
    destruct (PyDict.get String.eqb "name" (LoginFormParser.attr_dict_of attrs))
      as [name|]; [|now left].
    destruct name as [|c name]; [now left|]. cbn [PyStr.nonempty negb].
    match goal with
    | |- match ?ty with _ => _ end = _ \/ _ =>
        destruct (input_type_cases ty self
          {| LoginFormParser.forms :=
               LoginFormParser.update_at current
                 (with_field (String c name)
                    (PyDict.get_default String.eqb "value" ""
                       (LoginFormParser.attr_dict_of attrs)))
                 (LoginFormParser.forms self);
             LoginFormParser._current_form := Some current;
             LoginFormParser.csrf_token := LoginFormParser.csrf_token self |})
          as [E|E]
    end.
    + left. exact E.
    + right. exists current, (String c name). eexists.
      split; [reflexivity|]. split; [discriminate|]. exact E.
Qed.

Lemma csrf_meta_is_meta tag attrs content :
  csrf_meta_content (StartTag tag attrs) = Some content -> tag = "meta".
Proof.
  unfold csrf_meta_content.
  destruct (String.eqb_spec tag "meta"); [auto|discriminate].
Qed.

Lemma with_field_recorded name value form :
  name <> "" -> form_recorded form -> form_recorded (with_field name value form).
Proof.
  intros Hname [Hmethod Hfields]. split; [exact Hmethod|].
  unfold with_field, PyDict.keys. cbn [form_fields]. rewrite set_keys.
  destruct (PyDict.mem String.eqb name (form_fields form)); [exact Hfields|].
  apply Forall_app. split; [exact Hfields|]. now repeat constructor.
Qed.

(** One event: the open form stays the last one, the forms stay as the
    parser records them, and a form is added by a form start tag and by
    nothing else. *)
Lemma handle_keeps p ev :
  current_is_last p ->
  Forall form_recorded (LoginFormParser.forms p) ->
  let p' := LoginFormParser.handle p ev in
  current_is_last p'
  /\ Forall form_recorded (LoginFormParser.forms p')
  /\ length (LoginFormParser.forms p')
     = (length (LoginFormParser.forms p)
        + if opens_form ev then 1 else 0)%nat
  /\ (settled p <= settled p')%nat
  /\ firstn (settled p) (LoginFormParser.forms p')
     = firstn (settled p) (LoginFormParser.forms p).
Proof.
  intros Hlast Hforms p'. subst p'.
  assert (Hsettled : (settled p <= length (LoginFormParser.forms p))%nat).
  { unfold settled, current_is_last in *.
    destruct (LoginFormParser._current_form p); lia. }
  remember (settled p) as n eqn:Hn.
  destruct ev as [tag attrs|tag]; cbn [LoginFormParser.handle opens_form].
  - pose proof (handle_starttag_cases p tag attrs) as Hcases.
    cbv zeta in Hcases.
    destruct (csrf_meta_content (StartTag tag attrs)) as [content|] eqn:Hmeta.
    + apply csrf_meta_is_meta in Hmeta as ->. rewrite Hcases.
      cbn. rewrite Nat.add_0_r. repeat split; auto.
      unfold settled in *. cbn. lia.
    + destruct (String.eqb tag "form").
      * rewrite Hcases. unfold current_is_last, settled.
        cbn [LoginFormParser.forms LoginFormParser._current_form].
        rewrite length_app. cbn [length].
        split; [lia|]. split.
        { apply Forall_app. split; [exact Hforms|].
          repeat constructor. cbn. apply lower_idem. }
        split; [reflexivity|]. split; [exact Hsettled|].
        rewrite firstn_app.
        replace (n - length (LoginFormParser.forms p))%nat with 0%nat by lia.
        cbn [firstn]. apply app_nil_r.
      * rewrite Nat.add_0_r.
        destruct Hcases as [->|(current & name & value & Hcur & Hname & ->)];
          [repeat split; auto; lia|].
        unfold current_is_last, settled in *.
        cbn [LoginFormParser.forms LoginFormParser._current_form].
        rewrite Hcur in *. rewrite length_update_at.
        split; [exact Hlast|]. split.
        { apply Forall_update_at; [|exact Hforms].
          intros x. now apply with_field_recorded. }
        split; [reflexivity|]. split; [lia|].
        apply firstn_update_at. lia.
  - unfold LoginFormParser.handle_endtag. rewrite Nat.add_0_r.
    destruct (String.eqb tag "form"); [|repeat split; auto; lia].
    unfold current_is_last, settled in *.
    destruct (LoginFormParser._current_form p) as [current|] eqn:Hcur;
      cbn [LoginFormParser.forms LoginFormParser._current_form];
      rewrite ?Hcur; repeat split; auto; lia.
Qed.

Lemma feed_keeps events : forall p,
  current_is_last p ->
  Forall form_recorded (LoginFormParser.forms p) ->
  let p' := LoginFormParser.feed p events in
  current_is_last p'
  /\ Forall form_recorded (LoginFormParser.forms p')
  /\ length (LoginFormParser.forms p')
     = (length (LoginFormParser.forms p)
        + length (filter opens_form events))%nat
  /\ (settled p <= settled p')%nat
  /\ firstn (settled p) (LoginFormParser.forms p')
     = firstn (settled p) (LoginFormParser.forms p).
Proof.
  unfold LoginFormParser.feed.
  induction events as [|ev events IH]; intros p Hlast Hforms;
    cbn [fold_left filter].
  - repeat split; auto.
  - destruct (handle_keeps p ev Hlast Hforms)
      as (Hlast1 & Hforms1 & Hlen1 & Hle1 & Hfirst1).
    destruct (IH _ Hlast1 Hforms1) as (Hlast2 & Hforms2 & Hlen2 & Hle2 & Hfirst2).
    split; [exact Hlast2|]. split; [exact Hforms2|]. split.
    { rewrite Hlen2, Hlen1. destruct (opens_form ev); cbn [length]; lia. }
    split; [lia|].
    rewrite <- Hfirst1.
    rewrite <- (Nat.min_l _ _ Hle1), <- !firstn_firstn.
    now rewrite Hfirst2.
Qed.

(** X4.  The parser after any run of events, from its initial state:
    the open form, if there is one, is the last form of the list; there
    is one form for every form start tag; every method is in lower case
    (so lowering it again, as the locator does, changes nothing); and no
    field has an empty name. *)
Theorem parser_records_forms events :
  let p := LoginFormParser.feed LoginFormParser.init events in
  current_is_last p
  /\ length (LoginFormParser.forms p) = length (filter opens_form events)
  /\ Forall form_recorded (LoginFormParser.forms p).
Proof.
  destruct (feed_keeps events LoginFormParser.init I (Forall_nil _))
    as (Hlast & Hforms & Hlen & _).
  cbv zeta. auto.
Qed.

(** X5.  What the parser has behind it stays as it is: the forms before
    the open one (all the forms, when none is open) are the same, fields
    included, after any further events.  An input can only add a field
    to the form opened last, and only while it is open. *)
Theorem settled_forms_unchanged events more :
  let p := LoginFormParser.feed LoginFormParser.init events in
  let p' := LoginFormParser.feed p more in
  (settled p <= settled p')%nat
  /\ firstn (settled p) (LoginFormParser.forms p')
     = firstn (settled p) (LoginFormParser.forms p)
  /\ (LoginFormParser._current_form p = None ->
      exists added,
        LoginFormParser.forms p' = LoginFormParser.forms p ++ added).
Proof.
  intros p p'.
  destruct (feed_keeps events LoginFormParser.init I (Forall_nil _))
    as (Hlast & Hforms & _).
  fold p in Hlast, Hforms.
  destruct (feed_keeps more p Hlast Hforms) as (_ & _ & _ & Hle & Hfirst).
  fold p' in Hle, Hfirst.
  split; [exact Hle|]. split; [exact Hfirst|].
  intros Hclosed. unfold settled in Hfirst at 1 2. rewrite Hclosed in Hfirst.
  rewrite firstn_all in Hfirst.
  exists (skipn (length (LoginFormParser.forms p)) (LoginFormParser.forms p')).
  now rewrite <- Hfirst at 1; rewrite firstn_skipn.
Qed.

(** The search form is closed when the login form comes: it keeps its
    one field. *)
Lemma settled_forms_unchanged_witness :
  let p := LoginFormParser.feed LoginFormParser.init search_form in
  map form_fields
    (firstn 1
       (LoginFormParser.forms (LoginFormParser.feed p sign_in_form)))
  = [[("q", "")]].
Proof.
  intros p.
  destruct (settled_forms_unchanged search_form sign_in_form)
    as (_ & Hfirst & _).
  change (settled (LoginFormParser.feed LoginFormParser.init search_form))
    with 1%nat in Hfirst.
  fold p in Hfirst. rewrite Hfirst. reflexivity.
Defined.

Lemma handle_token p ev :
  LoginFormParser.csrf_token (LoginFormParser.handle p ev)
  = match csrf_meta_content ev with
    | Some content => content
    | None => LoginFormParser.csrf_token p
    end.
Proof.
  destruct ev as [tag attrs|tag]; cbn [LoginFormParser.handle].
  - pose proof (handle_starttag_cases p tag attrs) as Hcases.
    cbv zeta in Hcases.
    destruct (csrf_meta_content (StartTag tag attrs)) as [content|].
    + now rewrite Hcases.
    + destruct (String.eqb tag "form"); [now rewrite Hcases|].
      destruct Hcases as [->|(current & name & value & _ & _ & ->)];
        reflexivity.
  - unfold LoginFormParser.handle_endtag, csrf_meta_content.
    destruct (String.eqb tag "form"); [|reflexivity].
    now destruct (LoginFormParser._current_form p).
Qed.

Lemma feed_without_meta events : forall p,
  Forall (fun ev => csrf_meta_content ev = None) events ->
  LoginFormParser.csrf_token (LoginFormParser.feed p events)
  = LoginFormParser.csrf_token p.
Proof.
  unfold LoginFormParser.feed.
  induction events as [|ev events IH]; intros p Hnone; [reflexivity|].
  inversion Hnone as [|? ? Hev Hrest]; subst. cbn [fold_left].
  now rewrite (IH _ Hrest), handle_token, Hev.
Qed.

(** X6.  The token the parser holds after a run of events is the
    content of the last meta element named csrf-token among them,
    whatever came before it; a last such element without a content
    attribute leaves the parser with no token, even if an earlier one
    gave it one.  Events with no such element leave the token as it
    was. *)
Theorem parser_token_is_last_meta p before ev after content :
  csrf_meta_content ev = Some content ->
  Forall (fun ev' => csrf_meta_content ev' = None) after ->
  LoginFormParser.csrf_token
    (LoginFormParser.feed p (before ++ ev :: after))
  = content
  /\ LoginFormParser.csrf_token (LoginFormParser.feed p after)
     = LoginFormParser.csrf_token p.
Proof.
  intros Hev Hafter. split; [|now apply feed_without_meta].
  unfold LoginFormParser.feed. rewrite fold_left_app. cbn [fold_left].
  fold (LoginFormParser.feed
          (LoginFormParser.handle (fold_left LoginFormParser.handle before p)
             ev) after).
  now rewrite (feed_without_meta _ _ Hafter), handle_token, Hev.
Qed.

(** A page whose first meta element gives a token and whose second has
    no content: the parser ends with no token. *)
Lemma parser_token_is_last_meta_witness :
  LoginFormParser.csrf_token
    (LoginFormParser.feed LoginFormParser.init
       ([StartTag "meta" [("name", Some "csrf-token"); ("content", Some "t1")]]
        ++ StartTag "meta" [("name", Some "csrf-token")]
        :: [StartTag "form" [("method", Some "post")]; EndTag "form"]))
  = None.
Proof.
  apply (parser_token_is_last_meta LoginFormParser.init
           [StartTag "meta" [("name", Some "csrf-token");
                             ("content", Some "t1")]]
           (StartTag "meta" [("name", Some "csrf-token")])
           [StartTag "form" [("method", Some "post")]; EndTag "form"] None).
  - reflexivity.
  - repeat constructor.
Defined.

(** ** The login payload *)

Lemma find_ext {A} (f g : A -> bool) l :
  (forall x, f x = g x) -> find f l = find g l.
Proof.
  intros H. induction l as [|x l IH]; [reflexivity|].
  cbn [find]. now rewrite H, IH.
Qed.

Lemma find_app_absent {A} (f : A -> bool) l x :
  f x = false ->
  find f (l ++ [x]) = find f l.
Proof.
  intros H. induction l as [|y l IH]; cbn [app find].
  - now rewrite H.
  - now rewrite IH.
Qed.

Lemma find_existsb {A} (f : A -> bool) l :
  existsb f l = match find f l with Some _ => true | None => false end.
Proof.
  induction l as [|x l IH]; [reflexivity|].
  cbn [existsb find]. now destruct (f x).
Qed.

Lemma str_in_mem {V} k (d : StrDict V) :
  In k (PyDict.keys d) -> PyDict.mem String.eqb k d = true.
Proof. apply in_mem, exact_domain. Qed.

(** The two entries [_field] may add: one for a form with no field for
    the e-mail address, one for a form with no field for the password. *)
Lemma find_absent_key {V} (f : string -> bool) (d : StrDict V) k :
  find f (PyDict.keys d) = None -> f k = true ->
  PyDict.get String.eqb k d = None.
Proof.
  intros Hfind Hk. apply str_get_none. intros Hin.
  pose proof (find_none _ _ Hfind _ Hin). congruence.
Qed.

Lemma field_login fields :
  _field ["email"; "login"] "user[email]" fields
  = (email_field fields,
     fields ++ if has_login_field fields then [] else [("user[email]", "")]).
Proof.
  unfold _field, email_field, has_login_field.
  rewrite (find_ext _ names_login)
    by (intros x; unfold names_login; cbn [existsb]; now rewrite orb_false_r).
  fold names_login. rewrite (find_existsb names_login).
  destruct (find names_login (PyDict.keys fields)) as [name|] eqn:Hfind.
  - now rewrite app_nil_r.
  - rewrite set_absent; [reflexivity|].
    now apply (find_absent_key names_login).
Qed.

Lemma field_password fields extra :
  Forall (fun kv => names_password (fst kv) = false) extra ->
  _field ["password"] "user[password]" (fields ++ extra)
  = (password_field fields,
     (fields ++ extra)
     ++ if existsb names_password (PyDict.keys fields) then []
        else [("user[password]", "")]).
Proof.
  intros Hextra. unfold _field, password_field.
  rewrite (find_ext _ names_password)
    by (intros x; unfold names_password; cbn [existsb];
        now rewrite orb_false_r).
  assert (Hkeys : find names_password (PyDict.keys (fields ++ extra))
                  = find names_password (PyDict.keys fields)).
  { unfold PyDict.keys. rewrite map_app.
    induction (map fst fields) as [|x l IH]; cbn [app find].
    - induction Hextra as [|kv extra Hkv _ IH]; [reflexivity|].
      cbn [map find]. now rewrite Hkv.
    - now rewrite IH. }
  rewrite (find_existsb names_password), <- Hkeys.
  destruct (find names_password (PyDict.keys (fields ++ extra)))
    as [name|] eqn:Hfind.
  - now rewrite app_nil_r.
  - rewrite set_absent; [reflexivity|].
    now apply (find_absent_key names_password).
Qed.

Lemma names_login_email_field fields : names_login (email_field fields) = true.
Proof.
  unfold email_field.
  destruct (find names_login (PyDict.keys fields)) as [name|] eqn:Hfind;
    [|reflexivity].
  now apply find_some in Hfind.
Qed.

Lemma names_password_password_field fields :
  names_password (password_field fields) = true.
Proof.
  unfold password_field.
  destruct (find names_password (PyDict.keys fields)) as [name|] eqn:Hfind;
    [|reflexivity].
  now apply find_some in Hfind.
Qed.


Lemma build_login_payload_steps env fields :
  _build_login_payload env fields
  = let payload := payload_with_credentials env fields in
    match find names_remember (PyDict.keys payload) with
    | Some k =>
        if PyStr.nonempty k
        then
          let current := PyDict.get_default String.eqb k "" payload in
          PyDict.set String.eqb k
            (if PyStr.nonempty current then current else "1") payload
        else payload
    | None => payload
    end.
Proof.
  unfold _build_login_payload. rewrite field_login.
  rewrite field_password
    by (destruct (has_login_field fields); repeat constructor).
  reflexivity.
Qed.

Lemma keys_app {V} (d1 d2 : StrDict V) :
  PyDict.keys (d1 ++ d2) = PyDict.keys d1 ++ PyDict.keys d2.
Proof. apply map_app. Qed.

Lemma keys_payload_base fields :
  PyDict.keys (payload_base fields)
  = PyDict.keys fields
    ++ (if has_login_field fields then [] else ["user[email]"])
    ++ (if existsb names_password (PyDict.keys fields) then []
        else ["user[password]"]).
Proof.
  unfold payload_base. rewrite !keys_app, <- app_assoc.
  now destruct (has_login_field fields),
    (existsb names_password (PyDict.keys fields)).
Qed.

Lemma email_field_in_base fields :
  In (email_field fields) (PyDict.keys (payload_base fields)).
Proof.
  rewrite keys_payload_base. unfold email_field, has_login_field.
  fold names_login. rewrite (find_existsb names_login).
  destruct (find names_login (PyDict.keys fields)) as [name|] eqn:Hfind.
  - apply in_or_app. left. now apply find_some in Hfind.
  - apply in_or_app. right. now left.
Qed.

Lemma password_field_in_base fields :
  In (password_field fields) (PyDict.keys (payload_base fields)).
Proof.
  rewrite keys_payload_base. unfold password_field.
  rewrite (find_existsb names_password).
  destruct (find names_password (PyDict.keys fields)) as [name|] eqn:Hfind.
  - apply in_or_app. left. now apply find_some in Hfind.
  - apply in_or_app. right. apply in_or_app. right. now left.
Qed.

Lemma str_set_keys_present {V} k (v : V) d :
  In k (PyDict.keys d) ->
  PyDict.keys (PyDict.set String.eqb k v d) = PyDict.keys d.
Proof.
  intros Hin. unfold PyDict.keys. rewrite set_keys.
  now rewrite (str_in_mem _ _ Hin).
Qed.

Lemma keys_with_credentials env fields :
  PyDict.keys (payload_with_credentials env fields)
  = PyDict.keys (payload_base fields).
Proof.
  unfold payload_with_credentials.
  rewrite str_set_keys_present; rewrite str_set_keys_present;
    auto using email_field_in_base, password_field_in_base.
Qed.

Lemma find_remember_base fields :
  find names_remember (PyDict.keys (payload_base fields))
  = find names_remember (PyDict.keys fields).
Proof.
  rewrite keys_payload_base.
  destruct (has_login_field fields),
    (existsb names_password (PyDict.keys fields));
    cbn [app]; rewrite ?app_nil_r; try reflexivity;
    rewrite ?(find_app_absent names_remember _ "user[password]") by reflexivity;
    rewrite ?(find_app_absent names_remember _ "user[email]") by reflexivity;
    try reflexivity.
  change (PyDict.keys fields ++ ["user[email]"; "user[password]"])
    with (PyDict.keys fields ++ ["user[email]"] ++ ["user[password]"]).
  rewrite app_assoc.
  rewrite (find_app_absent names_remember _ "user[password]") by reflexivity.
  now rewrite (find_app_absent names_remember _ "user[email]") by reflexivity.
Qed.

Lemma keys_login_payload env fields :
  PyDict.keys (_build_login_payload env fields)
  = PyDict.keys (payload_base fields).
Proof.
  rewrite build_login_payload_steps. cbv zeta.
  destruct (find names_remember
              (PyDict.keys (payload_with_credentials env fields)))
    as [k|] eqn:Hfind; [|apply keys_with_credentials].
  destruct (PyStr.nonempty k); [|apply keys_with_credentials].
  rewrite str_set_keys_present; [apply keys_with_credentials|].
  now apply find_some in Hfind.
Qed.

Lemma get_base_field fields name v :
  PyDict.get String.eqb name fields = Some v ->
  PyDict.get String.eqb name (payload_base fields) = Some v.
Proof.
  intros H. unfold payload_base. now rewrite !get_app, H.
Qed.

(** X7.  The login payload keeps the form: its keys are the fields of
    the form in their order, followed by an entry for the e-mail address
    when no field name contains email or login and by an entry for the
    password when none contains password; and a field whose name
    contains none of email, login, password and remember is sent with
    the value the form gave it. *)
Theorem login_payload_keeps_form env fields :
  let payload := _build_login_payload env fields in
  PyDict.keys payload
  = PyDict.keys fields
    ++ (if has_login_field fields then [] else ["user[email]"])
    ++ (if existsb names_password (PyDict.keys fields) then []
        else ["user[password]"])
  /\ forall name v,
       PyDict.get String.eqb name fields = Some v ->
       names_login name = false ->
       names_password name = false ->
       names_remember name = false ->
       PyDict.get String.eqb name payload = Some v.
Proof.
  cbv zeta. split; [now rewrite keys_login_payload, keys_payload_base|].
  intros name v Hget Hlogin Hpassword Hremember.
  assert (Hcred : PyDict.get String.eqb name
                    (payload_with_credentials env fields) = Some v).
  { unfold payload_with_credentials. rewrite !str_get_set.
    destruct (String.eqb_spec (password_field fields) name) as [E|_].
    { pose proof (names_password_password_field fields). congruence. }
    destruct (String.eqb_spec (email_field fields) name) as [E|_].
    { pose proof (names_login_email_field fields). congruence. }
    now apply get_base_field. }
  rewrite build_login_payload_steps. cbv zeta.
  destruct (find names_remember
              (PyDict.keys (payload_with_credentials env fields)))
    as [k|] eqn:Hfind; [|exact Hcred].
  destruct (PyStr.nonempty k); [|exact Hcred].
  rewrite str_get_set.
  destruct (String.eqb_spec k name) as [->|_]; [|exact Hcred].
  apply find_some in Hfind as [_ Hk]. congruence.
Qed.

Lemma get_with_credentials env fields name :
  PyDict.get String.eqb name (payload_with_credentials env fields)
  = if String.eqb (password_field fields) name
    then Some (password (config env))
    else if String.eqb (email_field fields) name
         then Some (email (config env))
         else PyDict.get String.eqb name (payload_base fields).
Proof. unfold payload_with_credentials. now rewrite !str_get_set. Qed.

(** The payload, looked up: the value written for the remember-me
    field under that name, the payload with the credentials under every
    other name. *)
Lemma get_login_payload env fields name :
  PyDict.get String.eqb name (_build_login_payload env fields)
  = let payload := payload_with_credentials env fields in
    match find names_remember (PyDict.keys fields) with
    | Some k =>
        if String.eqb k name
        then
          let current := PyDict.get_default String.eqb k "" payload in
          Some (if PyStr.nonempty current then current else "1")
        else PyDict.get String.eqb name payload
    | None => PyDict.get String.eqb name payload
    end.
Proof.
  rewrite build_login_payload_steps. cbv zeta.
  rewrite keys_with_credentials, find_remember_base.
  destruct (find names_remember (PyDict.keys fields)) as [k|] eqn:Hfind;
    [|reflexivity].
  assert (Hk : PyStr.nonempty k = true).
  { apply find_some in Hfind as [_ Hk]. now destruct k. }
  rewrite Hk. apply str_get_set.
Qed.

(** X8.  The credentials in the login payload.  The password is sent
    under the first field whose name contains password (under the
    portal's own name when there is none), and the e-mail address under
    the first field whose name contains email or login, provided that is
    another field: a form whose first such field also has password in
    its name gets the password there, the e-mail address being
    overwritten. *)
Theorem login_payload_credentials env fields :
  let payload := _build_login_payload env fields in
  (password (config env) <> "" ->
   PyDict.get String.eqb (password_field fields) payload
   = Some (password (config env)))
  /\ (email (config env) <> "" ->
      email_field fields <> password_field fields ->
      PyDict.get String.eqb (email_field fields) payload
      = Some (email (config env)))
  /\ (password (config env) <> "" ->
      email_field fields = password_field fields ->
      PyDict.get String.eqb (email_field fields) payload
      = Some (password (config env))).
Proof.
  cbv zeta.
  assert (Hpw : password (config env) <> "" ->
                PyDict.get String.eqb (password_field fields)
                  (_build_login_payload env fields)
                = Some (password (config env))).
  { intros Hne. rewrite get_login_payload. cbv zeta.
    rewrite get_with_credentials, String.eqb_refl.
    destruct (find names_remember (PyDict.keys fields)) as [k|];
      [|reflexivity].
    destruct (String.eqb_spec k (password_field fields)) as [->|_];
      [|reflexivity].
    unfold PyDict.get_default.
    rewrite get_with_credentials, String.eqb_refl.
    destruct (password (config env)); [now elim Hne|reflexivity]. }
  split; [exact Hpw|]. split.
  - intros Hne Hdiff. rewrite get_login_payload. cbv zeta.
    assert (Hcred : PyDict.get String.eqb (email_field fields)
                      (payload_with_credentials env fields)
                    = Some (email (config env))).
    { rewrite get_with_credentials, String.eqb_refl.
      destruct (String.eqb_spec (password_field fields) (email_field fields));
        [congruence|reflexivity]. }
    destruct (find names_remember (PyDict.keys fields)) as [k|];
      [|exact Hcred].
    destruct (String.eqb_spec k (email_field fields)) as [->|_];
      [|exact Hcred].
    unfold PyDict.get_default. rewrite Hcred.
    destruct (email (config env)); [now elim Hne|reflexivity].
  - intros Hne ->. now apply Hpw.
Qed.

(** A form whose only field is named login_password: the password is
    sent under it. *)
Lemma login_payload_credentials_witness :
  email_field [("login_password", "")] = password_field [("login_password", "")]
  /\ PyDict.get String.eqb "login_password"
       (_build_login_payload live_session [("login_password", "")])
     = Some "secret".
Proof.
  split; [reflexivity|].
  destruct (login_payload_credentials live_session [("login_password", "")])
    as (_ & _ & Hsame).
  apply Hsame; [discriminate|reflexivity].
Defined.

(** X9.  The remember-me field of the login payload, the first field
    of the form whose name contains remember: it is never sent empty,
    and when it is not one of the two credential fields it is sent with
    the value the form gave it, or with 1 when the form gave it none. *)
Theorem login_payload_remember env fields r :
  find names_remember (PyDict.keys fields) = Some r ->
  let payload := _build_login_payload env fields in
  (exists v, PyDict.get String.eqb r payload = Some v /\ v <> "")
  /\ (r <> email_field fields -> r <> password_field fields ->
      forall v0,
        PyDict.get String.eqb r fields = Some v0 ->
        PyDict.get String.eqb r payload
        = Some (if PyStr.nonempty v0 then v0 else "1")).
Proof.
  intros Hfind. cbv zeta. rewrite get_login_payload, Hfind. cbv zeta.
  rewrite String.eqb_refl. split.
  - eexists. split; [reflexivity|].
    destruct (PyDict.get_default String.eqb r ""
                (payload_with_credentials env fields)); discriminate.
  - intros He Hp v0 Hget. unfold PyDict.get_default.
    rewrite get_with_credentials.
    destruct (String.eqb_spec (password_field fields) r); [congruence|].
    destruct (String.eqb_spec (email_field fields) r); [congruence|].
    now rewrite (get_base_field _ _ _ Hget).
Qed.

Lemma login_payload_remember_witness :
  PyDict.get String.eqb "user[remember_me]"
    (_build_login_payload live_session
       [("user[email]", ""); ("user[password]", ""); ("user[remember_me]", "")])
  = Some "1".
Proof.
  destruct (login_payload_remember live_session
              [("user[email]", ""); ("user[password]", "");
               ("user[remember_me]", "")] "user[remember_me]" eq_refl)
    as [_ H].
  apply (H ltac:(discriminate) ltac:(discriminate) "" eq_refl).
Defined.

(** The hidden token of a Rails form is sent as the form gave it. *)
Lemma login_payload_keeps_form_witness :
  PyDict.get String.eqb "authenticity_token"
    (_build_login_payload live_session
       [("authenticity_token", "abc"); ("user[email]", "")])
  = Some "abc".
Proof.
  destruct (login_payload_keeps_form live_session
              [("authenticity_token", "abc"); ("user[email]", "")])
    as [_ H].
  apply H; reflexivity.
Defined.

(** ** The exceptions of the operations *)

Section Raising.

Context {S : Type}.

Lemma raises_ret {A} class (a : A) : raises_only class (@ret S A a).
Proof. intros s e s' H. discriminate. Qed.

Lemma raises_gets {A} class (f : S -> A) : raises_only class (gets f).
Proof. intros s e s' H. discriminate. Qed.

Lemma raises_modify class (f : S -> S) : raises_only class (modify f).
Proof. intros s e s' H. discriminate. Qed.

Lemma raises_raise {A} (class : Exc -> bool) e :
  class e = true -> raises_only class (@raise S A e).
Proof. intros He s e' s' [= <- _]. exact He. Qed.

Lemma raises_bind {A B} class (m : M S A) (k : A -> M S B) :
  raises_only class m -> (forall a, raises_only class (k a)) ->
  raises_only class (bind m k).
Proof.
  intros Hm Hk s e s'. unfold bind.
  destruct (m s) as [[a|e1] s1] eqn:Hrun.
  - apply Hk.
  - intros [= <- <-]. eapply Hm, Hrun.
Qed.


Lemma raises_weaken {A} (class class' : Exc -> bool) (m : M S A) :
  (forall e, class e = true -> class' e = true) ->
  raises_only class m -> raises_only class' m.
Proof. intros Hsub Hm s e s' Hrun. eapply Hsub, Hm, Hrun. Qed.

End Raising.

Lemma raises_open_request class env req :
  raises_only class (open_request env req).
Proof.
  intros w e w'. rewrite open_request_reply. discriminate.
Qed.

Lemma raises_request_attempts env req retries attempts :
  forall last_error,
    raises_only transport_error
      (request_attempts env req retries attempts last_error).
Proof.
  induction attempts as [|attempt rest IH]; intros last_error;
    cbn [request_attempts].
  - now apply raises_raise.
  - apply raises_bind; [apply raises_open_request|].
    intros [[code charset raw|reason]|[raw charset]].
    + now apply raises_raise.
    + destruct (attempt <? retries - 1)%Z.
      * apply raises_bind; [|intros _; apply IH].
        intros w e w'. discriminate.
      * now apply raises_raise.
    + apply raises_ret.
Qed.

Lemma raises_request env method url params data headers retries :
  raises_only transport_error
    (_request env method url params data headers retries).
Proof. apply raises_request_attempts. Qed.

Lemma raises_update_csrf class html :
  raises_only class (_update_csrf_from_html html).
Proof.
  unfold _update_csrf_from_html.
  destruct (PyStr.search_csrf_meta html);
    [apply raises_modify|apply raises_ret].
Qed.

Lemma transport_is_login_failure e :
  transport_error e = true -> login_failure e = true.
Proof. now destruct e. Qed.


Lemma raises_choose_login_form {S} forms :
  raises_only login_failure (@choose_login_form S forms).
Proof.
  unfold choose_login_form.
  destruct (scan_forms forms None) as [form|[form|]];
    [apply raises_ret|apply raises_ret|now apply raises_raise].
Qed.

Lemma raises_download_login_form env :
  raises_only login_failure (_download_login_form env).
Proof.
  unfold _download_login_form. cbv zeta.
  apply raises_bind.
  { eapply raises_weaken;
      [apply transport_is_login_failure|apply raises_request]. }
  intros page. apply raises_bind.
  { destruct (token_set _); [apply raises_modify|apply raises_ret]. }
  intros _. apply raises_bind; [apply raises_choose_login_form|].
  intros form. apply raises_ret.
Qed.

Lemma raises_persist_session env :
  raises_only login_failure (_persist_session env).
Proof.
  unfold _persist_session.
  apply raises_bind; [apply raises_gets|]. intros [|]; [apply raises_ret|].
  apply raises_bind; [apply raises_gets|].
  intros [|]; cbn [negb]; [|now apply raises_raise].
  apply raises_bind; [apply raises_gets|]. intros jar.
  apply raises_bind; [apply raises_gets|]. intros now.
  apply raises_bind; [apply raises_modify|]. intros _.
  apply raises_modify.
Qed.

Lemma raises_login env : raises_only login_failure (login env).
Proof.
  unfold login.
  apply raises_bind; [apply raises_download_login_form|].
  intros [form token]. cbv zeta.
  apply raises_bind.
  { eapply raises_weaken;
      [apply transport_is_login_failure|apply raises_request]. }
  intros page.
  destruct (_ || _); [now apply raises_raise|].
  apply raises_bind; [apply raises_update_csrf|]. intros _.
  apply raises_bind; [apply raises_modify|]. intros _.
  apply raises_persist_session.
Qed.









Lemma bind_raises {S A B} (m : M S A) (k : A -> M S B) s e s' :
  bind m k s = (Raise e, s') ->
  m s = (Raise e, s')
  \/ exists a s1, m s = (Return a, s1) /\ k a s1 = (Raise e, s').
Proof.
  unfold bind. destruct (m s) as [[a|e1] s1]; [eauto|].
  intros [= <- <-]. now left.
Qed.

(** X12.  When [get_status] ends with [KyoceraAuthRequired], the first
    fetch had raised one, the login that followed had returned, and the
    exception is the one the second fetch raised: a session the portal
    still refuses right after a login that worked. *)
Theorem auth_required_after_login env w e w' :
  get_status env w = (Raise e, w') ->
  is_KyoceraAuthRequired e = true ->
  exists e1 w1 w2,
    fetch_realtime env w = (Raise e1, w1)
    /\ is_KyoceraAuthRequired e1 = true
    /\ login env w1 = (Return tt, w2)
    /\ fetch_realtime env w2 = (Raise e, w').
Proof.
  intros Hrun Hauth. unfold get_status, get_status_with, try_except in Hrun.
  destruct (fetch_realtime env w) as [[status|e1] w1] eqn:Hfetch;
    [discriminate|].
  destruct (is_KyoceraAuthRequired e1) eqn:Hauth1.
  2:{ injection Hrun as <- <-. congruence. }
  exists e1, w1.
  apply bind_raises in Hrun as [Hlogin|([] & w2 & Hlogin & Hrun)].
  { apply raises_login in Hlogin. now destruct e. }
  exists w2. split; [reflexivity|]. split; [exact Hauth1|].
  split; [exact Hlogin|].
  apply bind_raises in Hrun as [Hfetch2|(status & w3 & Hfetch2 & Hrun)];
    [exact Hfetch2|].
  apply bind_raises in Hrun as [Hpersist|([] & w4 & _ & Hret)];
    [|discriminate].
  apply raises_persist_session in Hpersist. now destruct e.
Qed.

Lemma auth_required_after_login_witness :
  let env :=
    scripted [ HTTPFailure 401 (Some None) "" [];
               Response login_page None [];
               Response "<html>Welcome</html>" None [session_cookie];
               HTTPFailure 403 (Some None) "" [] ] in
  exists e w' e1 w1 w2,
    get_status env fresh_client = (Raise e, w')
    /\ fetch_realtime env fresh_client = (Raise e1, w1)
    /\ is_KyoceraAuthRequired e1 = true
    /\ login env w1 = (Return tt, w2)
    /\ fetch_realtime env w2 = (Raise e, w').
Proof.
  intros env.
  assert (Hrun : exists e w',
            get_status env fresh_client = (Raise e, w')
            /\ is_KyoceraAuthRequired e = true).
  { eexists. eexists. split; vm_compute; reflexivity. }
  destruct Hrun as (e & w' & Hrun & Hauth).
  destruct (auth_required_after_login env fresh_client e w' Hrun Hauth)
    as (e1 & w1 & w2 & H).
  exists e, w', e1, w1, w2. split; [exact Hrun|exact H].
Defined.


(** ** A forced login and the cache *)

Lemma cache_untouched_if_disabled_frame : Frame cache_untouched_if_disabled.
Proof.
  pose proof cache_untouched_frame as F.
  split; try (intros; intros _; apply F; assumption).
  intros w1 w2 w3 H12 H23 Hdisabled.
  pose proof (H12 Hdisabled) as U12.
  assert (Hdisabled2 : disable_cache w2 = true).
  { destruct U12 as (_ & _ & Hd & _). congruence. }
  eapply (frame_trans _ F); [exact U12|exact (H23 Hdisabled2)].
Qed.

Lemma cache_untouched_if_disabled_persist env :
  preserves cache_untouched_if_disabled (_persist_session env).
Proof.
  intros w Hdisabled. unfold _persist_session, bind, gets.
  rewrite Hdisabled. cbn. repeat split.
Qed.

Lemma forced_operation env op w :
  cache_untouched_if_disabled w (after env op w).
Proof.
  pose proof cache_untouched_if_disabled_frame as F.
  pose proof (cache_untouched_if_disabled_persist env) as P.
  destruct op; cbn [after].
  - now apply preserves_login.
  - now apply preserves_download_login_form.
  - now apply preserves_ensure_signage_ready.
  - now apply preserves_fetch_realtime.
  - now apply preserves_get_status.
  - apply P.
  - now apply preserves_load_session_cache.
  - now apply preserves_main.
Qed.

(** X14.  A client built with the cache disabled (a forced login) has
    an empty jar whatever the cache file holds, and no run of its
    operations reads or writes the cache: the file is as it was, nothing
    was written, and the cache stays disabled. *)
Theorem forced_login_leaves_cache env now file writable ops :
  let built := KyoceraClient_init env true now file writable in
  let w := snd built in
  fst built = Return tt
  /\ cookie_jar w = []
  /\ cache_untouched w (after_all env ops w)
  /\ cache_file (after_all env ops w) = file.
Proof.
  intros built w.
  assert (Hall : forall w0,
            cache_untouched_if_disabled w0 (after_all env ops w0)).
  { pose proof cache_untouched_if_disabled_frame as F.
    induction ops as [|op ops IH]; intros w0; cbn [after_all fold_left].
    - apply (frame_refl _ F).
    - eapply (frame_trans _ F); [apply forced_operation|apply IH]. }
  split; [reflexivity|]. split; [reflexivity|].
  pose proof (Hall w eq_refl) as Huntouched.
  split; [exact Huntouched|]. now destruct Huntouched as [-> _].
Qed.

(** ** Priming *)

Lemma request_loop_keeps_session env req retries w :
  let w' := snd (request_attempts env req retries (range retries) None w) in
  same_session w w' /\ trace_grows w w'.
Proof.
  destruct (Z_le_gt_dec retries 0) as [Hnone|Hsome].
  - unfold range. replace (Z.to_nat retries) with 0%nat by lia. cbn.
    split; [apply same_session_refl|]. exists []. now rewrite app_nil_r.
  - destruct (request_loop_anatomy env req retries w)
      as (k & r & w' & Hrun & _ & Htrace & _ & _ & _ & _ & Hsame & _); [lia|].
    rewrite Hrun. cbn. split; [exact Hsame|]. eexists. exact Htrace.
Qed.

Lemma request_keeps_session env method url params data headers retries w :
  same_session w (snd (_request env method url params data headers retries w)).
Proof. apply request_loop_keeps_session. Qed.

Lemma guarded_request_state {A} (m : M World A) w :
  snd (try_except m is_KyoceraHTTPError auth_required_on_401_403 w)
  = snd (m w).
Proof.
  unfold try_except. destruct (m w) as [[a|e] w1]; [reflexivity|].
  destruct (is_KyoceraHTTPError e); [|reflexivity].
  unfold auth_required_on_401_403. now destruct (unauthorized e).
Qed.

Lemma update_csrf_run html w :
  _update_csrf_from_html html w
  = (Return tt,
     match PyStr.search_csrf_meta html with
     | Some token => set_csrf_token (Some token) w
     | None => w
     end).
Proof.
  unfold _update_csrf_from_html.
  now destruct (PyStr.search_csrf_meta html).
Qed.

Lemma ensure_signage_ready_run env w :
  _ensure_signage_ready env w
  = if _signage_ready w then (Return tt, w)
    else
      match
        try_except
          (_request env "GET" (_signage_url env) None None
             (Some [("Accept", "text/html")]) default_retries)
          is_KyoceraHTTPError auth_required_on_401_403 w
      with
      | (Return html, w1) =>
          (Return tt,
           set_signage_ready true (snd (_update_csrf_from_html html w1)))
      | (Raise e, w1) => (Raise e, w1)
      end.
Proof.
  unfold _ensure_signage_ready. unfold bind at 1, gets at 1.
  destruct (_signage_ready w); [reflexivity|].
  unfold bind at 1.
  destruct (try_except _ _ _ w) as [[html|e] w1]; [|reflexivity].
  unfold bind. now rewrite update_csrf_run.
Qed.

(** X15.  The priming flag of [_ensure_signage_ready].  On a client
    that is primed the call does nothing at all: no request, the same
    world.  A call that returns leaves the client primed.  A call that
    raises leaves it not primed and with the token it had, so the next
    call asks for the signage page again. *)
Theorem ensure_signage_ready_flag env w :
  (_signage_ready w = true -> _ensure_signage_ready env w = (Return tt, w))
  /\ (forall w',
        _ensure_signage_ready env w = (Return tt, w') ->
        _signage_ready w' = true)
  /\ (forall e w',
        _ensure_signage_ready env w = (Raise e, w') ->
        _signage_ready w = false
        /\ _signage_ready w' = false
        /\ csrf_token w' = csrf_token w).
Proof.
  rewrite ensure_signage_ready_run.
  destruct (_signage_ready w) eqn:Hready.
  - split; [reflexivity|]. split.
    + intros w' H. inversion H; subst. exact Hready.
    + intros e w' H. discriminate H.
  - split; [intros H; discriminate H|].
    pose proof (guarded_request_state
                  (_request env "GET" (_signage_url env) None None
                     (Some [("Accept", "text/html")]) default_retries) w)
      as Hstate.
    pose proof (request_keeps_session env "GET" (_signage_url env) None None
                  (Some [("Accept", "text/html")]) default_retries w)
      as Hsame.
    rewrite <- Hstate in Hsame.
    destruct (try_except _ _ _ w) as [[html|e] w1]; cbn [snd] in Hsame.
    + split; [|intros e w' H; discriminate H].
      intros w' H. inversion H; subst. reflexivity.
    + split; [intros w' H; discriminate H|]. intros e' w' H.
      inversion H; subst.
      destruct Hsame as (Htoken & Hflag & _).
      split; [reflexivity|]. split; congruence.
Qed.

Lemma ensure_signage_ready_flag_witness :
  _signage_ready (snd (_ensure_signage_ready live_session fresh_client)) = true.
Proof.
  destruct (ensure_signage_ready_flag live_session fresh_client)
    as (_ & Hreturn & _).
  apply Hreturn. vm_compute. reflexivity.
Defined.

(** Once the session is primed, a fetch leaves the world the status
    request leaves: what is made of the answer changes nothing. *)
Lemma fetch_realtime_state env w w1 :
  _ensure_signage_ready env w = (Return tt, w1) ->
  snd (fetch_realtime env w)
  = snd (request_attempts env (realtime_request env (csrf_token w1))
           default_retries (range default_retries) None w1).
Proof.
  intros Hprime. rewrite (fetch_realtime_primed env w w1 Hprime).
  destruct (request_attempts _ _ _ _ _ w1) as [[text|e] w2]; cbn [snd].
  - destruct (PyStr.startswith _ _); [reflexivity|].
    destruct (json_loads (lib env) text) as [detail|data]; [reflexivity|].
    destruct data as [| | | | |members]; try reflexivity.
    unfold bind, json_get, ret.
    destruct (result_not_ok _); [reflexivity|].
    unfold json_getitem.
    now destruct (PyDict.get String.eqb "data" members).
  - destruct (is_KyoceraHTTPError e); [|reflexivity].
    unfold auth_required_on_401_403. now destruct (unauthorized e).
Qed.

Lemma ensure_returns_primed env w w1 :
  _ensure_signage_ready env w = (Return tt, w1) -> _signage_ready w1 = true.
Proof.
  rewrite ensure_signage_ready_run.
  destruct (_signage_ready w) eqn:Hready.
  - intros H. inversion H; subst. exact Hready.
  - destruct (try_except _ _ _ w) as [[html|e] w2]; [|discriminate].
    intros H. inversion H; subst. reflexivity.
Qed.

Lemma opens_retried req k :
  opens (retried_events req k ++ [Opened req]) = repeat req (S k).
Proof.
  rewrite opens_app. cbn [opens].
  replace (S k) with (k + 1)%nat by lia. rewrite repeat_app. f_equal.
  induction k as [|k IH]; [reflexivity|].
  rewrite retried_events_S, opens_app, IH. cbn [opens].
  replace (S k) with (k + 1)%nat by lia. now rewrite repeat_app.
Qed.

(** X16.  Priming is done once.  A fetch that returns leaves the client
    primed; and the fetch of a primed client sends the status request
    and nothing else, once to three times: the request carries the
    token the client holds in [X-CSRF-Token] when that token is not
    empty, and no such header otherwise. *)
Theorem fetch_primes_once env w :
  (forall data w',
     fetch_realtime env w = (Return data, w') -> _signage_ready w' = true)
  /\ (_signage_ready w = true ->
      let req := realtime_request env (csrf_token w) in
      (exists k,
         (k < 3)%nat
         /\ trace (snd (fetch_realtime env w))
            = trace w ++ retried_events req k ++ [Opened req]
         /\ opens (retried_events req k ++ [Opened req]) = repeat req (S k))
      /\ PyDict.get String.eqb "X-CSRF-Token" (req_headers req)
         = (if token_set (csrf_token w) then csrf_token w else None)).
Proof.
  split.
  - intros data w' Hrun.
    assert (Hstate : snd (fetch_realtime env w) = w') by now rewrite Hrun.
    unfold fetch_realtime in Hrun.
    apply bind_returns in Hrun as ([] & w1 & Hprime & _).
    rewrite (fetch_realtime_state env w w1 Hprime) in Hstate.
    destruct (request_loop_keeps_session env
                (realtime_request env (csrf_token w1)) default_retries w1)
      as [(_ & Hflag & _) _].
    rewrite Hstate in Hflag. rewrite Hflag.
    eapply ensure_returns_primed, Hprime.
  - intros Hready req. split.
    + assert (Hprime : _ensure_signage_ready env w = (Return tt, w))
        by now rewrite ensure_signage_ready_run, Hready.
      rewrite (fetch_realtime_state env w w Hprime). fold req.
      destruct (request_loop_anatomy env req default_retries w)
        as (k & r & w' & Hrun & Hk & Htrace & _); [unfold default_retries; lia|].
      exists k. rewrite Hrun. cbn [snd].
      split; [unfold default_retries in Hk; lia|].
      split; [exact Htrace|apply opens_retried].
    + subst req. unfold realtime_request.
      destruct (csrf_token w) as [[|c t]|]; reflexivity.
Qed.

Lemma fetch_primes_once_witness :
  let w := snd (fetch_realtime live_session fresh_client) in
  _signage_ready w = true
  /\ PyDict.get String.eqb "X-CSRF-Token"
       (req_headers (realtime_request live_session (csrf_token w)))
     = Some "tok123".
Proof.
  intros w.
  destruct (fetch_primes_once live_session fresh_client) as [Hreturn _].
  assert (Hready : _signage_ready w = true).
  { eapply Hreturn. vm_compute. reflexivity. }
  split; [exact Hready|].
  destruct (fetch_primes_once live_session w) as [_ Hprimed].
  destruct (Hprimed Hready) as [_ Hheader].
  rewrite Hheader. reflexivity.
Defined.

Lemma retried_first req k :
  exists rest, retried_events req k ++ [Opened req] = Opened req :: rest.
Proof.
  unfold retried_events. rewrite range_of_nat.
  destruct k as [|k]; cbn; eauto.
Qed.

Lemma update_csrf_trace html w :
  trace (snd (_update_csrf_from_html html w)) = trace w.
Proof.
  rewrite update_csrf_run. now destruct (PyStr.search_csrf_meta html).
Qed.

Lemma ensure_unprimed_trace env w :
  _signage_ready w = false ->
  exists rest,
    trace (snd (_ensure_signage_ready env w))
    = trace w ++ Opened (signage_request env) :: rest.
Proof.
  intros Hready. rewrite ensure_signage_ready_run, Hready.
  pose proof (guarded_request_state
                (_request env "GET" (_signage_url env) None None
                   (Some [("Accept", "text/html")]) default_retries) w)
    as Hstate.
  destruct (request_anatomy env "GET" (_signage_url env) None None
              (Some [("Accept", "text/html")]) default_retries w)
    as (k & r & w' & Hrun & _ & Htrace & _); [unfold default_retries; lia|].
  rewrite Hrun in Hstate. cbn [snd] in Hstate.
  fold (signage_request env) in Htrace.
  destruct (retried_first (signage_request env) k) as [rest Hfirst].
  rewrite Hfirst in Htrace. exists rest.
  destruct (try_except _ _ _ w) as [[html|e] w1]; cbn [snd] in *; subst w1.
  - cbn [trace set_signage_ready]. now rewrite update_csrf_trace.
  - exact Htrace.
Qed.

Lemma fetch_unprimed_trace env w :
  _signage_ready w = false ->
  exists rest,
    trace (snd (fetch_realtime env w))
    = trace w ++ Opened (signage_request env) :: rest.
Proof.
  intros Hready.
  destruct (ensure_unprimed_trace env w Hready) as [rest Htrace].
  destruct (_ensure_signage_ready env w) as [[[]|e] w1] eqn:Hprime;
    cbn [snd] in Htrace.
  - rewrite (fetch_realtime_state env w w1 Hprime).
    destruct (request_loop_keeps_session env
                (realtime_request env (csrf_token w1)) default_retries w1)
      as [_ [more Hmore]].
    rewrite Hmore, Htrace. exists (rest ++ more).
    now rewrite <- app_assoc.
  - unfold fetch_realtime. rewrite (bind_raise _ _ _ _ _ Hprime).
    now exists rest.
Qed.

Lemma persist_session_run env w :
  _persist_session env w
  = if disable_cache w then (Return tt, w)
    else if cache_writable w
         then (Return tt,
               set_trace (trace w ++ [Wrote (session_snapshot w)])
                 (set_cache_file (Stored (session_snapshot w)) w))
         else (Raise (OSError "Permission denied"), w).
Proof.
  unfold _persist_session, bind, gets, modify, emit, raise. cbn.
  destruct (disable_cache w); [reflexivity|].
  now destruct (cache_writable w).
Qed.

(** X17.  A login that returns leaves the client not primed, so the
    fetch that follows starts over from the signage page: the first
    thing it does is to send the signage request. *)
Theorem login_unprimes env w w' :
  login env w = (Return tt, w') ->
  _signage_ready w' = false
  /\ exists rest,
       trace (snd (fetch_realtime env w'))
       = trace w' ++ Opened (signage_request env) :: rest.
Proof.
  intros Hrun.
  assert (Hflag : _signage_ready w' = false).
  { unfold login in Hrun.
    apply bind_returns in Hrun as ([form token] & w1 & _ & Hrun).
    cbv zeta in Hrun.
    apply bind_returns in Hrun as (page & w2 & _ & Hrun).
    destruct (_ || _); [discriminate|].
    apply bind_returns in Hrun as ([] & w3 & _ & Hrun).
    apply bind_returns in Hrun as ([] & w4 & Hready & Hrun).
    injection Hready as <-.
    rewrite persist_session_run in Hrun. cbn in Hrun.
    destruct (disable_cache w3); [now injection Hrun as <-|].
    destruct (cache_writable w3); [now injection Hrun as <-|discriminate]. }
  split; [exact Hflag|]. now apply fetch_unprimed_trace.
Qed.

Lemma login_unprimes_witness :
  let env :=
    scripted [ Response login_page None [];
               Response "<html>Welcome</html>" None [session_cookie] ] in
  let w' := snd (login env (set_signage_ready true fresh_client)) in
  _signage_ready w' = false
  /\ exists rest,
       trace (snd (fetch_realtime env w'))
       = trace w' ++ Opened (signage_request env) :: rest.
Proof.
  intros env w'.
  apply (login_unprimes env (set_signage_ready true fresh_client)).
  vm_compute. reflexivity.
Defined.








(** ** The request of a login *)




(** ** The token in a page *)

Lemma lower_char_lt c : PyStr.lower_char c = "<"%char -> c = "<"%char.
Proof.
  destruct c as [[] [] [] [] [] [] [] []]; cbv; congruence.
Qed.

Lemma space_not_letter c :
  PyStr.is_space c = true -> PyStr.lower_char c = c.
Proof.
  destruct c as [[] [] [] [] [] [] [] []]; cbv; congruence.
Qed.

Lemma match_literal_app lit s1 s2 :
  PyStr.lower s1 = PyStr.lower lit ->
  PyStr.match_literal lit (s1 ++ s2) = Some s2.
Proof.
  revert s1. induction lit as [|a lit IH]; intros [|b s1] H;
    try discriminate; [reflexivity|].
  cbn [PyStr.lower] in H. injection H as Hc Hrest.
  cbn [append PyStr.match_literal]. rewrite Hc, Ascii.eqb_refl.
  now apply IH.
Qed.

Lemma match_literal_other lit c s a :
  PyStr.lower_char a <> PyStr.lower_char c ->
  PyStr.match_literal (String a lit) (String c s) = None.
Proof.
  intros H. cbn [PyStr.match_literal].
  now rewrite (proj2 (Ascii.eqb_neq _ _) H).
Qed.

Lemma lstrip_spaces ws s :
  all_space ws = true ->
  match s with String c _ => PyStr.is_space c = false | EmptyString => True end ->
  PyStr.lstrip (ws ++ s) = s.
Proof.
  intros Hws Hs. induction ws as [|c ws IH]; cbn [append].
  - destruct s as [|c s]; [reflexivity|]. cbn [PyStr.lstrip]. now rewrite Hs.
  - cbn [all_space] in Hws. apply andb_prop in Hws as [Hc Hws].
    cbn [PyStr.lstrip]. rewrite Hc. now apply IH.
Qed.

Lemma match_spaces_app ws s :
  ws <> "" -> all_space ws = true ->
  match s with String c _ => PyStr.is_space c = false | EmptyString => True end ->
  PyStr.match_spaces (ws ++ s) = Some s.
Proof.
  intros Hne Hws Hs. destruct ws as [|c ws]; [now elim Hne|].
  cbn [all_space] in Hws. apply andb_prop in Hws as [Hc Hws].
  cbn [append PyStr.match_spaces]. rewrite Hc.
  now rewrite lstrip_spaces.
Qed.

Lemma span_unquoted_app token rest :
  lacks PyStr.dquote token = true ->
  PyStr.span_unquoted (token ++ String PyStr.dquote rest)
  = (token, String PyStr.dquote rest).
Proof.
  induction token as [|c token IH]; intros H; cbn [append].
  - reflexivity.
  - cbn [lacks] in H. apply andb_prop in H as [Hc Htoken].
    cbn [PyStr.span_unquoted].
    apply negb_true_iff in Hc. rewrite Hc, (IH Htoken). reflexivity.
Qed.

Lemma first_not_space s a t :
  PyStr.lower s = String a t -> PyStr.is_space a = false ->
  match s with
  | String c _ => PyStr.is_space c = false
  | EmptyString => True
  end.
Proof.
  destruct s as [|c s]; [trivial|]. cbn [PyStr.lower]. intros [= Hc _] Ha.
  destruct (PyStr.is_space c) eqn:Hspace; [|reflexivity].
  rewrite (space_not_letter c Hspace) in Hc. congruence.
Qed.

Lemma append_first (s1 s2 : string) :
  match s1 with
  | String c _ => PyStr.is_space c = false
  | EmptyString => False
  end ->
  match (s1 ++ s2)%string with
  | String c _ => PyStr.is_space c = false
  | EmptyString => True
  end.
Proof. destruct s1; [intros []|trivial]. Qed.

Lemma match_csrf_meta_text tag ws1 name ws2 content token rest :
  PyStr.lower tag = "<meta" ->
  PyStr.lower name = PyStr.lower PyStr.name_attr ->
  PyStr.lower content = PyStr.lower PyStr.content_attr ->
  ws1 <> "" -> all_space ws1 = true ->
  ws2 <> "" -> all_space ws2 = true ->
  token <> "" -> lacks PyStr.dquote token = true ->
  PyStr.match_csrf_meta (csrf_meta_text tag ws1 name ws2 content token rest)
  = Some token.
Proof.
  intros Htag Hname Hcontent Hne1 Hws1 Hne2 Hws2 Hne Htoken.
  unfold PyStr.match_csrf_meta, csrf_meta_text.
  rewrite match_literal_app by exact Htag.
  rewrite match_spaces_app; [|exact Hne1|exact Hws1|].
  2:{ apply append_first.
      pose proof (first_not_space name _ _ Hname eq_refl) as H.
      destruct name; [discriminate|exact H]. }
  rewrite match_literal_app by exact Hname.
  rewrite match_spaces_app; [|exact Hne2|exact Hws2|].
  2:{ apply append_first.
      pose proof (first_not_space content _ _ Hcontent eq_refl) as H.
      destruct content; [discriminate|exact H]. }
  rewrite match_literal_app by exact Hcontent.
  rewrite span_unquoted_app by exact Htoken.
  destruct token; [now elim Hne|reflexivity].
Qed.

Lemma match_csrf_meta_other c s :
  c <> "<"%char -> PyStr.match_csrf_meta (String c s) = None.
Proof.
  intros Hc. unfold PyStr.match_csrf_meta.
  rewrite match_literal_other; [reflexivity|].
  intros H. apply Hc. symmetry in H. now apply lower_char_lt in H.
Qed.

Lemma search_csrf_meta_skip pre s :
  lacks "<" pre = true ->
  PyStr.search_csrf_meta (pre ++ s) = PyStr.search_csrf_meta s.
Proof.
  induction pre as [|c pre IH]; intros H; [reflexivity|].
  cbn [lacks] in H. apply andb_prop in H as [Hc Hpre].
  cbn [append PyStr.search_csrf_meta].
  rewrite match_csrf_meta_other; [now apply IH|].
  apply negb_true_iff in Hc. now apply Ascii.eqb_neq.
Qed.

Lemma search_csrf_meta_here s token :
  PyStr.match_csrf_meta s = Some token ->
  PyStr.search_csrf_meta s = Some token.
Proof. intros H. destruct s; cbn [PyStr.search_csrf_meta]; now rewrite H. Qed.

(** X21.  The token is read from a page.  When the first angle bracket
    of a page opens a meta element of the shape the pattern wants (the
    tag, the name attribute csrf-token and the content attribute, in
    this order, in any case of letters, separated by whitespace, the
    token between double quotes), [_update_csrf_from_html] makes that
    token the token of the client and changes nothing else. *)
Theorem csrf_token_read_from_page pre tag ws1 name ws2 content token rest w :
  lacks "<" pre = true ->
  PyStr.lower tag = "<meta" ->
  PyStr.lower name = PyStr.lower PyStr.name_attr ->
  PyStr.lower content = PyStr.lower PyStr.content_attr ->
  ws1 <> "" -> all_space ws1 = true ->
  ws2 <> "" -> all_space ws2 = true ->
  token <> "" -> lacks PyStr.dquote token = true ->
  let html :=
    (pre ++ csrf_meta_text tag ws1 name ws2 content token rest)%string in
  PyStr.search_csrf_meta html = Some token
  /\ _update_csrf_from_html html w = (Return tt, set_csrf_token (Some token) w).
Proof.
  intros Hpre Htag Hname Hcontent Hne1 Hws1 Hne2 Hws2 Hne Htoken html.
  assert (Hsearch : PyStr.search_csrf_meta html = Some token).
  { subst html. rewrite search_csrf_meta_skip by exact Hpre.
    now apply search_csrf_meta_here, match_csrf_meta_text. }
  split; [exact Hsearch|].
  now rewrite update_csrf_run, Hsearch.
Qed.

(** A page in upper case, with a tab and a line break between the
    attributes. *)
Lemma csrf_token_read_from_page_witness :
  let html :=
    ("ok " ++ csrf_meta_text "<META" " " ("NAME=" ++ q ++ "CSRF-Token" ++ q)
                (String "009" (String "010" "")) ("Content=" ++ q) "tok9"
                "></head>")%string in
  _update_csrf_from_html html fresh_client
  = (Return tt, set_csrf_token (Some "tok9") fresh_client).
Proof.
  intros html.
  apply (csrf_token_read_from_page "ok " "<META" " "
           ("NAME=" ++ q ++ "CSRF-Token" ++ q)%string
           (String "009" (String "010" "")) ("Content=" ++ q)%string "tok9"
           "></head>" fresh_client);
    try reflexivity; discriminate.
Defined.

Lemma lacks_app c (s1 s2 : string) :
  lacks c (s1 ++ s2) = lacks c s1 && lacks c s2.
Proof.
  induction s1 as [|c' s1 IH]; [reflexivity|].
  cbn [append lacks]. now rewrite IH, andb_assoc.
Qed.

Lemma search_csrf_meta_none s :
  lacks "<" s = true -> PyStr.search_csrf_meta s = None.
Proof.
  induction s as [|c s IH]; intros H; [reflexivity|].
  cbn [lacks] in H. apply andb_prop in H as [Hc Hs].
  cbn [PyStr.search_csrf_meta].
  rewrite match_csrf_meta_other; [now apply IH|].
  apply negb_true_iff in Hc. now apply Ascii.eqb_neq.
Qed.

(** X22.  The pattern of [_update_csrf_from_html] wants the name
    attribute before the content attribute.  A meta element that gives
    the content first is not recognised: the client's token is left as
    it was, although the parser of the login page, which reads the
    attributes of the same element in any order, finds the token. *)
Theorem csrf_meta_order_matters token w :
  lacks "<" token = true ->
  PyStr.search_csrf_meta (csrf_meta_reversed token) = None
  /\ _update_csrf_from_html (csrf_meta_reversed token) w = (Return tt, w)
  /\ LoginFormParser.csrf_token
       (LoginFormParser.feed LoginFormParser.init
          [StartTag "meta" [("content", Some token);
                            ("name", Some "csrf-token")]])
     = Some token.
Proof.
  intros Htoken.
  assert (Hsearch : PyStr.search_csrf_meta (csrf_meta_reversed token) = None).
  { unfold csrf_meta_reversed.
    change ("<meta content=" ++ q ++ token ++ q ++ " name=" ++ q
            ++ "csrf-token" ++ q ++ ">")%string
      with (String "<" ("meta content=" ++ q ++ token ++ q ++ " name=" ++ q
                        ++ "csrf-token" ++ q ++ ">"))%string.
    cbn [PyStr.search_csrf_meta].
    replace (PyStr.match_csrf_meta _) with (@None string) by reflexivity.
    apply search_csrf_meta_none.
    rewrite !lacks_app, Htoken. reflexivity. }
  split; [exact Hsearch|]. split; [|reflexivity].
  now rewrite update_csrf_run, Hsearch.
Qed.

Lemma csrf_meta_order_matters_witness :
  _update_csrf_from_html (csrf_meta_reversed "tok9")
    (set_csrf_token (Some "old") fresh_client)
  = (Return tt, set_csrf_token (Some "old") fresh_client).
Proof.
  destruct (csrf_meta_order_matters "tok9"
              (set_csrf_token (Some "old") fresh_client) eq_refl)
    as (_ & H & _).
  exact H.
Defined.

(** ** Entries of the cache without a name *)

Lemma decode_nameless float_of_str entry :
  nameless entry = true -> decode_entry float_of_str entry = Return None.
Proof.
  destruct entry as [| | | | |members]; try discriminate.
  cbn [nameless]. intros H.
  unfold decode_entry, _cookie_from_dict, json_get, bind, ret. cbn.
  now rewrite H.
Qed.

Lemma load_entries_named float_of_str entries : forall jar,
  load_entries float_of_str entries jar
  = load_entries float_of_str
      (filter (fun entry => negb (nameless entry)) entries) jar.
Proof.
  induction entries as [|entry entries IH]; intros jar; [reflexivity|].
  cbn [filter]. destruct (nameless entry) eqn:Hname; cbn [negb].
  - cbn [load_entries]. rewrite (decode_nameless _ _ Hname). apply IH.
  - cbn [load_entries].
    destruct (decode_entry float_of_str entry) as [[cookie|]|e];
      [|apply IH|reflexivity].
    destruct (set_cookie cookie jar) as [[[]|e] jar']; [apply IH|reflexivity].
Qed.

(** X23.  An entry of the cache that is a dictionary without a name (or
    with a name that is null or empty) is skipped, and the entries after
    it are still loaded: the jar is the one the same cache gives with
    those entries taken out.  Loading such an entry alone changes
    nothing and raises nothing. *)
Theorem nameless_entries_skipped env w timestamp entries :
  cache_file w = Stored (cache_payload timestamp entries) ->
  let named := filter (fun entry => negb (nameless entry)) entries in
  cookie_jar (snd (_load_session_cache env w))
  = cookie_jar
      (snd (_load_session_cache env
              (set_cache_file (Stored (cache_payload timestamp named)) w)))
  /\ forall entry w0,
       nameless entry = true -> load_cookie env entry w0 = (Return tt, w0).
Proof.
  intros Hfile named. split.
  - rewrite !load_session_cache_state, Hfile.
    cbn [cache_file set_cache_file cache_payload timestamp_of PyDict.get
         String.eqb Ascii.eqb Bool.eqb cookie_entries clock cookie_jar].
    destruct (clock w - timestamp >? SESSION_MAX_AGE)%Z; [reflexivity|].
    cbn [cookie_jar set_cookie_jar]. apply load_entries_named.
  - intros entry w0 Hname. unfold load_cookie, bind.
    now rewrite cookie_from_dict_pure, (decode_nameless _ _ Hname).
Qed.

Lemma nameless_entries_skipped_witness :
  let cache :=
    cache_payload 3540
      [JObj [("value", JStr "x")]; _cookie_to_dict session_cookie;
       JObj [("name", JNull)]] in
  map cookie_name
    (jar_cookies
       (cookie_jar
          (snd (_load_session_cache (scripted [])
                  (new_client false 3600 (Stored cache) true)))))
  = [JStr "_session_id"].
Proof.
  intros cache.
  destruct (nameless_entries_skipped (scripted [])
              (new_client false 3600 (Stored cache) true) 3540
              [JObj [("value", JStr "x")]; _cookie_to_dict session_cookie;
               JObj [("name", JNull)]] eq_refl) as [Hjar _].
  rewrite Hjar. vm_compute. reflexivity.
Defined.

(** ** A session that has expired *)

(** X24.  A session that was persisted more than [SESSION_MAX_AGE]
    seconds ago is not taken up: a client built then starts with an
    empty jar, although the file holds the cookies, and the file is left
    as it is (it is neither deleted nor rewritten by the loader). *)
Theorem persisted_session_expires env w now writable :
  disable_cache w = false ->
  cache_writable w = true ->
  (now - clock w > SESSION_MAX_AGE)%Z ->
  let saved := _persist_session env w in
  let client :=
    KyoceraClient_init env false now (cache_file (snd saved)) writable in
  fst saved = Return tt
  /\ cache_file (snd saved) = Stored (session_snapshot w)
  /\ fst client = Return tt
  /\ cookie_jar (snd client) = []
  /\ cache_file (snd client) = Stored (session_snapshot w)
  /\ trace (snd client) = [].
Proof.
  intros Hdisabled Hwritable Hold saved client.
  assert (Hsaved : saved
                   = (Return tt,
                      set_trace (trace w ++ [Wrote (session_snapshot w)])
                        (set_cache_file (Stored (session_snapshot w)) w))).
  { subst saved. now rewrite persist_session_run, Hdisabled, Hwritable. }
  subst client. rewrite Hsaved.
  cbn [fst snd cache_file set_trace set_cache_file].
  split; [reflexivity|]. split; [reflexivity|].
  unfold KyoceraClient_init.
  split; [apply load_session_cache_returns|].
  rewrite load_session_cache_state.
  cbn [cache_file new_client session_snapshot timestamp_of PyDict.get
       String.eqb Ascii.eqb Bool.eqb clock].
  replace (now - clock w >? SESSION_MAX_AGE)%Z with true
    by (symmetry; apply Z.gtb_lt; lia).
  repeat split.
Qed.

Lemma persisted_session_expires_witness :
  let w := set_cookie_jar sample_jar fresh_client in
  let saved := _persist_session live_session w in
  let client :=
    KyoceraClient_init live_session false 5401 (cache_file (snd saved)) true in
  cookie_jar w <> []
  /\ cookie_jar (snd client) = []
  /\ cache_file (snd client) = Stored (session_snapshot w).
Proof.
  intros w saved client.
  split; [vm_compute; discriminate|].
  destruct (persisted_session_expires live_session w 5401 true)
    as (_ & _ & _ & Hjar & Hfile & _);
    [reflexivity|reflexivity|vm_compute; reflexivity|].
  split; [exact Hjar|exact Hfile].
Defined.

(** ** Loading the configuration *)

Lemma lstrip_first s :
  match first_char (PyStr.lstrip s) with
  | Some c => PyStr.is_space c = false
  | None => True
  end.
Proof.
  induction s as [|c s IH]; [exact I|]. cbn [PyStr.lstrip].
  destruct (PyStr.is_space c) eqn:Hc; [exact IH|exact Hc].
Qed.

Lemma lstrip_last s :
  match last_char (PyStr.lstrip s) with
  | Some c => last_char s = Some c
  | None => True
  end.
Proof.
  induction s as [|c s IH]; [exact I|]. cbn [PyStr.lstrip].
  destruct (PyStr.is_space c).
  - destruct (last_char (PyStr.lstrip s)) as [l|]; [|exact I].
    cbn [last_char]. now rewrite IH.
  - now destruct (last_char (String c s)).
Qed.

Lemma rstrip_last s :
  match last_char (rstrip s) with
  | Some c => PyStr.is_space c = false
  | None => True
  end.
Proof.
  induction s as [|c s IH]; [exact I|]. cbn [rstrip].
  destruct (rstrip s) as [|c' s'] eqn:Hs.
  - destruct (PyStr.is_space c) eqn:Hc; [exact I|exact Hc].
  - cbn [last_char] in *.
    now destruct (last_char s').
Qed.

Lemma strip_trimmed s : trimmed (strip s).
Proof.
  unfold trimmed, strip. split; [apply lstrip_first|].
  pose proof (lstrip_last (rstrip s)) as Hlast.
  destruct (last_char (PyStr.lstrip (rstrip s))) as [c|]; [|exact I].
  pose proof (rstrip_last s) as Hr. now rewrite Hlast in Hr.
Qed.

Lemma or_default_trimmed s default :
  trimmed default -> default <> "" ->
  trimmed (or_default (strip s) default)
  /\ or_default (strip s) default <> "".
Proof.
  intros Ht Hne. unfold or_default.
  destruct (strip s) as [|c t] eqn:Hs; cbn [PyStr.nonempty].
  - now split.
  - split; [|discriminate]. rewrite <- Hs. apply strip_trimmed.
Qed.

(** What [load] makes of a file that was read, key by key. *)
Lemma config_load_run {S} float_of int_of path cp (s : S) :
  KyoceraConfig_load float_of int_of path (Parsed cp) s
  = match PyDict.get String.eqb "auth" cp with
    | None => (Raise (missing_auth "auth"), s)
    | Some auth =>
    match PyDict.get String.eqb "email" auth with
    | None => (Raise (missing_auth "email"), s)
    | Some address =>
    match PyDict.get String.eqb "password" auth with
    | None => (Raise (missing_auth "password"), s)
    | Some secret =>
    match PyDict.get String.eqb "site" cp with
    | None => (Raise (missing_site "site"), s)
    | Some site =>
    match PyDict.get String.eqb "organization_id" site with
    | None => (Raise (missing_site "organization_id"), s)
    | Some organization =>
    match PyDict.get String.eqb "site_id" site with
    | None => (Raise (missing_site "site_id"), s)
    | Some place =>
        (Return
           {| client_config :=
                {| email := strip address;
                   password := strip secret;
                   organization_id := strip organization;
                   site_id := strip place;
                   base_url :=
                     or_default
                       (strip (PyDict.get_default String.eqb "base_url"
                                 BASE_URL site))
                       BASE_URL |};
              location :=
                or_default
                  (strip (PyDict.get_default String.eqb "location" "Japan"
                            site))
                  "Japan";
              battery_capacity_kwh :=
                fst (battery_settings float_of int_of cp);
              battery_reserve_percent :=
                snd (battery_settings float_of int_of cp) |}, s)
    end end end end end end.
Proof.
  unfold KyoceraConfig_load, cp_option, cp_section, battery_settings,
    PyDict.mem, bind, try_except, ret, raise.
  destruct (PyDict.get String.eqb "auth" cp) as [auth|]; [|reflexivity].
  destruct (PyDict.get String.eqb "email" auth); [|reflexivity].
  destruct (PyDict.get String.eqb "password" auth); [|reflexivity].
  destruct (PyDict.get String.eqb "site" cp) as [site|]; [|reflexivity].
  destruct (PyDict.get String.eqb "organization_id" site); [|reflexivity].
  destruct (PyDict.get String.eqb "site_id" site); [|reflexivity].
  cbn.
  destruct (PyDict.get String.eqb "battery" cp); reflexivity.
Qed.



(** X26.  What a loaded configuration is like.  The four values it
    takes from [auth] and [site] have no whitespace at either end; the
    base URL and the location have none either and are never empty, an
    option that is missing or blank being replaced by the default; and
    the battery settings fall back to 7.0 kWh and 30 percent, each on
    its own, when the file has no [battery] section or gives a value
    that is not a number. *)
Theorem loaded_config_trimmed {S} float_of int_of path file (s s' : S)
    loaded :
  KyoceraConfig_load float_of int_of path file s = (Return loaded, s') ->
  let c := client_config loaded in
  (trimmed (email c) /\ trimmed (password c)
   /\ trimmed (organization_id c) /\ trimmed (site_id c))
  /\ (trimmed (base_url c) /\ base_url c <> "")
  /\ (trimmed (location loaded) /\ location loaded <> "")
  /\ exists cp,
       file = Parsed cp
       /\ (PyDict.get String.eqb "battery" cp = None ->
           battery_capacity_kwh loaded = 7%float
           /\ battery_reserve_percent loaded = 30%Z)
       /\ (forall options,
             PyDict.get String.eqb "battery" cp = Some options ->
             (float_of (PyDict.get_default String.eqb "capacity_kwh" "7.0"
                          options) = None ->
              battery_capacity_kwh loaded = 7%float)
             /\ (int_of (PyDict.get_default String.eqb "reserve_percent" "30"
                           options) = None ->
                 battery_reserve_percent loaded = 30%Z)).
Proof.
  destruct file as [|cp]; [discriminate|].
  rewrite config_load_run.
  destruct (PyDict.get String.eqb "auth" cp) as [auth|]; [|discriminate].
  destruct (PyDict.get String.eqb "email" auth); [|discriminate].
  destruct (PyDict.get String.eqb "password" auth); [|discriminate].
  destruct (PyDict.get String.eqb "site" cp) as [site|]; [|discriminate].
  destruct (PyDict.get String.eqb "organization_id" site); [|discriminate].
  destruct (PyDict.get String.eqb "site_id" site); [|discriminate].
  intros H. inversion H; subst. cbn.
  split; [auto using strip_trimmed|].
  split; [apply or_default_trimmed; [now split|discriminate]|].
  split; [apply or_default_trimmed; [now split|discriminate]|].
  exists cp. split; [reflexivity|]. unfold battery_settings. split.
  - now intros ->.
  - intros options ->. cbn. split; now intros ->.
Qed.

Lemma loaded_config_trimmed_witness :
  exists loaded,
    fst (KyoceraConfig_load (fun _ => None) (fun _ => None) "kyocera.conf"
           sample_file tt) = Return loaded
    /\ email (client_config loaded) = "user@example.org"
    /\ base_url (client_config loaded) = BASE_URL
    /\ base_url (client_config loaded) <> ""
    /\ battery_capacity_kwh loaded = 7%float.
Proof.
  eexists. split; [vm_compute; reflexivity|].
  split; [reflexivity|]. split; [reflexivity|].
  edestruct (loaded_config_trimmed (fun _ => None) (fun _ => None)
               "kyocera.conf" sample_file tt tt)
    as (_ & (_ & Hurl) & _ & cp & Hcp & _ & Hbattery);
    [vm_compute; reflexivity|].
  split; [exact Hurl|].
  injection Hcp as <-.
  edestruct Hbattery as [Hcapacity _]; [reflexivity|].
  apply Hcapacity. reflexivity.
Defined.

(** ** [main] before the status is fetched *)






(** ** The cost of an operation *)

Lemma costs_weaken {A} n t n' t' (m : M World A) :
  (n <= n')%nat -> (t <= t')%Z -> costs n t m -> costs n' t' m.
Proof. intros Hn Ht Hm w. specialize (Hm w). lia. Qed.

Lemma costs_ret {A} (a : A) : costs 0 0 (ret a).
Proof. intros w. cbn. lia. Qed.

Lemma costs_raise {A} e : costs 0 0 (@raise World A e).
Proof. intros w. cbn. lia. Qed.

Lemma costs_gets {A} (f : World -> A) : costs 0 0 (gets f).
Proof. intros w. cbn. lia. Qed.

Lemma costs_modify f :
  (forall w, requests_sent (f w) = requests_sent w /\ clock (f w) = clock w) ->
  costs 0 0 (modify f).
Proof. intros H w. cbn. destruct (H w). lia. Qed.

Lemma costs_bind {A B} n1 t1 n2 t2 (m : M World A) (k : A -> M World B) :
  (0 <= t1)%Z -> (0 <= t2)%Z ->
  costs n1 t1 m -> (forall a, costs n2 t2 (k a)) ->
  costs (n1 + n2) (t1 + t2) (bind m k).
Proof.
  intros H1 H2 Hm Hk w. unfold bind. specialize (Hm w).
  destruct (m w) as [[a|e] w1]; cbn [snd] in *.
  - specialize (Hk a w1). lia.
  - lia.
Qed.

Lemma costs_try {A} n1 t1 n2 t2 (m : M World A) handles handler :
  (0 <= t1)%Z -> (0 <= t2)%Z ->
  costs n1 t1 m -> (forall e, costs n2 t2 (handler e)) ->
  costs (n1 + n2) (t1 + t2) (try_except m handles handler).
Proof.
  intros H1 H2 Hm Hh w. unfold try_except. specialize (Hm w).
  destruct (m w) as [[a|e] w1]; cbn [snd] in *; [lia|].
  destruct (handles e); cbn [snd]; [|lia].
  specialize (Hh e w1). lia.
Qed.

Lemma costs_request env method url params data headers :
  costs 3 3 (_request env method url params data headers default_retries).
Proof.
  intros w.
  destruct (request_anatomy env method url params data headers
              default_retries w)
    as (k & r & w' & Hrun & Hk & _ & Hsent & Hclock & _);
    [unfold default_retries; lia|].
  rewrite Hrun. cbn [snd]. unfold default_retries in Hk.
  assert (Hcases : (k = 0 \/ k = 1 \/ k = 2)%nat) by lia.
  destruct Hcases as [-> | [-> | ->]]; cbn in Hclock; lia.
Qed.

Lemma costs_seq {A B} n t (m : M World A) (k : A -> M World B) :
  (0 <= t)%Z -> costs 0 0 m -> (forall a, costs n t (k a)) ->
  costs n t (bind m k).
Proof.
  intros Ht Hm Hk.
  apply (costs_weaken (0 + n) (0 + t)); [lia|lia|].
  apply costs_bind; auto; lia.
Qed.

Lemma costs_then {A B} n t (m : M World A) (k : A -> M World B) :
  (0 <= t)%Z -> costs n t m -> (forall a, costs 0 0 (k a)) ->
  costs n t (bind m k).
Proof.
  intros Ht Hm Hk.
  apply (costs_weaken (n + 0) (t + 0)); [lia|lia|].
  apply costs_bind; auto; lia.
Qed.

Lemma costs_update_csrf html : costs 0 0 (_update_csrf_from_html html).
Proof.
  unfold _update_csrf_from_html.
  destruct (PyStr.search_csrf_meta html); [|apply costs_ret].
  apply costs_modify. now intros w.
Qed.

Lemma costs_persist_session env : costs 0 0 (_persist_session env).
Proof.
  intros w. rewrite persist_session_run.
  destruct (disable_cache w); [cbn; lia|].
  destruct (cache_writable w); cbn; lia.
Qed.

Lemma costs_choose_login_form forms : costs 0 0 (choose_login_form forms).
Proof.
  unfold choose_login_form.
  destruct (scan_forms forms None) as [form|[form|]];
    [apply costs_ret|apply costs_ret|apply costs_raise].
Qed.

Lemma costs_download_login_form env : costs 3 3 (_download_login_form env).
Proof.
  unfold _download_login_form. cbv zeta.
  apply costs_then; [lia|apply costs_request|]. intros page.
  apply costs_seq; [lia| |].
  { destruct (token_set _); [|apply costs_ret].
    apply costs_modify. now intros w. }
  intros _. apply costs_seq; [lia|apply costs_choose_login_form|].
  intros form. apply costs_ret.
Qed.

Lemma costs_login env : costs 6 6 (login env).
Proof.
  unfold login.
  apply (costs_bind 3 3 3 3); [lia|lia|apply costs_download_login_form|].
  intros [form token]. cbv zeta.
  apply costs_then; [lia|apply costs_request|]. intros page.
  destruct (_ || _); [apply costs_raise|].
  apply costs_seq; [lia|apply costs_update_csrf|]. intros _.
  apply costs_seq; [lia|apply costs_modify; now intros w|]. intros _.
  apply costs_persist_session.
Qed.

Lemma costs_guarded_request env method url params data headers :
  costs 3 3
    (try_except (_request env method url params data headers default_retries)
       is_KyoceraHTTPError auth_required_on_401_403).
Proof.
  apply (costs_weaken (3 + 0) (3 + 0)); [lia|lia|].
  apply costs_try; [lia|lia|apply costs_request|].
  intros e. unfold auth_required_on_401_403.
  destruct (unauthorized e); apply costs_raise.
Qed.

Lemma costs_ensure_signage_ready env : costs 3 3 (_ensure_signage_ready env).
Proof.
  unfold _ensure_signage_ready.
  apply costs_seq; [lia|apply costs_gets|]. intros [|].
  { apply (costs_weaken 0 0); [lia|lia|apply costs_ret]. }
  apply costs_then; [lia|apply costs_guarded_request|]. intros html.
  apply costs_seq; [lia|apply costs_update_csrf|]. intros _.
  apply costs_modify. now intros w.
Qed.

Lemma costs_fetch_realtime env : costs 6 6 (fetch_realtime env).
Proof.
  unfold fetch_realtime.
  apply (costs_bind 3 3 3 3); [lia|lia|apply costs_ensure_signage_ready|].
  intros _. cbv zeta.
  apply costs_seq; [lia|apply costs_gets|]. intros token.
  apply costs_then; [lia|apply costs_guarded_request|]. intros text.
  destruct (PyStr.startswith _ _); [apply costs_raise|].
  destruct (json_loads (lib env) text) as [detail|data];
    [apply costs_raise|].
  apply costs_seq; [lia| |].
  { unfold json_get. destruct data; try apply costs_raise. apply costs_ret. }
  intros result. destruct (result_not_ok result); [apply costs_raise|].
  unfold json_getitem. destruct data; try apply costs_raise.
  destruct (PyDict.get String.eqb "data" members);
    [apply costs_ret|apply costs_raise].
Qed.

Lemma costs_get_status env : costs 18 18 (get_status env).
Proof.
  unfold get_status, get_status_with.
  apply (costs_try 6 6 12 12); [lia|lia|apply costs_fetch_realtime|].
  intros _.
  apply (costs_bind 6 6 6 6); [lia|lia|apply costs_login|]. intros _.
  apply costs_then; [lia|apply costs_fetch_realtime|]. intros status.
  apply costs_seq; [lia|apply costs_persist_session|]. intros _.
  apply costs_ret.
Qed.

(** X28.  The work of an operation is bounded, whatever the server
    does.  A login and a fetch each send at most 6 requests and sleep
    at most 6 seconds between attempts; [get_status], and so the single
    fetch of [main], sends at most 18 requests and sleeps at most 18
    seconds; and neither the count of requests nor the clock ever goes
    back. *)
Theorem operations_bounded env w :
  let within (requests : nat) (seconds : Z) (w' : World) :=
    (requests_sent w <= requests_sent w' <= requests_sent w + requests)%nat
    /\ (clock w <= clock w' <= clock w + seconds)%Z in
  within 6%nat 6%Z (snd (login env w))
  /\ within 6%nat 6%Z (snd (fetch_realtime env w))
  /\ within 18%nat 18%Z (snd (get_status env w))
  /\ within 18%nat 18%Z (snd (main_single_fetch env w)).
Proof.
  intros within. subst within. cbv beta.
  assert (Hmain : costs 18 18 (main_single_fetch env)).
  { unfold main_single_fetch.
    apply costs_then; [lia| |].
    - apply (costs_weaken (18 + 0) (18 + 0)); [lia|lia|].
      apply costs_try; [lia|lia| |intros e; apply costs_ret].
      apply costs_then; [lia|apply costs_get_status|].
      intros data. apply costs_ret.
    - intros [data|]; [|apply costs_ret].
      apply costs_seq; [lia| |intros _; apply costs_ret].
      apply costs_modify. now intros w0. }
  split; [apply costs_login|]. split; [apply costs_fetch_realtime|].
  split; [apply costs_get_status|apply Hmain].
Qed.
